(** * BFS CPU scheduler (kernel/sched_bfs.c): a shallow embedding

    The scheduler is modelled as pure functions over an explicit machine
    state [sched]: the task arena, the global runqueue [grq], the per-CPU
    runqueues and the tunables.  Pointers to [struct task_struct] are
    indices into the arena; pointers to [struct rq] are CPU numbers
    (the per-CPU array [runqueues]).

    Build configuration modelled: CONFIG_SMP and CONFIG_HOTPLUG_CPU set, no
    CONFIG_SCHED_MC / CONFIG_SCHED_SMT / CONFIG_NUMA, ILP32 (int and long
    are 32 bits wide, u64/s64 are 64 bits wide).  The uniprocessor variant
    of [try_preempt] is given next to the SMP one.

    Not modelled: locking, barriers and preempt counts (every function
    is run with the lock it takes), tracing, profiling, schedstats,
    preempt notifiers, and the CPU-time accounting done by pc_user_time /
    pc_system_time / pc_idle_time with the task fields sched_time,
    utime_pc and stime_pc (these fields are not part of the records
    below, and the statements that only write them are left out). *)

From Stdlib Require Import ZArith List Bool Lia.
Import ListNotations.
Open Scope Z_scope.

(** ** Machine integers *)

Definition wrap_unsigned (w x : Z) : Z := x mod 2 ^ w.
Definition wrap_signed (w x : Z) : Z :=
  (x + 2 ^ (w - 1)) mod 2 ^ w - 2 ^ (w - 1).

Definition to_int (x : Z) : Z := wrap_signed 32 x.
Definition to_uint (x : Z) : Z := wrap_unsigned 32 x.
Definition to_long (x : Z) : Z := wrap_signed 32 x.
Definition to_ulong (x : Z) : Z := wrap_unsigned 32 x.
Definition to_s64 (x : Z) : Z := wrap_signed 64 x.
Definition to_u64 (x : Z) : Z := wrap_unsigned 64 x.

(** ** Bitmaps

    A bitmap (the priority bitmap, a cpumask_t) is the integer whose
    binary digits are its bits. *)

Fixpoint find_bit_from (bm off : Z) (n : nat) : Z :=
  match n with
  | O => off
  | S n' => if Z.testbit bm off then off else find_bit_from bm (off + 1) n'
  end.

(** find_next_bit(addr, size, offset): the first set bit at or after
    [offset] and below [size], or [size] when there is none. *)
Definition find_next_bit (bm size offset : Z) : Z :=
  if size <=? offset then size
  else find_bit_from bm offset (Z.to_nat (size - offset)).

Definition __set_bit (nr bm : Z) : Z := Z.setbit bm nr.
Definition __clear_bit (nr bm : Z) : Z := Z.clearbit bm nr.

(** ** Scheduling policies (the SCHED_* values of linux/sched.h) *)

Inductive sched_policy : Set :=
| SCHED_NORMAL
| SCHED_FIFO
| SCHED_RR
| SCHED_BATCH
| SCHED_ISO
| SCHED_IDLEPRIO.

Definition policy_eqb (a b : sched_policy) : bool :=
  match a, b with
  | SCHED_NORMAL, SCHED_NORMAL
  | SCHED_FIFO, SCHED_FIFO
  | SCHED_RR, SCHED_RR
  | SCHED_BATCH, SCHED_BATCH
  | SCHED_ISO, SCHED_ISO
  | SCHED_IDLEPRIO, SCHED_IDLEPRIO => true
  | _, _ => false
  end.

(** ** Records *)

Definition tid := nat.

(** The scheduler-owned part of [struct task_struct] (with the
    thread_info fields cpu, TIF_NEED_RESCHED, TIF_POLLING_NRFLAG,
    TIF_FREEZE and TIF_SIGPENDING). *)
Record task_struct : Type := mk_task {
  p_state : Z;
  p_flags : Z;
  p_prio : Z;
  p_static_prio : Z;
  p_normal_prio : Z;
  p_rt_priority : Z;
  p_policy : sched_policy;
  p_deadline : Z;
  p_time_slice : Z;
  p_last_ran : Z;
  p_cpus_allowed : Z;
  p_oncpu : bool;
  p_cpu : Z;
  p_need_resched : bool;
  p_polling : bool;
  p_freezing : bool;
  p_sigpending : bool;
  p_sched_reset_on_fork : bool
}.

(** [struct global_rq]; [grq_queue b] is band [b] from head to tail. *)
Record global_rq : Type := mk_grq {
  grq_nr_running : Z;
  grq_nr_uninterruptible : Z;
  grq_nr_switches : Z;
  grq_queue : Z -> list tid;
  grq_prio_bitmap : Z;
  grq_qnr : Z;
  grq_cpu_idle_map : Z;
  grq_idle_cpus : Z;
  grq_niffies : Z;
  grq_last_jiffy : Z;
  grq_iso_ticks : Z;
  grq_iso_refractory : Z
}.

(** [struct rq]. *)
Record rq : Type := mk_rq {
  rq_curr : tid;
  rq_idle_task : tid;
  rq_deadline : Z;
  rq_policy : sched_policy;
  rq_time_slice : Z;
  rq_last_ran : Z;
  rq_prio : Z;
  rq_running : Z;
  rq_timekeep_clock : Z;
  rq_cpu : Z;
  rq_cpu_locality : Z -> Z;
  rq_last_niffy : Z;
  rq_clock : Z;
  rq_old_clock : Z;
  rq_last_tick : Z;
  rq_dither : Z
}.

(** The whole machine.  [jiffies], [sched_clock_cpu],
    [smp_processor_id] and [current] are what the running code reads from its
    environment; [ipis] logs the calls of smp_send_reschedule. *)
Record sched : Type := mk_sched {
  tasks : tid -> task_struct;
  grq : global_rq;
  runqueues : Z -> rq;
  rr_interval : Z;
  sched_iso_cpu : Z;
  prio_ratios : list Z;
  cpu_online_map : Z;
  nr_cpu_ids : Z;
  jiffies : Z;
  sched_clock_cpu : Z -> Z;
  smp_processor_id : Z;
  current : tid;
  ipis : list Z
}.

(** ** Field updates *)

Definition set_p_state v (t : task_struct) : task_struct :=
  mk_task v (p_flags t) (p_prio t) (p_static_prio t) (p_normal_prio t)
    (p_rt_priority t) (p_policy t) (p_deadline t) (p_time_slice t)
    (p_last_ran t) (p_cpus_allowed t) (p_oncpu t) (p_cpu t)
    (p_need_resched t) (p_polling t) (p_freezing t) (p_sigpending t)
    (p_sched_reset_on_fork t).
Definition set_p_prio v (t : task_struct) : task_struct :=
  mk_task (p_state t) (p_flags t) v (p_static_prio t) (p_normal_prio t)
    (p_rt_priority t) (p_policy t) (p_deadline t) (p_time_slice t)
    (p_last_ran t) (p_cpus_allowed t) (p_oncpu t) (p_cpu t)
    (p_need_resched t) (p_polling t) (p_freezing t) (p_sigpending t)
    (p_sched_reset_on_fork t).
Definition set_p_static_prio v (t : task_struct) : task_struct :=
  mk_task (p_state t) (p_flags t) (p_prio t) v (p_normal_prio t)
    (p_rt_priority t) (p_policy t) (p_deadline t) (p_time_slice t)
    (p_last_ran t) (p_cpus_allowed t) (p_oncpu t) (p_cpu t)
    (p_need_resched t) (p_polling t) (p_freezing t) (p_sigpending t)
    (p_sched_reset_on_fork t).
Definition set_p_normal_prio v (t : task_struct) : task_struct :=
  mk_task (p_state t) (p_flags t) (p_prio t) (p_static_prio t) v
    (p_rt_priority t) (p_policy t) (p_deadline t) (p_time_slice t)
    (p_last_ran t) (p_cpus_allowed t) (p_oncpu t) (p_cpu t)
    (p_need_resched t) (p_polling t) (p_freezing t) (p_sigpending t)
    (p_sched_reset_on_fork t).
Definition set_p_policy v (t : task_struct) : task_struct :=
  mk_task (p_state t) (p_flags t) (p_prio t) (p_static_prio t)
    (p_normal_prio t) (p_rt_priority t) v (p_deadline t) (p_time_slice t)
    (p_last_ran t) (p_cpus_allowed t) (p_oncpu t) (p_cpu t)
    (p_need_resched t) (p_polling t) (p_freezing t) (p_sigpending t)
    (p_sched_reset_on_fork t).
Definition set_p_deadline v (t : task_struct) : task_struct :=
  mk_task (p_state t) (p_flags t) (p_prio t) (p_static_prio t)
    (p_normal_prio t) (p_rt_priority t) (p_policy t) v (p_time_slice t)
    (p_last_ran t) (p_cpus_allowed t) (p_oncpu t) (p_cpu t)
    (p_need_resched t) (p_polling t) (p_freezing t) (p_sigpending t)
    (p_sched_reset_on_fork t).
Definition set_p_time_slice v (t : task_struct) : task_struct :=
  mk_task (p_state t) (p_flags t) (p_prio t) (p_static_prio t)
    (p_normal_prio t) (p_rt_priority t) (p_policy t) (p_deadline t) v
    (p_last_ran t) (p_cpus_allowed t) (p_oncpu t) (p_cpu t)
    (p_need_resched t) (p_polling t) (p_freezing t) (p_sigpending t)
    (p_sched_reset_on_fork t).
Definition set_p_last_ran v (t : task_struct) : task_struct :=
  mk_task (p_state t) (p_flags t) (p_prio t) (p_static_prio t)
    (p_normal_prio t) (p_rt_priority t) (p_policy t) (p_deadline t)
    (p_time_slice t) v (p_cpus_allowed t) (p_oncpu t) (p_cpu t)
    (p_need_resched t) (p_polling t) (p_freezing t) (p_sigpending t)
    (p_sched_reset_on_fork t).
Definition set_p_oncpu v (t : task_struct) : task_struct :=
  mk_task (p_state t) (p_flags t) (p_prio t) (p_static_prio t)
    (p_normal_prio t) (p_rt_priority t) (p_policy t) (p_deadline t)
    (p_time_slice t) (p_last_ran t) (p_cpus_allowed t) v (p_cpu t)
    (p_need_resched t) (p_polling t) (p_freezing t) (p_sigpending t)
    (p_sched_reset_on_fork t).
Definition set_p_cpu v (t : task_struct) : task_struct :=
  mk_task (p_state t) (p_flags t) (p_prio t) (p_static_prio t)
    (p_normal_prio t) (p_rt_priority t) (p_policy t) (p_deadline t)
    (p_time_slice t) (p_last_ran t) (p_cpus_allowed t) (p_oncpu t) v
    (p_need_resched t) (p_polling t) (p_freezing t) (p_sigpending t)
    (p_sched_reset_on_fork t).
Definition set_p_need_resched v (t : task_struct) : task_struct :=
  mk_task (p_state t) (p_flags t) (p_prio t) (p_static_prio t)
    (p_normal_prio t) (p_rt_priority t) (p_policy t) (p_deadline t)
    (p_time_slice t) (p_last_ran t) (p_cpus_allowed t) (p_oncpu t) (p_cpu t)
    v (p_polling t) (p_freezing t) (p_sigpending t)
    (p_sched_reset_on_fork t).
Definition set_p_sched_reset_on_fork v (t : task_struct) : task_struct :=
  mk_task (p_state t) (p_flags t) (p_prio t) (p_static_prio t)
    (p_normal_prio t) (p_rt_priority t) (p_policy t) (p_deadline t)
    (p_time_slice t) (p_last_ran t) (p_cpus_allowed t) (p_oncpu t) (p_cpu t)
    (p_need_resched t) (p_polling t) (p_freezing t) (p_sigpending t) v.

Definition set_grq_nr_running v (g : global_rq) : global_rq :=
  mk_grq v (grq_nr_uninterruptible g) (grq_nr_switches g) (grq_queue g)
    (grq_prio_bitmap g) (grq_qnr g) (grq_cpu_idle_map g) (grq_idle_cpus g)
    (grq_niffies g) (grq_last_jiffy g) (grq_iso_ticks g)
    (grq_iso_refractory g).
Definition set_grq_nr_uninterruptible v (g : global_rq) : global_rq :=
  mk_grq (grq_nr_running g) v (grq_nr_switches g) (grq_queue g)
    (grq_prio_bitmap g) (grq_qnr g) (grq_cpu_idle_map g) (grq_idle_cpus g)
    (grq_niffies g) (grq_last_jiffy g) (grq_iso_ticks g)
    (grq_iso_refractory g).
Definition set_grq_queue v (g : global_rq) : global_rq :=
  mk_grq (grq_nr_running g) (grq_nr_uninterruptible g) (grq_nr_switches g) v
    (grq_prio_bitmap g) (grq_qnr g) (grq_cpu_idle_map g) (grq_idle_cpus g)
    (grq_niffies g) (grq_last_jiffy g) (grq_iso_ticks g)
    (grq_iso_refractory g).
Definition set_grq_prio_bitmap v (g : global_rq) : global_rq :=
  mk_grq (grq_nr_running g) (grq_nr_uninterruptible g) (grq_nr_switches g)
    (grq_queue g) v (grq_qnr g) (grq_cpu_idle_map g) (grq_idle_cpus g)
    (grq_niffies g) (grq_last_jiffy g) (grq_iso_ticks g)
    (grq_iso_refractory g).
Definition set_grq_qnr v (g : global_rq) : global_rq :=
  mk_grq (grq_nr_running g) (grq_nr_uninterruptible g) (grq_nr_switches g)
    (grq_queue g) (grq_prio_bitmap g) v (grq_cpu_idle_map g)
    (grq_idle_cpus g) (grq_niffies g) (grq_last_jiffy g) (grq_iso_ticks g)
    (grq_iso_refractory g).
Definition set_grq_niffies v (g : global_rq) : global_rq :=
  mk_grq (grq_nr_running g) (grq_nr_uninterruptible g) (grq_nr_switches g)
    (grq_queue g) (grq_prio_bitmap g) (grq_qnr g) (grq_cpu_idle_map g)
    (grq_idle_cpus g) v (grq_last_jiffy g) (grq_iso_ticks g)
    (grq_iso_refractory g).
Definition set_grq_last_jiffy v (g : global_rq) : global_rq :=
  mk_grq (grq_nr_running g) (grq_nr_uninterruptible g) (grq_nr_switches g)
    (grq_queue g) (grq_prio_bitmap g) (grq_qnr g) (grq_cpu_idle_map g)
    (grq_idle_cpus g) (grq_niffies g) v (grq_iso_ticks g)
    (grq_iso_refractory g).
Definition set_grq_iso_ticks v (g : global_rq) : global_rq :=
  mk_grq (grq_nr_running g) (grq_nr_uninterruptible g) (grq_nr_switches g)
    (grq_queue g) (grq_prio_bitmap g) (grq_qnr g) (grq_cpu_idle_map g)
    (grq_idle_cpus g) (grq_niffies g) (grq_last_jiffy g) v
    (grq_iso_refractory g).
Definition set_grq_iso_refractory v (g : global_rq) : global_rq :=
  mk_grq (grq_nr_running g) (grq_nr_uninterruptible g) (grq_nr_switches g)
    (grq_queue g) (grq_prio_bitmap g) (grq_qnr g) (grq_cpu_idle_map g)
    (grq_idle_cpus g) (grq_niffies g) (grq_last_jiffy g) (grq_iso_ticks g) v.

Definition set_rq_policy v (r : rq) : rq :=
  mk_rq (rq_curr r) (rq_idle_task r) (rq_deadline r) v (rq_time_slice r)
    (rq_last_ran r) (rq_prio r) (rq_running r) (rq_timekeep_clock r)
    (rq_cpu r) (rq_cpu_locality r) (rq_last_niffy r) (rq_clock r)
    (rq_old_clock r) (rq_last_tick r) (rq_dither r).
Definition set_rq_time_slice v (r : rq) : rq :=
  mk_rq (rq_curr r) (rq_idle_task r) (rq_deadline r) (rq_policy r) v
    (rq_last_ran r) (rq_prio r) (rq_running r) (rq_timekeep_clock r)
    (rq_cpu r) (rq_cpu_locality r) (rq_last_niffy r) (rq_clock r)
    (rq_old_clock r) (rq_last_tick r) (rq_dither r).
Definition set_rq_last_ran v (r : rq) : rq :=
  mk_rq (rq_curr r) (rq_idle_task r) (rq_deadline r) (rq_policy r)
    (rq_time_slice r) v (rq_prio r) (rq_running r) (rq_timekeep_clock r)
    (rq_cpu r) (rq_cpu_locality r) (rq_last_niffy r) (rq_clock r)
    (rq_old_clock r) (rq_last_tick r) (rq_dither r).
Definition set_rq_prio v (r : rq) : rq :=
  mk_rq (rq_curr r) (rq_idle_task r) (rq_deadline r) (rq_policy r)
    (rq_time_slice r) (rq_last_ran r) v (rq_running r) (rq_timekeep_clock r)
    (rq_cpu r) (rq_cpu_locality r) (rq_last_niffy r) (rq_clock r)
    (rq_old_clock r) (rq_last_tick r) (rq_dither r).
Definition set_rq_timekeep_clock v (r : rq) : rq :=
  mk_rq (rq_curr r) (rq_idle_task r) (rq_deadline r) (rq_policy r)
    (rq_time_slice r) (rq_last_ran r) (rq_prio r) (rq_running r) v
    (rq_cpu r) (rq_cpu_locality r) (rq_last_niffy r) (rq_clock r)
    (rq_old_clock r) (rq_last_tick r) (rq_dither r).
Definition set_rq_last_niffy v (r : rq) : rq :=
  mk_rq (rq_curr r) (rq_idle_task r) (rq_deadline r) (rq_policy r)
    (rq_time_slice r) (rq_last_ran r) (rq_prio r) (rq_running r)
    (rq_timekeep_clock r) (rq_cpu r) (rq_cpu_locality r) v (rq_clock r)
    (rq_old_clock r) (rq_last_tick r) (rq_dither r).
Definition set_rq_clock v (r : rq) : rq :=
  mk_rq (rq_curr r) (rq_idle_task r) (rq_deadline r) (rq_policy r)
    (rq_time_slice r) (rq_last_ran r) (rq_prio r) (rq_running r)
    (rq_timekeep_clock r) (rq_cpu r) (rq_cpu_locality r) (rq_last_niffy r) v
    (rq_old_clock r) (rq_last_tick r) (rq_dither r).
Definition set_rq_old_clock v (r : rq) : rq :=
  mk_rq (rq_curr r) (rq_idle_task r) (rq_deadline r) (rq_policy r)
    (rq_time_slice r) (rq_last_ran r) (rq_prio r) (rq_running r)
    (rq_timekeep_clock r) (rq_cpu r) (rq_cpu_locality r) (rq_last_niffy r)
    (rq_clock r) v (rq_last_tick r) (rq_dither r).
Definition set_rq_last_tick v (r : rq) : rq :=
  mk_rq (rq_curr r) (rq_idle_task r) (rq_deadline r) (rq_policy r)
    (rq_time_slice r) (rq_last_ran r) (rq_prio r) (rq_running r)
    (rq_timekeep_clock r) (rq_cpu r) (rq_cpu_locality r) (rq_last_niffy r)
    (rq_clock r) (rq_old_clock r) v (rq_dither r).

Definition set_tasks v (s : sched) : sched :=
  mk_sched v (grq s) (runqueues s) (rr_interval s) (sched_iso_cpu s)
    (prio_ratios s) (cpu_online_map s) (nr_cpu_ids s) (jiffies s)
    (sched_clock_cpu s) (smp_processor_id s) (current s) (ipis s).
Definition set_grq v (s : sched) : sched :=
  mk_sched (tasks s) v (runqueues s) (rr_interval s) (sched_iso_cpu s)
    (prio_ratios s) (cpu_online_map s) (nr_cpu_ids s) (jiffies s)
    (sched_clock_cpu s) (smp_processor_id s) (current s) (ipis s).
Definition set_runqueues v (s : sched) : sched :=
  mk_sched (tasks s) (grq s) v (rr_interval s) (sched_iso_cpu s)
    (prio_ratios s) (cpu_online_map s) (nr_cpu_ids s) (jiffies s)
    (sched_clock_cpu s) (smp_processor_id s) (current s) (ipis s).
Definition set_prio_ratios v (s : sched) : sched :=
  mk_sched (tasks s) (grq s) (runqueues s) (rr_interval s) (sched_iso_cpu s)
    v (cpu_online_map s) (nr_cpu_ids s) (jiffies s) (sched_clock_cpu s)
    (smp_processor_id s) (current s) (ipis s).
Definition set_jiffies v (s : sched) : sched :=
  mk_sched (tasks s) (grq s) (runqueues s) (rr_interval s) (sched_iso_cpu s)
    (prio_ratios s) (cpu_online_map s) (nr_cpu_ids s) v (sched_clock_cpu s)
    (smp_processor_id s) (current s) (ipis s).
Definition set_sched_clock_cpu v (s : sched) : sched :=
  mk_sched (tasks s) (grq s) (runqueues s) (rr_interval s) (sched_iso_cpu s)
    (prio_ratios s) (cpu_online_map s) (nr_cpu_ids s) (jiffies s) v
    (smp_processor_id s) (current s) (ipis s).
Definition set_ipis v (s : sched) : sched :=
  mk_sched (tasks s) (grq s) (runqueues s) (rr_interval s) (sched_iso_cpu s)
    (prio_ratios s) (cpu_online_map s) (nr_cpu_ids s) (jiffies s)
    (sched_clock_cpu s) (smp_processor_id s) (current s) v.

(** Writing through a pointer: [with_task p f s] is [*p = f( *p )]. *)
Definition with_task (p : tid) (f : task_struct -> task_struct) (s : sched) :=
  set_tasks (fun q => if Nat.eqb q p then f (tasks s p) else tasks s q) s.
Definition with_rq (c : Z) (f : rq -> rq) (s : sched) :=
  set_runqueues
    (fun d => if Z.eqb d c then f (runqueues s c) else runqueues s d) s.
Definition with_grq (f : global_rq -> global_rq) (s : sched) :=
  set_grq (f (grq s)) s.

(** ** The scheduler *)

Section BFS.

(** What sched_bfs.c takes from the kernel headers: the tick rate, the
    number of CPUs compiled for, the first non-realtime priority, the
    task-state and flag constants it names, and the macro
    task_contributes_to_load (a test on [p_state] and [p_flags]). *)
Variable HZ : Z.
Variable NR_CPUS : Z.
Variable MAX_RT_PRIO : Z.
Variable TASK_RUNNING : Z.
Variable PF_EXITING : Z.
Variable WF_SYNC : Z.
Variable task_contributes_to_load : task_struct -> bool.

(** Modelled from the spec: the priority bands of the data model (ISO at
    MAX_RT_PRIO, NORMAL one above, IDLEPRIO two above, then the idle
    sentinel PRIO_LIMIT) and the 40 nice levels of prio_ratios[0..39];
    the header that defines them is not part of the sources. *)
Definition ISO_PRIO : Z := MAX_RT_PRIO.
Definition NORMAL_PRIO : Z := MAX_RT_PRIO + 1.
Definition IDLE_PRIO : Z := MAX_RT_PRIO + 2.
Definition PRIO_LIMIT : Z := IDLE_PRIO + 1.
Definition PRIO_RANGE : Z := 40.
Definition MAX_PRIO : Z := MAX_RT_PRIO + PRIO_RANGE.

Definition rt_prio (prio : Z) : bool := prio <? MAX_RT_PRIO.
Definition rt_task (s : sched) (p : tid) : bool := rt_prio (p_prio (tasks s p)).
Definition rt_queue (r : rq) : bool := rt_prio (rq_prio r).
Definition batch_task (s : sched) (p : tid) : bool :=
  policy_eqb (p_policy (tasks s p)) SCHED_BATCH.
Definition is_rt_policy (policy : sched_policy) : bool :=
  policy_eqb policy SCHED_FIFO || policy_eqb policy SCHED_RR.
Definition has_rt_policy (s : sched) (p : tid) : bool :=
  is_rt_policy (p_policy (tasks s p)).
Definition idleprio_task (s : sched) (p : tid) : bool :=
  policy_eqb (p_policy (tasks s p)) SCHED_IDLEPRIO.
Definition iso_task (s : sched) (p : tid) : bool :=
  policy_eqb (p_policy (tasks s p)) SCHED_ISO.
Definition iso_queue (r : rq) : bool := policy_eqb (rq_policy r) SCHED_ISO.

(** cpumask operations over the NR_CPUS bits of a mask. *)
Definition cpu_range : list Z := map Z.of_nat (seq 0 (Z.to_nat NR_CPUS)).
Definition for_each_cpu_mask (mask : Z) : list Z :=
  filter (fun c => Z.testbit mask c) cpu_range.
Definition cpus_weight (mask : Z) : Z :=
  Z.of_nat (length (for_each_cpu_mask mask)).
Definition cpus_intersects (a b : Z) : bool :=
  existsb (fun c => Z.testbit a c && Z.testbit b c) cpu_range.
Definition cpus_and (a b : Z) : Z := Z.land a b.
Definition cpu_isset (cpu mask : Z) : bool := Z.testbit mask cpu.
Definition next_cpu (n mask : Z) : Z :=
  Z.min NR_CPUS (find_next_bit mask NR_CPUS (to_int n + 1)).
Definition num_online_cpus (s : sched) : Z := cpus_weight (cpu_online_map s).

Definition ISO_PERIOD (s : sched) : Z :=
  to_uint (to_uint (5 * HZ * num_online_cpus s) + 1).

Definition NICE_TO_PRIO (nice : Z) : Z := MAX_RT_PRIO + nice + 20.
Definition PRIO_TO_NICE (prio : Z) : Z := prio - MAX_RT_PRIO - 20.
Definition TASK_NICE (s : sched) (p : tid) : Z :=
  PRIO_TO_NICE (p_static_prio (tasks s p)).
Definition USER_PRIO (p : Z) : Z := p - MAX_RT_PRIO.
Definition TASK_USER_PRIO (s : sched) (p : tid) : Z :=
  USER_PRIO (p_static_prio (tasks s p)).

Definition JIFFIES_TO_NS (TIME : Z) : Z :=
  to_int (TIME * (1000000000 ÷ HZ)).
Definition HALF_JIFFY_US : Z := 1000000 ÷ HZ ÷ 2.
Definition MS_TO_NS (TIME : Z) : Z := to_int (Z.shiftl TIME 20).
Definition MS_TO_US (TIME : Z) : Z := to_int (Z.shiftl TIME 10).
Definition US_TO_NS (TIME : Z) : Z := Z.shiftr TIME 10.
Definition NS_TO_US (TIME : Z) : Z := Z.shiftr TIME 10.
Definition RESCHED_US : Z := 100.

(** prio_ratios[i]; reading outside the array is undefined in C and
    yields 0 here. *)
Definition prio_ratio_at (s : sched) (i : Z) : Z :=
  if i <? 0 then 0 else nth (Z.to_nat i) (prio_ratios s) 0.

Definition timeslice (s : sched) : Z := to_ulong (MS_TO_US (rr_interval s)).

(** niffy_diff(&niff_diff, jiff_diff), returning the new *niff_diff. *)
Definition niffy_diff (niff_diff jiff_diff : Z) : Z :=
  let max_diff := to_ulong (JIFFIES_TO_NS (to_int (jiff_diff + 1))) in
  if (niff_diff <? 1) || (max_diff <? niff_diff) then US_TO_NS 1
  else niff_diff.

Definition cpu_of (r : rq) : Z := rq_cpu r.
Definition task_cpu (s : sched) (p : tid) : Z := p_cpu (tasks s p).
(** task_rq(p), as the index of the runqueue. *)
Definition task_rq (s : sched) (p : tid) : Z := task_cpu s p.

Definition update_rq_clock (c : Z) (s : sched) : sched :=
  with_rq c (set_rq_clock (sched_clock_cpu s (cpu_of (runqueues s c)))) s.

Definition update_clocks (c : Z) (s : sched) : sched :=
  let s := update_rq_clock c s in
  let r := runqueues s c in
  let ndiff := to_s64 (rq_clock r - rq_old_clock r) in
  let s := with_rq c (set_rq_old_clock (rq_clock r)) s in
  let ndiff :=
    to_s64 (ndiff - to_u64 (grq_niffies (grq s) - rq_last_niffy r)) in
  let jdiff := to_long (jiffies s - grq_last_jiffy (grq s)) in
  let ndiff := niffy_diff ndiff (to_int jdiff) in
  let s := with_grq (fun g =>
             set_grq_last_jiffy (to_ulong (grq_last_jiffy g + jdiff)) g) s in
  let s := with_grq (fun g =>
             set_grq_niffies (to_u64 (grq_niffies g + ndiff)) g) s in
  with_rq c (set_rq_last_niffy (grq_niffies (grq s))) s.

Definition task_running (s : sched) (p : tid) : bool := p_oncpu (tasks s p).

Definition deadline_before (deadline time : Z) : bool := deadline <? time.
Definition deadline_after (deadline time : Z) : bool := time <? deadline.

(** The run lists.  A task's run_list node is linked when the task occurs
    in one of the PRIO_LIMIT bands. *)
Definition bands : list Z := map Z.of_nat (seq 0 (Z.to_nat PRIO_LIMIT)).
Definition on_list (p : tid) (l : list tid) : bool := existsb (Nat.eqb p) l.
Definition task_queued (s : sched) (p : tid) : bool :=
  existsb (fun b => on_list p (grq_queue (grq s) b)) bands.

Definition list_del_init (p : tid) (q : Z -> list tid) : Z -> list tid :=
  fun b => filter (fun x => negb (Nat.eqb x p)) (q b).
Definition list_add_tail (p : tid) (b : Z) (q : Z -> list tid) :=
  fun d => if Z.eqb d b then q b ++ [p] else q d.
Definition list_add (p : tid) (b : Z) (q : Z -> list tid) :=
  fun d => if Z.eqb d b then p :: q b else q d.
Definition list_empty (l : list tid) : bool :=
  match l with [] => true | _ => false end.

Definition dequeue_task (p : tid) (s : sched) : sched :=
  let s := with_grq (fun g =>
             set_grq_queue (list_del_init p (grq_queue g)) g) s in
  let prio := p_prio (tasks s p) in
  if list_empty (grq_queue (grq s) prio)
  then with_grq (fun g =>
         set_grq_prio_bitmap (__clear_bit prio (grq_prio_bitmap g)) g) s
  else s.

Definition idleprio_suitable (s : sched) (p : tid) : bool :=
  let t := tasks s p in
  negb (p_freezing t) && negb (p_sigpending t) &&
  negb (task_contributes_to_load t) &&
  (Z.land (p_flags t) PF_EXITING =? 0).

Definition isoprio_suitable (s : sched) : bool :=
  grq_iso_refractory (grq s) =? 0.

Definition enqueue_task (p : tid) (s : sched) : sched :=
  let s :=
    if negb (rt_task s p) then
      if (idleprio_task s p && idleprio_suitable s p) ||
         (iso_task s p && isoprio_suitable s)
      then with_task p (fun t => set_p_prio (p_normal_prio t) t) s
      else with_task p (set_p_prio NORMAL_PRIO) s
    else s in
  let prio := p_prio (tasks s p) in
  let s := with_grq (fun g =>
             set_grq_prio_bitmap (__set_bit prio (grq_prio_bitmap g)) g) s in
  with_grq (fun g => set_grq_queue (list_add_tail p prio (grq_queue g)) g) s.

Definition enqueue_task_head (p : tid) (s : sched) : sched :=
  let prio := p_prio (tasks s p) in
  let s := with_grq (fun g =>
             set_grq_prio_bitmap (__set_bit prio (grq_prio_bitmap g)) g) s in
  with_grq (fun g => set_grq_queue (list_add p prio (grq_queue g)) g) s.

(** requeue_task only records schedstats. *)
Definition requeue_task (p : tid) (s : sched) : sched := s.

Definition task_prio_ratio (s : sched) (p : tid) : Z :=
  prio_ratio_at s (TASK_USER_PRIO s p).

Definition task_timeslice (s : sched) (p : tid) : Z :=
  to_int (rr_interval s * task_prio_ratio s p) ÷ 128.

Definition inc_qnr (s : sched) : sched :=
  with_grq (fun g => set_grq_qnr (to_ulong (grq_qnr g + 1)) g) s.
Definition dec_qnr (s : sched) : sched :=
  with_grq (fun g => set_grq_qnr (to_ulong (grq_qnr g - 1)) g) s.
Definition queued_notrunning (s : sched) : Z := grq_qnr (grq s).

Definition suitable_idle_cpus (s : sched) (p : tid) : bool :=
  if grq_idle_cpus (grq s) =? 0 then false
  else cpus_intersects (p_cpus_allowed (tasks s p)) (grq_cpu_idle_map (grq s)).

(** resched_task, SMP: set TIF_NEED_RESCHED and interrupt a remote CPU
    that is not polling the flag. *)
Definition resched_task (p : tid) (s : sched) : sched :=
  if p_need_resched (tasks s p) then s
  else
    let s := with_task p (set_p_need_resched true) s in
    let cpu := task_cpu s p in
    if cpu =? smp_processor_id s then s
    else if negb (p_polling (tasks s p)) then set_ipis (cpu :: ipis s) s
    else s.

Definition CPUIDLE_DIFF_CPU : Z := 8.

(** The do-while loop of resched_best_idle; [n] is the number of
    iterations left after this one. *)
Fixpoint best_idle_scan (n : nat) (s : sched) (r : rq) (tmpmask : Z)
    (cpu_tmp best_cpu best_ranking : Z) : Z :=
  let cpu_tmp := next_cpu cpu_tmp tmpmask in
  let cpu_tmp :=
    if nr_cpu_ids s <=? cpu_tmp then next_cpu (-1) tmpmask else cpu_tmp in
  let ranking :=
    if 2 <? rq_cpu_locality r cpu_tmp then CPUIDLE_DIFF_CPU else 0 in
  let again (best_cpu best_ranking : Z) :=
    match n with
    | O => best_cpu
    | S n' => best_idle_scan n' s r tmpmask cpu_tmp best_cpu best_ranking
    end in
  if ranking <? best_ranking then
    if ranking =? 0 then cpu_tmp else again cpu_tmp ranking
  else again best_cpu best_ranking.

Definition resched_best_idle (p : tid) (s : sched) : sched :=
  let tmpmask :=
    cpus_and (p_cpus_allowed (tasks s p)) (grq_cpu_idle_map (grq s)) in
  let iterate := cpus_weight tmpmask in
  let best_cpu := task_cpu s p in
  let cpu_tmp := to_ulong (best_cpu - 1) in
  let best := best_idle_scan (Z.to_nat (iterate - 1)) s (runqueues s best_cpu)
                tmpmask cpu_tmp best_cpu (to_ulong (-1)) in
  resched_task (rq_curr (runqueues s best)) s.

Definition resched_suitable_idle (p : tid) (s : sched) : sched :=
  if suitable_idle_cpus s p then resched_best_idle p s else s.

(** cache_distance(task_rq, rq, p) with the runqueues given by index. *)
Definition cache_distance (s : sched) (task_rq_ rq_ : Z) (p : tid) : Z :=
  let locality :=
    to_int (to_ulong (rq_cpu_locality (runqueues s rq_)
                        (cpu_of (runqueues s task_rq_)) - 2)) in
  if 0 <? locality then to_int (Z.shiftl (task_timeslice s p) locality)
  else 0.

Definition normal_prio (s : sched) (p : tid) : Z :=
  if has_rt_policy s p
  then to_int (MAX_RT_PRIO - 1 - p_rt_priority (tasks s p))
  else if idleprio_task s p then IDLE_PRIO
  else if iso_task s p then ISO_PRIO
  else NORMAL_PRIO.

(** effective_prio writes p->normal_prio and returns the priority. *)
Definition effective_prio (p : tid) (s : sched) : Z * sched :=
  let s := with_task p (set_p_normal_prio (normal_prio s p)) s in
  if negb (rt_prio (p_prio (tasks s p)))
  then (p_normal_prio (tasks s p), s)
  else (p_prio (tasks s p), s).

Definition activate_task (p : tid) (c : Z) (s : sched) : sched :=
  let s := update_clocks c s in
  let '(prio, s) := effective_prio p s in
  let s := with_task p (set_p_prio prio) s in
  let s :=
    if task_contributes_to_load (tasks s p)
    then with_grq (fun g =>
           set_grq_nr_uninterruptible
             (to_ulong (grq_nr_uninterruptible g - 1)) g) s
    else s in
  let s := enqueue_task p s in
  let s := with_grq (fun g =>
             set_grq_nr_running (to_ulong (grq_nr_running g + 1)) g) s in
  inc_qnr s.

Definition deactivate_task (p : tid) (s : sched) : sched :=
  let s :=
    if task_contributes_to_load (tasks s p)
    then with_grq (fun g =>
           set_grq_nr_uninterruptible
             (to_ulong (grq_nr_uninterruptible g + 1)) g) s
    else s in
  with_grq (fun g => set_grq_nr_running (to_ulong (grq_nr_running g - 1)) g) s.

Definition set_task_cpu (p : tid) (cpu : Z) (s : sched) : sched :=
  with_task p (set_p_cpu cpu) s.

Definition take_task (c : Z) (p : tid) (s : sched) : sched :=
  let s := set_task_cpu p (cpu_of (runqueues s c)) s in
  let s := dequeue_task p s in
  dec_qnr s.

Definition return_task (p : tid) (deactivate : bool) (s : sched) : sched :=
  if deactivate then deactivate_task p s
  else enqueue_task p (inc_qnr s).

Definition can_preempt (s : sched) (p : tid) (prio deadline : Z)
    (policy : sched_policy) : bool :=
  if p_prio (tasks s p) <? prio then true
  else if prio <? p_prio (tasks s p) then false
  else if negb (deadline_before (p_deadline (tasks s p)) deadline) then false
  else true.

Definition online_cpus (s : sched) (p : tid) : bool :=
  cpus_intersects (cpu_online_map s) (p_cpus_allowed (tasks s p)).

Definition needs_other_cpu (s : sched) (p : tid) (cpu : Z) : bool :=
  negb (cpu_isset cpu (p_cpus_allowed (tasks s p))).

(** One pass of the for_each_cpu_mask loop of try_preempt over the
    locals (latest_deadline, highest_prio, highest_prio_rq). *)
Definition try_preempt_step (s : sched) (p : tid) (this_rq : Z)
    (acc : Z * Z * Z) (cpu : Z) : Z * Z * Z :=
  let '(latest_deadline, highest_prio, highest_prio_rq) := acc in
  let r := runqueues s cpu in
  let rq_prio_ := rq_prio r in
  if rq_prio_ <? highest_prio then acc
  else
    let offset_deadline :=
      to_u64 (rq_deadline r - cache_distance s this_rq cpu p) in
    if (highest_prio <? rq_prio_) ||
       ((rq_prio_ =? highest_prio) &&
        deadline_after offset_deadline latest_deadline)
    then (offset_deadline, rq_prio_, cpu)
    else acc.

Definition try_preempt_scan (s : sched) (p : tid) (this_rq : Z) (tmp : Z)
    : Z * Z * Z :=
  fold_left (try_preempt_step s p this_rq) (for_each_cpu_mask tmp)
    (0, -1, this_rq).

Definition try_preempt (p : tid) (this_rq : Z) (s : sched) : sched :=
  if suitable_idle_cpus s p then resched_best_idle p s
  else if policy_eqb (p_policy (tasks s p)) SCHED_IDLEPRIO then s
  else if online_cpus s p then
    let tmp := cpus_and (cpu_online_map s) (p_cpus_allowed (tasks s p)) in
    let '(_, highest_prio, highest_prio_rq) :=
      try_preempt_scan s p this_rq tmp in
    let r := runqueues s highest_prio_rq in
    if negb (can_preempt s p highest_prio (rq_deadline r) (rq_policy r))
    then s
    else resched_task (rq_curr r) s
  else s.

(** The uniprocessor build: one runqueue [uprq], and resched_task only
    sets the flag. *)
Definition uprq : Z := 0.
Definition resched_task_up (p : tid) (s : sched) : sched :=
  with_task p (set_p_need_resched true) s.
Definition try_preempt_up (p : tid) (this_rq : Z) (s : sched) : sched :=
  if policy_eqb (p_policy (tasks s p)) SCHED_IDLEPRIO then s
  else
    let r := runqueues s uprq in
    if can_preempt s p (rq_prio r) (rq_deadline r) (rq_policy r)
    then resched_task_up (rq_curr r) s
    else s.

Definition prio_deadline_diff (s : sched) (user_prio : Z) : Z :=
  to_u64 (to_int (to_int (prio_ratio_at s user_prio * rr_interval s)
                  * (MS_TO_NS 1 ÷ 128))).

Definition task_deadline_diff (s : sched) (p : tid) : Z :=
  prio_deadline_diff s (TASK_USER_PRIO s p).

Definition static_deadline_diff (s : sched) (static_prio : Z) : Z :=
  prio_deadline_diff s (USER_PRIO static_prio).

Definition time_slice_expired (p : tid) (s : sched) : sched :=
  let s := with_task p (set_p_time_slice (to_int (timeslice s))) s in
  with_task p
    (set_p_deadline (to_u64 (grq_niffies (grq s) + task_deadline_diff s p))) s.

Definition check_deadline (p : tid) (s : sched) : sched :=
  if (p_time_slice (tasks s p) <? RESCHED_US) || batch_task s p
  then time_slice_expired p s
  else s.

Definition try_to_wake_up (p : tid) (state wake_flags : Z) (s : sched)
    : Z * sched :=
  let c := task_rq s p in
  if Z.land (to_uint (p_state (tasks s p))) state =? 0 then (0, s)
  else if task_queued s p || task_running s p then
    (0, with_task p (set_p_state TASK_RUNNING) s)
  else
    let s := activate_task p c s in
    let sync := Z.land wake_flags WF_SYNC in
    let s :=
      if (sync =? 0) || suitable_idle_cpus s p then try_preempt p c s
      else s in
    (1, with_task p (set_p_state TASK_RUNNING) s).

(** sched_fork(p, clone_flags); the child's run_list node is fresh, so
    INIT_LIST_HEAD leaves the bands as they are. *)
Definition sched_fork (p : tid) (clone_flags : Z) (s : sched) : sched :=
  let cpu := smp_processor_id s in
  let s := with_task p (set_p_state TASK_RUNNING) s in
  let s := set_task_cpu p cpu s in
  let s :=
    if p_sched_reset_on_fork (tasks s p) then
      let s :=
        if is_rt_policy (p_policy (tasks s p)) then
          let s := with_task p (set_p_policy SCHED_NORMAL) s in
          with_task p (set_p_normal_prio (normal_prio s p)) s
        else s in
      let s :=
        if PRIO_TO_NICE (p_static_prio (tasks s p)) <? 0 then
          let s := with_task p (set_p_static_prio (NICE_TO_PRIO 0)) s in
          with_task p (fun t => set_p_normal_prio (p_static_prio t) t) s
        else s in
      with_task p (set_p_sched_reset_on_fork false) s
    else s in
  let curr := current s in
  let s := with_task p (set_p_prio (p_normal_prio (tasks s curr))) s in
  let s := with_task p (set_p_oncpu false) s in
  if policy_eqb (p_policy (tasks s p)) SCHED_FIFO then s
  else
    let c := task_rq s curr in
    let s :=
      if RESCHED_US * 2 <=? rq_time_slice (runqueues s c) then
        let s := with_rq c (fun r =>
                   set_rq_time_slice (rq_time_slice r ÷ 2) r) s in
        with_task p (set_p_time_slice (rq_time_slice (runqueues s c))) s
      else
        let s := with_rq c (set_rq_time_slice 0) s in
        let s := with_task curr (set_p_need_resched true) s in
        time_slice_expired p s in
    with_task p (set_p_last_ran (rq_last_ran (runqueues s c))) s.

(** update_cpu_clock(rq, p, tick): the timeslice part; the percentage
    accounting that precedes it does not touch the fields modelled. *)
Definition update_cpu_clock (c : Z) (p : tid) (tick : bool) (s : sched)
    : sched :=
  let idle := rq_idle_task (runqueues s c) in
  let s :=
    if negb (policy_eqb (rq_policy (runqueues s c)) SCHED_FIFO) &&
       negb (Nat.eqb p idle)
    then
      let r := runqueues s c in
      let time_diff := to_s64 (rq_clock r - rq_last_ran r) in
      let time_diff := niffy_diff time_diff 1 in
      with_rq c (fun r =>
        set_rq_time_slice (to_int (rq_time_slice r - NS_TO_US time_diff)) r) s
    else s in
  let s := with_rq c (fun r => set_rq_timekeep_clock (rq_clock r) r) s in
  with_rq c (fun r => set_rq_last_ran (rq_timekeep_clock r) r) s.

Definition set_iso_refractory (s : sched) : sched :=
  with_grq (set_grq_iso_refractory 1) s.
Definition clear_iso_refractory (s : sched) : sched :=
  with_grq (set_grq_iso_refractory 0) s.

(** ISO_PERIOD * (sched_iso_cpu * 115 / 128), in unsigned arithmetic. *)
Definition iso_lower_bound (s : sched) : Z :=
  to_uint (ISO_PERIOD s * to_uint (to_int (sched_iso_cpu s * 115) ÷ 128)).

Definition test_ret_isorefractory (c : Z) (s : sched) : Z * sched :=
  let s :=
    if grq_iso_refractory (grq s) =? 0 then
      if to_uint (ISO_PERIOD s * to_uint (sched_iso_cpu s))
           <? to_uint (grq_iso_ticks (grq s))
      then set_iso_refractory s else s
    else
      if to_uint (grq_iso_ticks (grq s)) <? iso_lower_bound s
      then clear_iso_refractory s else s in
  (grq_iso_refractory (grq s), s).

Definition iso_tick (s : sched) : sched :=
  with_grq (fun g => set_grq_iso_ticks (to_int (grq_iso_ticks g + 100)) g) s.

Definition no_iso_tick (s : sched) : sched :=
  if negb (grq_iso_ticks (grq s) =? 0) then
    let dec := to_uint (to_uint (grq_iso_ticks (grq s)) ÷ ISO_PERIOD s + 1) in
    let s := with_grq (fun g =>
               set_grq_iso_ticks (to_int (grq_iso_ticks g - dec)) g) s in
    if negb (grq_iso_refractory (grq s) =? 0) &&
       (to_uint (grq_iso_ticks (grq s)) <? iso_lower_bound s)
    then clear_iso_refractory s else s
  else s.

Definition rq_running_iso (r : rq) : bool := rq_prio r =? ISO_PRIO.

Definition task_running_tick (c : Z) (s : sched) : sched :=
  let s :=
    if rt_queue (runqueues s c) ||
       (iso_queue (runqueues s c) && (grq_iso_refractory (grq s) =? 0))
    then
      if to_uint (grq_iso_ticks (grq s))
           <=? to_uint (to_uint (ISO_PERIOD s * 100) - 100)
      then iso_tick s else s
    else no_iso_tick s in
  let s :=
    if iso_queue (runqueues s c) then
      let '(refractory, s) := test_ret_isorefractory c s in
      if negb (refractory =? 0) then
        if rq_running_iso (runqueues s c)
        then with_rq c (set_rq_time_slice 0) s
        else s
      else s
    else s in
  if policy_eqb (rq_policy (runqueues s c)) SCHED_FIFO then s
  else
    let expire (s : sched) : sched :=
      let p := rq_curr (runqueues s c) in
      let s := requeue_task p s in
      with_task p (set_p_need_resched true) s in
    if negb (rq_dither (runqueues s c) =? 0) then
      if HALF_JIFFY_US <? rq_time_slice (runqueues s c) then s
      else expire (with_rq c (set_rq_time_slice 0) s)
    else if RESCHED_US <=? rq_time_slice (runqueues s c) then s
    else expire s.

Definition rq_idle (r : rq) : bool := rq_prio r =? PRIO_LIMIT.

Definition scheduler_tick (s : sched) : sched :=
  let cpu := smp_processor_id s in
  let s := update_rq_clock cpu s in
  let s := update_cpu_clock cpu (rq_curr (runqueues s cpu)) true s in
  let s :=
    if negb (rq_idle (runqueues s cpu)) then task_running_tick cpu s
    else no_iso_tick s in
  with_rq cpu (fun r => set_rq_last_tick (rq_clock r) r) s.

(** The list_for_each_entry loop of earliest_deadline_task over band
    [idx].  The result is [(true, p, _)] when the loop left through
    [goto out_take] with [edt = p], and [(false, edt, earliest_deadline)]
    when it ran to the end of the band. *)
Fixpoint edt_scan_band (s : sched) (c : Z) (idle : tid) (idx : Z)
    (queue : list tid) (edt : tid) (earliest_deadline : Z)
    : bool * tid * Z :=
  match queue with
  | [] => (false, edt, earliest_deadline)
  | p :: rest =>
      if needs_other_cpu s p (to_uint (cpu_of (runqueues s c)))
      then edt_scan_band s c idle idx rest edt earliest_deadline
      else if idx <? MAX_RT_PRIO then (true, p, earliest_deadline)
      else
        let dl :=
          to_u64 (p_deadline (tasks s p)
                  + cache_distance s (task_rq s p) c p) in
        if Nat.eqb edt idle || deadline_before dl earliest_deadline
        then edt_scan_band s c idle idx rest p dl
        else edt_scan_band s c idle idx rest edt earliest_deadline
  end.

(** The [retry:] loop; every pass raises [idx], so PRIO_LIMIT passes
    are enough. *)
Fixpoint edt_retry (fuel : nat) (s : sched) (c : Z) (idle : tid)
    (idx earliest_deadline : Z) : tid * sched :=
  match fuel with
  | O => (idle, s)
  | S fuel' =>
      let idx := find_next_bit (grq_prio_bitmap (grq s)) PRIO_LIMIT idx in
      if PRIO_LIMIT <=? idx then (idle, s)
      else
        match edt_scan_band s c idle idx (grq_queue (grq s) idx)
                idle earliest_deadline with
        | (true, edt, _) => (edt, take_task c edt s)
        | (false, edt, earliest_deadline) =>
            if Nat.eqb edt idle then
              if idx + 1 <? PRIO_LIMIT
              then edt_retry fuel' s c idle (idx + 1) earliest_deadline
              else (edt, s)
            else (edt, take_task c edt s)
        end
  end.

Definition earliest_deadline_task (c : Z) (idle : tid) (s : sched)
    : tid * sched :=
  edt_retry (Z.to_nat PRIO_LIMIT) s c idle 0 0.

Definition reset_rq_task (c : Z) (p : tid) (s : sched) : sched :=
  let s := with_rq c (set_rq_policy (p_policy (tasks s p))) s in
  with_rq c (set_rq_prio (p_prio (tasks s p))) s.

Definition adjust_deadline (p : tid) (new_prio : Z) (s : sched) : sched :=
  with_task p (fun t =>
    set_p_deadline
      (to_u64 (p_deadline t
               + to_u64 (static_deadline_diff s new_prio
                         - task_deadline_diff s p))) t) s.

Definition set_user_nice (p : tid) (nice : Z) (s : sched) : sched :=
  if (TASK_NICE s p =? nice) || (nice <? -20) || (19 <? nice) then s
  else
    let new_static := NICE_TO_PRIO nice in
    let c := task_rq s p in
    let s := update_clocks c s in
    if has_rt_policy s p then with_task p (set_p_static_prio new_static) s
    else
      let queued := task_queued s p in
      let s := if queued then dequeue_task p s else s in
      let s := adjust_deadline p new_static s in
      let old_static := p_static_prio (tasks s p) in
      let s := with_task p (set_p_static_prio new_static) s in
      let '(prio, s) := effective_prio p s in
      let s := with_task p (set_p_prio prio) s in
      if queued then
        let s := enqueue_task p s in
        if new_static <? old_static then try_preempt p c s else s
      else if task_running s p then
        let s := reset_rq_task c p s in
        if old_static <? new_static then resched_task p s else s
      else s.

Definition task_nice (s : sched) (p : tid) : Z := TASK_NICE s p.

(** sched_init fills prio_ratios: 128, then each entry 11/10 of the
    one before, in int arithmetic.  [sched_init] below is the part of the
    function that sets up prio_ratios and grq. *)
Fixpoint prio_ratios_from (prev : Z) (n : nat) : list Z :=
  match n with
  | O => []
  | S n' =>
      let r := to_int (prev * 11) ÷ 10 in
      r :: prio_ratios_from r n'
  end.

Definition sched_init_prio_ratios : list Z :=
  128 :: prio_ratios_from 128 (Z.to_nat (PRIO_RANGE - 1)).

Definition sched_init (s : sched) : sched :=
  let s := set_prio_ratios sched_init_prio_ratios s in
  with_grq (fun g =>
    mk_grq 0 0 0 (fun _ => []) (__set_bit PRIO_LIMIT 0) 0 0 0 0 (jiffies s)
      0 0) s.

(** ** Predicates used in the statements *)

(** An operation leaves every task's static_prio as it was. *)
Definition keeps_static_prio (f : sched -> sched) : Prop :=
  forall s q, p_static_prio (tasks (f s) q) = p_static_prio (tasks s q).

(** A run of update_clocks calls: before each call the environment
    shows new values of the CPU's sched clock and of jiffies. *)
Record clock_event : Type := mk_clock_event {
  ev_cpu : Z;
  ev_sched_clock : Z;
  ev_jiffies : Z
}.

Definition clock_step (e : clock_event) (s : sched) : sched :=
  let s := set_jiffies (ev_jiffies e) s in
  let s := set_sched_clock_cpu (fun _ => ev_sched_clock e) s in
  update_clocks (ev_cpu e) s.

Fixpoint clock_run (evs : list clock_event) (s : sched) : sched :=
  match evs with
  | [] => s
  | e :: evs' => clock_run evs' (clock_step e s)
  end.

(** The CPUs that try_preempt looks at for task [p], and the invariant
    of its scan over them: once a CPU has been seen, highest_prio is the
    rq_prio of highest_prio_rq and no CPU seen has a larger rq_prio. *)
Definition preempt_candidates (s : sched) (p : tid) : list Z :=
  for_each_cpu_mask (cpus_and (cpu_online_map s) (p_cpus_allowed (tasks s p))).

Definition scan_inv (s : sched) (seen : list Z) (acc : Z * Z * Z) : Prop :=
  let '(_, highest_prio, highest_prio_rq) := acc in
  (seen = [] /\ highest_prio = -1) \/
  (In highest_prio_rq seen /\
   highest_prio = rq_prio (runqueues s highest_prio_rq) /\
   forall c, In c seen -> rq_prio (runqueues s c) <= highest_prio).

(** Task [p] may run on the CPU of runqueue [c]; the first task of a
    band that may; and the half of the bitmap invariant that the
    selector relies on (a non-empty band has its bit set). *)
Definition cpu_allowed (s : sched) (c : Z) (p : tid) : bool :=
  negb (needs_other_cpu s p (to_uint (cpu_of (runqueues s c)))).

Definition first_allowed (s : sched) (c : Z) (b : Z) : option tid :=
  find (cpu_allowed s c) (grq_queue (grq s) b).

Definition bitmap_covers_queues (s : sched) : Prop :=
  forall b, 0 <= b < PRIO_LIMIT ->
    grq_queue (grq s) b <> [] ->
    Z.testbit (grq_prio_bitmap (grq s)) b = true.

(** ** Concrete machines

    A two-CPU build with HZ = 200 and MAX_RT_PRIO = 101 (so ISO_PRIO =
    101, NORMAL_PRIO = 102, IDLE_PRIO = 103, PRIO_LIMIT = 104), with the
    values TASK_RUNNING = 0, PF_EXITING = 4, WF_SYNC = 1 and the usual
    task_contributes_to_load (uninterruptible and not freezing). *)
Definition cfg_HZ : Z := 200.
Definition cfg_NR_CPUS : Z := 2.
Definition cfg_MAX_RT_PRIO : Z := 101.
Definition cfg_TASK_RUNNING : Z := 0.
Definition cfg_PF_EXITING : Z := 4.
Definition cfg_WF_SYNC : Z := 1.
Definition cfg_task_contributes_to_load (t : task_struct) : bool :=
  negb (Z.land (p_state t) 2 =? 0) && (Z.land (p_flags t) 16384 =? 0).

(** A nice-0 task in state [state] with the given priority, policy,
    deadline and affinity mask, last run on CPU [cpu]. *)
Definition ex_task (state prio : Z) (policy : sched_policy)
    (deadline allowed : Z) (oncpu : bool) (cpu : Z) : task_struct :=
  mk_task state 0 prio 121 prio 0 policy deadline 0 0 allowed oncpu cpu
    false false false false false.

Definition ex_idle_task : task_struct :=
  mk_task 0 0 104 141 104 0 SCHED_NORMAL 0 0 0 3 false 0
    false false false false false.

(** Tasks 0 and 1 are the idle tasks, task 2 runs on CPU 0 and task 3
    on CPU 1 (policy [policy], priority [prio], deadlines [d2] and
    [d3]); every other task is [other]. *)
Definition ex_tasks (policy : sched_policy) (prio d2 d3 : Z)
    (other : task_struct) (p : tid) : task_struct :=
  match p with
  | 0%nat | 1%nat => ex_idle_task
  | 2%nat => ex_task 0 prio policy d2 3 true 0
  | 3%nat => ex_task 0 prio policy d3 3 true 1
  | _ => other
  end.

(** The runqueues that go with [ex_tasks]; CPU 0 has [slice]
    microseconds left, and the other CPU is at locality 4. *)
Definition ex_rqs (policy : sched_policy) (prio d2 d3 slice : Z) (c : Z)
    : rq :=
  if c =? 0 then
    mk_rq 2%nat 0%nat d2 policy slice 0 prio 1 0 0
      (fun d => if d =? 0 then 0 else 4) 0 0 0 0 0
  else
    mk_rq 3%nat 1%nat d3 policy 3000 0 prio 1 0 1
      (fun d => if d =? 1 then 0 else 4) 0 0 0 0 0.

Definition ex_grq (queue : Z -> list tid) (bitmap qnr : Z) : global_rq :=
  mk_grq 2 0 0 queue bitmap qnr 0 0 1000000 0 0 0.

Definition ex_empty_grq : global_rq := ex_grq (fun _ => []) (__set_bit 104 0) 0.

(** Both CPUs online and busy, niffies at 1 ms, rr_interval = 6, the
    deadline table of sched_init, the code running on CPU 0 as task 2. *)
Definition ex_sched (ts : tid -> task_struct) (g : global_rq)
    (rqs : Z -> rq) : sched :=
  mk_sched ts g rqs 6 25 sched_init_prio_ratios 3 2 0 (fun _ => 0) 0 2%nat [].

(** Two SCHED_NORMAL tasks running with deadlines 5 ms and 9 ms, and
    task 4, SCHED_NORMAL with deadline 7 ms, sleeping and about to wake. *)
Definition ex_wake_normal : sched :=
  ex_sched
    (ex_tasks SCHED_NORMAL 102 5000000 9000000
       (ex_task 1 102 SCHED_NORMAL 7000000 3 false 0))
    ex_empty_grq
    (ex_rqs SCHED_NORMAL 102 5000000 9000000 3000).

(** The same with task 4 due at 12 ms, later than both running tasks. *)
Definition ex_wake_late : sched :=
  ex_sched
    (ex_tasks SCHED_NORMAL 102 5000000 9000000
       (ex_task 1 102 SCHED_NORMAL 12000000 3 false 0))
    ex_empty_grq
    (ex_rqs SCHED_NORMAL 102 5000000 9000000 3000).

(** Two SCHED_IDLEPRIO tasks running with deadline 10 ms, and task 4,
    SCHED_IDLEPRIO with deadline 5 ms, about to wake. *)
Definition ex_wake_idleprio : sched :=
  ex_sched
    (ex_tasks SCHED_IDLEPRIO 103 10000000 10000000
       (ex_task 1 103 SCHED_IDLEPRIO 5000000 3 false 0))
    ex_empty_grq
    (ex_rqs SCHED_IDLEPRIO 103 10000000 10000000 3000).

(** Realtime tasks queued: band 50 holds task 10 (CPU 1 only) and then
    task 11, band 60 holds task 12. *)
Definition ex_rt_tasks (p : tid) : task_struct :=
  match p with
  | 10%nat => ex_task 0 50 SCHED_FIFO 0 2 false 1
  | 11%nat => ex_task 0 50 SCHED_FIFO 0 3 false 0
  | 12%nat => ex_task 0 60 SCHED_RR 0 3 false 0
  | _ => ex_tasks SCHED_NORMAL 102 5000000 9000000 ex_idle_task p
  end.

Definition ex_rt_queue (b : Z) : list tid :=
  if b =? 50 then [10%nat; 11%nat]
  else if b =? 60 then [12%nat]
  else [].

Definition ex_rt_queued : sched :=
  ex_sched ex_rt_tasks
    (ex_grq ex_rt_queue (__set_bit 60 (__set_bit 50 (__set_bit 104 0))) 3)
    (ex_rqs SCHED_NORMAL 102 5000000 9000000 3000).

(** Task 2, with [slice] microseconds left on CPU 0 and deadline 5 ms,
    forks task 4, a copy of itself. *)
Definition ex_fork (slice : Z) : sched :=
  ex_sched
    (ex_tasks SCHED_NORMAL 102 5000000 9000000
       (ex_task 0 102 SCHED_NORMAL 5000000 3 true 0))
    ex_empty_grq
    (ex_rqs SCHED_NORMAL 102 5000000 9000000 slice).

(** CPU 0 runs a SCHED_FIFO task of priority 50 with 3000 microseconds
    on its slice when the tick comes, 5 ms after it last ran. *)
Definition ex_fifo_tick : sched :=
  set_sched_clock_cpu (fun _ => 5000000)
    (ex_sched (ex_tasks SCHED_FIFO 50 0 0 ex_idle_task) ex_empty_grq
       (ex_rqs SCHED_FIFO 50 0 0 3000)).

(** Task 4, SCHED_ISO, about to be enqueued, with the ISO controller
    refractory or not. *)
Definition ex_iso (refractory : Z) : sched :=
  ex_sched
    (ex_tasks SCHED_NORMAL 102 5000000 9000000
       (ex_task 1 101 SCHED_ISO 7000000 3 false 0))
    (set_grq_iso_refractory refractory ex_empty_grq)
    (ex_rqs SCHED_NORMAL 102 5000000 9000000 3000).

(** ** More of the scheduler: idle map, priority changes, wake-up lists,
    completions, the dispatcher *)

Definition set_p_rt_priority v (t : task_struct) : task_struct :=
  mk_task (p_state t) (p_flags t) (p_prio t) (p_static_prio t)
    (p_normal_prio t) v (p_policy t) (p_deadline t) (p_time_slice t)
    (p_last_ran t) (p_cpus_allowed t) (p_oncpu t) (p_cpu t)
    (p_need_resched t) (p_polling t) (p_freezing t) (p_sigpending t)
    (p_sched_reset_on_fork t).
Definition set_p_cpus_allowed v (t : task_struct) : task_struct :=
  mk_task (p_state t) (p_flags t) (p_prio t) (p_static_prio t)
    (p_normal_prio t) (p_rt_priority t) (p_policy t) (p_deadline t)
    (p_time_slice t) (p_last_ran t) v (p_oncpu t) (p_cpu t)
    (p_need_resched t) (p_polling t) (p_freezing t) (p_sigpending t)
    (p_sched_reset_on_fork t).
Definition set_grq_nr_switches v (g : global_rq) : global_rq :=
  mk_grq (grq_nr_running g) (grq_nr_uninterruptible g) v (grq_queue g)
    (grq_prio_bitmap g) (grq_qnr g) (grq_cpu_idle_map g) (grq_idle_cpus g)
    (grq_niffies g) (grq_last_jiffy g) (grq_iso_ticks g)
    (grq_iso_refractory g).
Definition set_grq_cpu_idle_map v (g : global_rq) : global_rq :=
  mk_grq (grq_nr_running g) (grq_nr_uninterruptible g) (grq_nr_switches g)
    (grq_queue g) (grq_prio_bitmap g) (grq_qnr g) v (grq_idle_cpus g)
    (grq_niffies g) (grq_last_jiffy g) (grq_iso_ticks g)
    (grq_iso_refractory g).
Definition set_grq_idle_cpus v (g : global_rq) : global_rq :=
  mk_grq (grq_nr_running g) (grq_nr_uninterruptible g) (grq_nr_switches g)
    (grq_queue g) (grq_prio_bitmap g) (grq_qnr g) (grq_cpu_idle_map g) v
    (grq_niffies g) (grq_last_jiffy g) (grq_iso_ticks g)
    (grq_iso_refractory g).
Definition set_rq_curr v (r : rq) : rq :=
  mk_rq v (rq_idle_task r) (rq_deadline r) (rq_policy r) (rq_time_slice r)
    (rq_last_ran r) (rq_prio r) (rq_running r) (rq_timekeep_clock r)
    (rq_cpu r) (rq_cpu_locality r) (rq_last_niffy r) (rq_clock r)
    (rq_old_clock r) (rq_last_tick r) (rq_dither r).
Definition set_rq_idle_task v (r : rq) : rq :=
  mk_rq (rq_curr r) v (rq_deadline r) (rq_policy r) (rq_time_slice r)
    (rq_last_ran r) (rq_prio r) (rq_running r) (rq_timekeep_clock r)
    (rq_cpu r) (rq_cpu_locality r) (rq_last_niffy r) (rq_clock r)
    (rq_old_clock r) (rq_last_tick r) (rq_dither r).
Definition set_rq_deadline v (r : rq) : rq :=
  mk_rq (rq_curr r) (rq_idle_task r) v (rq_policy r) (rq_time_slice r)
    (rq_last_ran r) (rq_prio r) (rq_running r) (rq_timekeep_clock r)
    (rq_cpu r) (rq_cpu_locality r) (rq_last_niffy r) (rq_clock r)
    (rq_old_clock r) (rq_last_tick r) (rq_dither r).
Definition set_rq_running v (r : rq) : rq :=
  mk_rq (rq_curr r) (rq_idle_task r) (rq_deadline r) (rq_policy r)
    (rq_time_slice r) (rq_last_ran r) (rq_prio r) v (rq_timekeep_clock r)
    (rq_cpu r) (rq_cpu_locality r) (rq_last_niffy r) (rq_clock r)
    (rq_old_clock r) (rq_last_tick r) (rq_dither r).
Definition set_rq_dither v (r : rq) : rq :=
  mk_rq (rq_curr r) (rq_idle_task r) (rq_deadline r) (rq_policy r)
    (rq_time_slice r) (rq_last_ran r) (rq_prio r) (rq_running r)
    (rq_timekeep_clock r) (rq_cpu r) (rq_cpu_locality r) (rq_last_niffy r)
    (rq_clock r) (rq_old_clock r) (rq_last_tick r) v.
Definition set_current v (s : sched) : sched :=
  mk_sched (tasks s) (grq s) (runqueues s) (rr_interval s) (sched_iso_cpu s)
    (prio_ratios s) (cpu_online_map s) (nr_cpu_ids s) (jiffies s)
    (sched_clock_cpu s) (smp_processor_id s) v (ipis s).
Definition set_rr_interval v (s : sched) : sched :=
  mk_sched (tasks s) (grq s) (runqueues s) v (sched_iso_cpu s)
    (prio_ratios s) (cpu_online_map s) (nr_cpu_ids s) (jiffies s)
    (sched_clock_cpu s) (smp_processor_id s) (current s) (ipis s).

(** The invariant between the priority bitmap and the bands, and the
    linkage of one task: on no run list, or on no run list other than
    the band of its priority. *)
Definition bitmap_matches_queues (s : sched) : Prop :=
  forall b, 0 <= b < PRIO_LIMIT ->
    (Z.testbit (grq_prio_bitmap (grq s)) b = true <->
     grq_queue (grq s) b <> []).

Definition not_queued (s : sched) (p : tid) : Prop :=
  forall b, ~ In p (grq_queue (grq s) b).

Definition queued_in_own_band (s : sched) (p : tid) : Prop :=
  forall b, In p (grq_queue (grq s) b) -> b = p_prio (tasks s p).

(** The deadline the selector compares for task [q] seen from the CPU of
    runqueue [c]: its deadline plus the cache distance. *)
Definition adjusted_deadline (s : sched) (c : Z) (q : tid) : Z :=
  to_u64 (p_deadline (tasks s q) + cache_distance s (task_rq s q) c q).

(** [s'] differs from [s] at most in TIF_NEED_RESCHED flags, which are
    only raised, and in the list of reschedule interrupts sent. *)
Definition flags_only (s s' : sched) : Prop :=
  set_ipis [] (set_tasks (tasks s) s') = set_ipis [] s /\
  (forall q, set_p_need_resched true (tasks s' q)
             = set_p_need_resched true (tasks s q)) /\
  (forall q, p_need_resched (tasks s q) = true ->
             p_need_resched (tasks s' q) = true).


(** ** The dispatcher: schedule()

    signal_pending_state comes from linux/sched.h, which is not part
    of the sources. *)
Variable signal_pending_state : Z -> task_struct -> bool.

Definition HALF_JIFFY_NS : Z := 1000000000 ÷ HZ ÷ 2.

Definition cpus_empty (mask : Z) : bool :=
  negb (existsb (fun c => Z.testbit mask c) cpu_range).

Definition set_cpuidle_map (cpu : Z) (s : sched) : sched :=
  let s := with_grq (fun g =>
             set_grq_cpu_idle_map (Z.setbit (grq_cpu_idle_map g) cpu) g) s in
  with_grq (set_grq_idle_cpus 1) s.

Definition clear_cpuidle_map (cpu : Z) (s : sched) : sched :=
  let s := with_grq (fun g =>
             set_grq_cpu_idle_map (Z.clearbit (grq_cpu_idle_map g) cpu) g) s in
  if cpus_empty (grq_cpu_idle_map (grq s))
  then with_grq (set_grq_idle_cpus 0) s
  else s.

Definition set_rq_task (c : Z) (p : tid) (s : sched) : sched :=
  let s := with_rq c (set_rq_time_slice (p_time_slice (tasks s p))) s in
  let s := with_rq c (set_rq_deadline (p_deadline (tasks s p))) s in
  let s := with_rq c (set_rq_last_ran (p_last_ran (tasks s p))) s in
  let s := with_rq c (set_rq_policy (p_policy (tasks s p))) s in
  let s := with_rq c (set_rq_prio (p_prio (tasks s p))) s in
  if negb (Nat.eqb p (rq_idle_task (runqueues s c)))
  then with_rq c (set_rq_running 1) s
  else with_rq c (set_rq_running 0) s.

(** The second half of schedule(), from the test of queued_notrunning()
    to the context switch.  context_switch leaves [next] as the running
    task; the switch counters nvcsw / nivcsw are not task fields here. *)
Definition schedule_pick (c : Z) (prev idle : tid) (s : sched) : sched :=
  let cpu := smp_processor_id s in
  let '(next, s) :=
    if queued_notrunning s =? 0 then (idle, set_cpuidle_map cpu s)
    else
      let '(next, s) := earliest_deadline_task c idle s in
      (next, clear_cpuidle_map cpu s) in
  if negb (Nat.eqb prev next) then
    let s := set_rq_task c next s in
    let s := with_grq (fun g =>
               set_grq_nr_switches (to_u64 (grq_nr_switches g + 1)) g) s in
    let s := with_task prev (set_p_oncpu false) s in
    let s := with_task next (set_p_oncpu true) s in
    let s := with_rq c (set_rq_curr next) s in
    set_current next s
  else s.

(** One pass of schedule() on the calling CPU, from
    need_resched_nonpreemptible to rerun_prev_unlocked;
    [preempt_active] is preempt_count() & PREEMPT_ACTIVE. *)
Definition schedule (preempt_active : bool) (s : sched) : sched :=
  let cpu := smp_processor_id s in
  let c := cpu in
  let idle := rq_idle_task (runqueues s c) in
  let prev := rq_curr (runqueues s c) in
  let s := update_clocks c s in
  let s := update_cpu_clock c prev false s in
  let s := with_rq c (fun r =>
             set_rq_dither
               (if to_u64 HALF_JIFFY_NS
                     <? to_u64 (rq_clock r - rq_last_tick r)
                then 0 else 1) r) s in
  let s := with_task prev (set_p_need_resched false) s in
  let '(deactivate, s) :=
    if negb (p_state (tasks s prev) =? 0) && negb preempt_active then
      if signal_pending_state (p_state (tasks s prev)) (tasks s prev)
      then (false, with_task prev (set_p_state TASK_RUNNING) s)
      else (true, s)
    else (false, s) in
  if negb (Nat.eqb prev idle) then
    let s := with_task prev
               (set_p_time_slice (rq_time_slice (runqueues s c))) s in
    let s := with_task prev
               (set_p_deadline (rq_deadline (runqueues s c))) s in
    let s := check_deadline prev s in
    let s := with_task prev (set_p_last_ran (rq_clock (runqueues s c))) s in
    if needs_other_cpu s prev cpu then
      schedule_pick c prev idle
        (return_task prev deactivate (resched_suitable_idle prev s))
    else if negb deactivate then
      if queued_notrunning s =? 0 then s
      else
        schedule_pick c prev idle
          (return_task prev deactivate (resched_suitable_idle prev s))
    else schedule_pick c prev idle (return_task prev deactivate s)
  else schedule_pick c prev idle s.

(** What schedule() keeps about the task it leaves as rq->curr: the
    task is marked as on a CPU and is on no run list. *)
Definition curr_running_unqueued (s : sched) (c : Z) : Prop :=
  p_oncpu (tasks s (rq_curr (runqueues s c))) = true /\
  not_queued s (rq_curr (runqueues s c)).

(** [s'] has the run lists, the oncpu marks, every runqueue's curr and
    idle task and the executing CPU of [s]. *)
Definition dispatch_frame (s s' : sched) : Prop :=
  grq_queue (grq s') = grq_queue (grq s) /\
  (forall q, p_oncpu (tasks s' q) = p_oncpu (tasks s q)) /\
  (forall d, rq_curr (runqueues s' d) = rq_curr (runqueues s d) /\
             rq_idle_task (runqueues s' d) = rq_idle_task (runqueues s d)) /\
  smp_processor_id s' = smp_processor_id s.

(** [s'] has the global runqueue of [s] apart from the clock fields
    niffies and last_jiffy, every task's priority and every runqueue's
    CPU number; with [st] set also every task's state. *)
Definition keeps_accounts (st : bool) (s s' : sched) : Prop :=
  set_grq_niffies 0 (set_grq_last_jiffy 0 (grq s'))
  = set_grq_niffies 0 (set_grq_last_jiffy 0 (grq s)) /\
  (forall q, p_prio (tasks s' q) = p_prio (tasks s q) /\
             (st = true -> p_state (tasks s' q) = p_state (tasks s q))) /\
  forall d, rq_cpu (runqueues s' d) = rq_cpu (runqueues s d).

(** Whether the pass deactivates prev: prev is not runnable, the call is
    not a preemption, and no signal is pending for its state. *)
Definition prev_sleeps (preempt_active : bool) (s : sched) : bool :=
  let prev := rq_curr (runqueues s (smp_processor_id s)) in
  negb (p_state (tasks s prev) =? 0) && negb preempt_active &&
  negb (signal_pending_state (p_state (tasks s prev))
          (set_p_need_resched false (tasks s prev))).

(** The running and the idle task of the executing CPU's runqueue. *)
Definition this_curr (s : sched) : tid :=
  rq_curr (runqueues s (smp_processor_id s)).
Definition this_idle (s : sched) : tid :=
  rq_idle_task (runqueues s (smp_processor_id s)).

(** The runqueue's copy of its current task (what set_rq_task stores
    for code that reads it without the grq lock). *)
Definition rq_caches_curr (s : sched) (c : Z) : Prop :=
  let r := runqueues s c in
  let t := tasks s (rq_curr r) in
  rq_time_slice r = p_time_slice t /\
  rq_deadline r = p_deadline t /\
  rq_last_ran r = p_last_ran t /\
  rq_policy r = p_policy t /\
  rq_prio r = p_prio t /\
  rq_running r = (if Nat.eqb (rq_curr r) (rq_idle_task r) then 0 else 1).

(** ** Priority inheritance: rt_mutex_setprio(p, prio)

    The function starts with BUG_ON(prio < 0 || prio > MAX_PRIO); the
    range is a precondition of the statements about it. *)
Definition rt_mutex_setprio (p : tid) (prio : Z) (s : sched) : sched :=
  let c := task_rq s p in
  let oldprio := p_prio (tasks s p) in
  let queued := task_queued s p in
  let s := if queued then dequeue_task p s else s in
  let s := with_task p (set_p_prio prio) s in
  let s :=
    if task_running s p && (oldprio <? prio) then resched_task p s else s in
  if queued then try_preempt p c (enqueue_task p s) else s.

(** ** Wait queues and completions

    A wait queue is the list of its entries in queue order.  An entry's
    wake function gets the entry's flags and private pointer in place
    of the entry itself; the key argument is not modelled.  The wake
    functions do not unlink other entries while the queue is walked.
    WQ_FLAG_EXCLUSIVE and TASK_NORMAL come from linux/wait.h and
    linux/sched.h. *)
Variable WQ_FLAG_EXCLUSIVE : Z.
Variable TASK_NORMAL : Z.

Record wait_queue_t : Type := mk_wait_queue {
  wq_flags : Z;
  wq_private : tid;
  wq_func : Z -> tid -> Z -> Z -> sched -> Z * sched
}.

Definition default_wake_function (flags : Z) (private : tid)
    (mode wake_flags : Z) (s : sched) : Z * sched :=
  try_to_wake_up private mode wake_flags s.

Fixpoint __wake_up_common (q : list wait_queue_t)
    (mode nr_exclusive wake_flags : Z) (s : sched) : sched :=
  match q with
  | [] => s
  | curr :: rest =>
      let flags := wq_flags curr in
      let '(r, s) :=
        wq_func curr flags (wq_private curr) mode wake_flags s in
      if negb (r =? 0) then
        if negb (Z.land (to_uint flags) WQ_FLAG_EXCLUSIVE =? 0) then
          let nr_exclusive := to_int (nr_exclusive - 1) in
          if nr_exclusive =? 0 then s
          else __wake_up_common rest mode nr_exclusive wake_flags s
        else __wake_up_common rest mode nr_exclusive wake_flags s
      else __wake_up_common rest mode nr_exclusive wake_flags s
  end.

Definition __wake_up (q : list wait_queue_t) (mode nr_exclusive : Z)
    (s : sched) : sched :=
  __wake_up_common q mode nr_exclusive 0 s.

Record completion : Type := mk_completion {
  done : Z;
  wait : list wait_queue_t
}.

Definition complete (x : completion) (s : sched) : completion * sched :=
  let x := mk_completion (to_uint (done x + 1)) (wait x) in
  (x, __wake_up_common (wait x) TASK_NORMAL 1 0 s).

Definition UINT_MAX : Z := 4294967295.

Definition complete_all (x : completion) (s : sched) : completion * sched :=
  let x := mk_completion (to_uint (done x + UINT_MAX ÷ 2)) (wait x) in
  (x, __wake_up_common (wait x) TASK_NORMAL 0 0 s).

Definition try_wait_for_completion (x : completion) : bool * completion :=
  if done x =? 0 then (false, x)
  else (true, mk_completion (to_uint (done x - 1)) (wait x)).

Definition completion_done (x : completion) : bool :=
  if done x =? 0 then false else true.

(** Calling every entry's wake function in queue order, and the number
    of exclusive entries among them whose wake function reports a
    wake-up. *)
Fixpoint wake_all (q : list wait_queue_t) (mode wake_flags : Z)
    (s : sched) : sched :=
  match q with
  | [] => s
  | w :: rest =>
      wake_all rest mode wake_flags
        (snd (wq_func w (wq_flags w) (wq_private w) mode wake_flags s))
  end.

Fixpoint exclusive_woken (q : list wait_queue_t) (mode wake_flags : Z)
    (s : sched) : Z :=
  match q with
  | [] => 0
  | w :: rest =>
      let '(r, s1) :=
        wq_func w (wq_flags w) (wq_private w) mode wake_flags s in
      (if negb (r =? 0) &&
          negb (Z.land (to_uint (wq_flags w)) WQ_FLAG_EXCLUSIVE =? 0)
       then 1 else 0)
      + exclusive_woken rest mode wake_flags s1
  end.

(** ** More concrete machines

    signal_pending_state as linux/sched.h has it for an interruptible
    sleep (TASK_INTERRUPTIBLE = 1), WQ_FLAG_EXCLUSIVE = 1 and
    TASK_NORMAL = 3. *)
Definition cfg_signal_pending_state (state : Z) (t : task_struct) : bool :=
  negb (Z.land state 1 =? 0) && p_sigpending t.
Definition cfg_WQ_FLAG_EXCLUSIVE : Z := 1.
Definition cfg_TASK_NORMAL : Z := 3.

(** Only task 10 is queued, in band 50, and it may run on CPU 1 only. *)
Definition ex_pinned_queued : sched :=
  ex_sched ex_rt_tasks
    (ex_grq (fun b => if b =? 50 then [10%nat] else [])
       (__set_bit 50 (__set_bit 104 0)) 1)
    (ex_rqs SCHED_NORMAL 102 5000000 9000000 3000).

(** The SCHED_NORMAL band holds tasks 20, 21 and 22, due at 9 ms, 5 ms
    and 5 ms, all last run on CPU 0. *)
Definition ex_edf_tasks (p : tid) : task_struct :=
  match p with
  | 20%nat => ex_task 0 102 SCHED_NORMAL 9000000 3 false 0
  | 21%nat => ex_task 0 102 SCHED_NORMAL 5000000 3 false 0
  | 22%nat => ex_task 0 102 SCHED_NORMAL 5000000 3 false 0
  | _ => ex_tasks SCHED_NORMAL 102 5000000 9000000 ex_idle_task p
  end.

Definition ex_edf_queued : sched :=
  ex_sched ex_edf_tasks
    (ex_grq (fun b => if b =? 102 then [20%nat; 21%nat; 22%nat] else [])
       (__set_bit 102 (__set_bit 104 0)) 3)
    (ex_rqs SCHED_NORMAL 102 5000000 9000000 3000).

(** CPU 1 is idle (it runs its idle task, task 1, and has its bit in
    the idle map) when task 4, which last ran on CPU 0, wakes. *)
Definition ex_idle_cpu1 : sched :=
  ex_sched
    (ex_tasks SCHED_NORMAL 102 5000000 9000000
       (ex_task 1 102 SCHED_NORMAL 7000000 3 false 0))
    (set_grq_idle_cpus 1 (set_grq_cpu_idle_map 2 ex_empty_grq))
    (fun c =>
       if c =? 1 then
         mk_rq 1%nat 1%nat 0 SCHED_NORMAL 0 0 104 0 0 1
           (fun d => if d =? 1 then 0 else 4) 0 0 0 0 0
       else ex_rqs SCHED_NORMAL 102 5000000 9000000 3000 c).

(** [ex_rt_queued] with the task running on CPU 0 about to sleep
    interruptibly. *)
Definition ex_sleeping : sched :=
  with_task 2%nat (set_p_state 1) ex_rt_queued.


(** Tasks 4 and 5 wait exclusively, in this order, with the default
    wake function; [ex_completion] is a completion they wait for. *)
Definition ex_waitq : list wait_queue_t :=
  [mk_wait_queue 1 4%nat default_wake_function;
   mk_wait_queue 1 5%nat default_wake_function].

Definition ex_completion : completion := mk_completion 0 ex_waitq.

(** ** Basic facts: machine integers and writes through pointers *)

Lemma to_int_small (x : Z) : - 2 ^ 31 <= x < 2 ^ 31 -> to_int x = x.
Proof.
  intros H. unfold to_int, wrap_signed.
  change (2 ^ (32 - 1)) with (2 ^ 31).
  rewrite Z.mod_small; lia.
Qed.

Lemma to_ulong_small (x : Z) : 0 <= x < 2 ^ 32 -> to_ulong x = x.
Proof. intros H. unfold to_ulong, wrap_unsigned. now apply Z.mod_small. Qed.

Lemma to_u64_small (x : Z) : 0 <= x < 2 ^ 64 -> to_u64 x = x.
Proof. intros H. unfold to_u64, wrap_unsigned. now apply Z.mod_small. Qed.

Lemma to_u64_range (x : Z) : 0 <= to_u64 x < 2 ^ 64.
Proof. unfold to_u64, wrap_unsigned. apply Z.mod_pos_bound. lia. Qed.

Lemma tasks_with_task_same p f s : tasks (with_task p f s) p = f (tasks s p).
Proof. simpl. now rewrite Nat.eqb_refl. Qed.

Lemma tasks_with_task_other p q f s :
  q <> p -> tasks (with_task p f s) q = tasks s q.
Proof. intros H. simpl. apply Nat.eqb_neq in H. now rewrite H. Qed.

Lemma runqueues_with_rq_same c f s :
  runqueues (with_rq c f s) c = f (runqueues s c).
Proof. simpl. now rewrite Z.eqb_refl. Qed.

Lemma runqueues_with_rq_other c d f s :
  d <> c -> runqueues (with_rq c f s) d = runqueues s d.
Proof. intros H. simpl. apply Z.eqb_neq in H. now rewrite H. Qed.

Lemma policy_eqb_eq a b : policy_eqb a b = true <-> a = b.
Proof. destruct a, b; simpl; split; congruence. Qed.

Lemma policy_eqb_refl a : policy_eqb a a = true.
Proof. now destruct a. Qed.

Lemma policy_eqb_neq a b : policy_eqb a b = false <-> a <> b.
Proof. destruct a, b; simpl; split; congruence. Qed.

(** ** Frame facts: which operations leave static_prio alone *)

Lemma with_task_keeps_static_prio p f :
  (forall t, p_static_prio (f t) = p_static_prio t) ->
  keeps_static_prio (with_task p f).
Proof.
  intros Hf s q. simpl. destruct (Nat.eqb q p) eqn:E; auto.
  apply Nat.eqb_eq in E. subst. apply Hf.
Qed.

Lemma resched_task_keeps_static_prio p : keeps_static_prio (resched_task p).
Proof.
  intros s q. unfold resched_task.
  destruct (p_need_resched (tasks s p)); auto.
  set (s1 := with_task p (set_p_need_resched true) s).
  assert (H1 : p_static_prio (tasks s1 q) = p_static_prio (tasks s q))
    by (apply with_task_keeps_static_prio; auto).
  destruct (task_cpu s1 p =? smp_processor_id s1); auto.
  destruct (negb (p_polling (tasks s1 p))); auto.
Qed.

Lemma try_preempt_keeps_static_prio p c : keeps_static_prio (try_preempt p c).
Proof.
  intros s q. unfold try_preempt.
  destruct (suitable_idle_cpus s p).
  - apply resched_task_keeps_static_prio.
  - destruct (policy_eqb (p_policy (tasks s p)) SCHED_IDLEPRIO); auto.
    destruct (online_cpus s p); auto.
    destruct (try_preempt_scan _ _ _ _) as [[ld hp] hrq].
    destruct (negb _); auto.
    apply resched_task_keeps_static_prio.
Qed.

Lemma enqueue_task_keeps_static_prio p : keeps_static_prio (enqueue_task p).
Proof.
  intros s q. unfold enqueue_task.
  destruct (negb (rt_task s p)); auto.
  destruct (_ || _); simpl; destruct (Nat.eqb q p) eqn:E; auto;
    apply Nat.eqb_eq in E; now subst.
Qed.

Lemma dequeue_task_keeps_static_prio p : keeps_static_prio (dequeue_task p).
Proof.
  intros s q. unfold dequeue_task.
  now destruct (list_empty _).
Qed.

Lemma update_clocks_tasks c s : tasks (update_clocks c s) = tasks s.
Proof. reflexivity. Qed.

Lemma effective_prio_keeps_static_prio p :
  keeps_static_prio (fun s => snd (effective_prio p s)).
Proof.
  intros s q. unfold effective_prio.
  set (s1 := with_task p (set_p_normal_prio (normal_prio s p)) s).
  assert (H1 : p_static_prio (tasks s1 q) = p_static_prio (tasks s q))
    by (apply with_task_keeps_static_prio; auto).
  now destruct (negb (rt_prio (p_prio (tasks s1 p)))).
Qed.

Lemma reset_rq_task_tasks c p s : tasks (reset_rq_task c p s) = tasks s.
Proof. reflexivity. Qed.

(** ** Nice values *)

Lemma PRIO_TO_NICE_TO_PRIO (n : Z) : PRIO_TO_NICE (NICE_TO_PRIO n) = n.
Proof. unfold PRIO_TO_NICE, NICE_TO_PRIO. lia. Qed.

(** What set_user_nice leaves in static_prio when it does not return
    early. *)
Lemma set_user_nice_static_prio (s : sched) (p : tid) (n : Z) :
  TASK_NICE s p <> n -> -20 <= n <= 19 ->
  p_static_prio (tasks (set_user_nice p n s) p) = NICE_TO_PRIO n.
Proof.
  intros Hne Hn. unfold set_user_nice.
  replace (TASK_NICE s p =? n) with false by (symmetry; now apply Z.eqb_neq).
  replace (n <? -20) with false by (symmetry; apply Z.ltb_ge; lia).
  replace (19 <? n) with false by (symmetry; apply Z.ltb_ge; lia).
  cbv beta iota zeta. simpl orb. cbv iota.
  set (c := task_rq s p). set (s1 := update_clocks c s).
  destruct (has_rt_policy s1 p).
  { now rewrite tasks_with_task_same. }
  set (s2 := if task_queued s1 p then dequeue_task p s1 else s1).
  set (s3 := adjust_deadline p (NICE_TO_PRIO n) s2).
  set (s4 := with_task p (set_p_static_prio (NICE_TO_PRIO n)) s3).
  assert (H4 : p_static_prio (tasks s4 p) = NICE_TO_PRIO n)
    by (unfold s4; now rewrite tasks_with_task_same).
  pose proof (effective_prio_keeps_static_prio p s4 p) as H5.
  cbv beta in H5.
  destruct (effective_prio p s4) as [prio s5]. cbn [snd] in H5.
  set (s6 := with_task p (set_p_prio prio) s5).
  assert (H6 : p_static_prio (tasks s6 p) = NICE_TO_PRIO n).
  { unfold s6. rewrite with_task_keeps_static_prio by auto. congruence. }
  destruct (task_queued s1 p).
  - destruct (NICE_TO_PRIO n <? p_static_prio (tasks s3 p)).
    + now rewrite try_preempt_keeps_static_prio, enqueue_task_keeps_static_prio.
    + now rewrite enqueue_task_keeps_static_prio.
  - destruct (task_running s6 p); auto.
    destruct (p_static_prio (tasks s3 p) <? NICE_TO_PRIO n); auto.
    now rewrite resched_task_keeps_static_prio.
Qed.

(** The round trip holds for every policy: with a realtime policy
    set_user_nice still stores the new static priority. *)
Lemma set_user_nice_task_nice_any (s : sched) (p : tid) (n : Z) :
  -20 <= n <= 19 -> task_nice (set_user_nice p n s) p = n.
Proof.
  intros Hn. destruct (Z.eq_dec (TASK_NICE s p) n) as [E | E].
  - unfold set_user_nice. apply Z.eqb_eq in E as E'. rewrite E'. exact E.
  - unfold task_nice, TASK_NICE.
    rewrite set_user_nice_static_prio by assumption.
    apply PRIO_TO_NICE_TO_PRIO.
Qed.

(** C9: for a task [p] whose policy is not a realtime policy and a nice
    value [n] in [-20, 19], task_nice after set_user_nice(p, n) is [n]. *)
Theorem C9_set_user_nice_round_trip (s : sched) (p : tid) (n : Z) :
  is_rt_policy (p_policy (tasks s p)) = false ->
  -20 <= n <= 19 ->
  task_nice (set_user_nice p n s) p = n.
Proof. intros _ Hn. now apply set_user_nice_task_nice_any. Qed.

(** ** Waking a task that is already active *)

(** C10: when p's state matches the mask but p is already queued or
    already running, try_to_wake_up returns 0 and its whole effect is
    the write p->state = TASK_RUNNING: the global runqueue (bands,
    bitmap, nr_running, qnr, niffies), the per-CPU runqueues, the other
    tasks and the interrupts sent are as before. *)
Theorem C10_try_to_wake_up_already_active
    (s : sched) (p : tid) (state wake_flags : Z) :
  Z.land (to_uint (p_state (tasks s p))) state <> 0 ->
  task_queued s p = true \/ task_running s p = true ->
  try_to_wake_up p state wake_flags s
    = (0, with_task p (set_p_state TASK_RUNNING) s) /\
  let s' := snd (try_to_wake_up p state wake_flags s) in
  grq s' = grq s /\
  grq_nr_running (grq s') = grq_nr_running (grq s) /\
  grq_qnr (grq s') = grq_qnr (grq s) /\
  (forall b, grq_queue (grq s') b = grq_queue (grq s) b) /\
  runqueues s' = runqueues s /\
  ipis s' = ipis s /\
  tasks s' p = set_p_state TASK_RUNNING (tasks s p) /\
  (forall q, q <> p -> tasks s' q = tasks s q).
Proof.
  intros Hstate Hactive.
  assert (E : try_to_wake_up p state wake_flags s
              = (0, with_task p (set_p_state TASK_RUNNING) s)).
  { unfold try_to_wake_up.
    apply Z.eqb_neq in Hstate. rewrite Hstate.
    replace (task_queued s p || task_running s p) with true; [reflexivity|].
    symmetry. apply orb_true_iff. exact Hactive. }
  split; [exact E|]. rewrite E. cbn [snd].
  repeat split; try reflexivity.
  - apply tasks_with_task_same.
  - intros q Hq. now apply tasks_with_task_other.
Qed.

(** ** Enqueueing a SCHED_ISO task *)

Lemma normal_prio_iso (s : sched) (p : tid) :
  p_policy (tasks s p) = SCHED_ISO -> normal_prio s p = ISO_PRIO.
Proof.
  intros H. unfold normal_prio, has_rt_policy, idleprio_task, iso_task.
  now rewrite H.
Qed.

(** C7: enqueue_task on a SCHED_ISO task that is not boosted into the
    realtime range links it at the tail of band NORMAL_PRIO when
    grq.iso_refractory is set, and at the tail of band ISO_PRIO (its
    normal_prio) when it is clear; p->prio is that band, the band's bit
    is set and the other bands are unchanged. *)
Theorem C7_enqueue_task_iso_band (s : sched) (p : tid) :
  0 <= MAX_RT_PRIO ->
  p_policy (tasks s p) = SCHED_ISO ->
  rt_task s p = false ->
  p_normal_prio (tasks s p) = normal_prio s p ->
  let band :=
    if grq_iso_refractory (grq s) =? 0 then ISO_PRIO else NORMAL_PRIO in
  let s' := enqueue_task p s in
  p_prio (tasks s' p) = band /\
  grq_queue (grq s') band = grq_queue (grq s) band ++ [p] /\
  (forall b, b <> band -> grq_queue (grq s') b = grq_queue (grq s) b) /\
  Z.testbit (grq_prio_bitmap (grq s')) band = true.
Proof.
  intros Hpos Hpol Hrt Hnp band s'.
  assert (Hband : 0 <= band)
    by (unfold band, ISO_PRIO, NORMAL_PRIO; destruct (_ =? 0); lia).
  assert (Hprio : p_prio (tasks s' p) = band /\
                  grq_queue (grq s')
                  = list_add_tail p band (grq_queue (grq s)) /\
                  grq_prio_bitmap (grq s')
                  = __set_bit band (grq_prio_bitmap (grq s))).
  { unfold s', band, enqueue_task, idleprio_task, iso_task, isoprio_suitable.
    rewrite Hrt, Hpol. simpl negb. cbv iota. simpl policy_eqb. simpl orb.
    destruct (grq_iso_refractory (grq s) =? 0) eqn:E.
    - simpl. rewrite !Nat.eqb_refl. simpl.
      rewrite Hnp, (normal_prio_iso _ _ Hpol).
      split; [reflexivity | split; reflexivity].
    - simpl. rewrite !Nat.eqb_refl. simpl.
      split; [reflexivity | split; reflexivity]. }
  destruct Hprio as (H1 & H2 & H3).
  repeat split.
  - exact H1.
  - rewrite H2. unfold list_add_tail. now rewrite Z.eqb_refl.
  - intros b Hb. rewrite H2. unfold list_add_tail.
    apply Z.eqb_neq in Hb. now rewrite Hb.
  - rewrite H3. unfold __set_bit. now apply Z.setbit_eq.
Qed.

(** ** SCHED_IDLEPRIO never preempts *)

Lemma suitable_idle_cpus_none (s : sched) (p : tid) :
  cpus_intersects (p_cpus_allowed (tasks s p)) (grq_cpu_idle_map (grq s))
    = false ->
  suitable_idle_cpus s p = false.
Proof.
  intros H. unfold suitable_idle_cpus.
  now destruct (grq_idle_cpus (grq s) =? 0).
Qed.

(** C8: try_preempt on a SCHED_IDLEPRIO task, when no CPU of its
    affinity mask is idle, returns with the state untouched, so no task
    on any CPU gets TIF_NEED_RESCHED; this holds for the SMP and for
    the uniprocessor build. *)
Theorem C8_idleprio_never_preempts (s : sched) (p : tid) (this_rq : Z) :
  p_policy (tasks s p) = SCHED_IDLEPRIO ->
  cpus_intersects (p_cpus_allowed (tasks s p)) (grq_cpu_idle_map (grq s))
    = false ->
  try_preempt p this_rq s = s /\
  try_preempt_up p this_rq s = s /\
  (forall q, p_need_resched (tasks (try_preempt p this_rq s) q)
             = p_need_resched (tasks s q)) /\
  ipis (try_preempt p this_rq s) = ipis s.
Proof.
  intros Hpol Hidle.
  assert (E : try_preempt p this_rq s = s).
  { unfold try_preempt.
    now rewrite (suitable_idle_cpus_none _ _ Hidle), Hpol. }
  rewrite E. repeat split.
  unfold try_preempt_up. now rewrite Hpol.
Qed.

(** ** The tick handler and SCHED_FIFO *)

Lemma iso_tick_frame (s : sched) :
  runqueues (iso_tick s) = runqueues s /\ tasks (iso_tick s) = tasks s.
Proof. split; reflexivity. Qed.

Lemma no_iso_tick_frame (s : sched) :
  runqueues (no_iso_tick s) = runqueues s /\ tasks (no_iso_tick s) = tasks s.
Proof.
  unfold no_iso_tick.
  destruct (negb (grq_iso_ticks (grq s) =? 0)); [|split; reflexivity].
  cbv zeta. destruct (_ && _); split; reflexivity.
Qed.

Lemma update_cpu_clock_fifo (s : sched) (c : Z) (p : tid) (tick : bool) :
  rq_policy (runqueues s c) = SCHED_FIFO ->
  let s' := update_cpu_clock c p tick s in
  rq_time_slice (runqueues s' c) = rq_time_slice (runqueues s c) /\
  rq_policy (runqueues s' c) = SCHED_FIFO /\
  rq_prio (runqueues s' c) = rq_prio (runqueues s c) /\
  tasks s' = tasks s.
Proof.
  intros H. unfold update_cpu_clock. rewrite H. simpl.
  rewrite !Z.eqb_refl. simpl. auto.
Qed.

Lemma task_running_tick_fifo (s : sched) (c : Z) :
  rq_policy (runqueues s c) = SCHED_FIFO ->
  let s' := task_running_tick c s in
  rq_time_slice (runqueues s' c) = rq_time_slice (runqueues s c) /\
  tasks s' = tasks s.
Proof.
  intros H. unfold task_running_tick.
  set (s1 := if rt_queue (runqueues s c) || _ then _ else _).
  assert (H1 : runqueues s1 = runqueues s /\ tasks s1 = tasks s).
  { unfold s1. destruct (_ || _).
    - destruct (_ <=? _); [apply iso_tick_frame | split; reflexivity].
    - apply no_iso_tick_frame. }
  destruct H1 as [Hr Ht].
  unfold iso_queue. rewrite Hr, H. simpl policy_eqb. cbv iota. cbv zeta.
  rewrite Hr, H. simpl policy_eqb. cbv iota. rewrite Hr, Ht. auto.
Qed.

(** C6: while the running task's policy is SCHED_FIFO a tick leaves the
    remaining timeslice as it is: update_cpu_clock skips the decrement,
    task_running_tick returns before any expiry action (it writes no
    task, so it sets no TIF_NEED_RESCHED), and so the whole
    scheduler_tick on that CPU leaves rq_time_slice and the tasks
    unchanged. *)
Theorem C6_fifo_timeslice_not_decremented
    (s : sched) (c : Z) (p : tid) (tick : bool) :
  rq_policy (runqueues s c) = SCHED_FIFO ->
  rq_time_slice (runqueues (update_cpu_clock c p tick s) c)
    = rq_time_slice (runqueues s c) /\
  rq_time_slice (runqueues (task_running_tick c s) c)
    = rq_time_slice (runqueues s c) /\
  tasks (task_running_tick c s) = tasks s /\
  (smp_processor_id s = c ->
   rq_time_slice (runqueues (scheduler_tick s) c)
     = rq_time_slice (runqueues s c) /\
   tasks (scheduler_tick s) = tasks s).
Proof.
  intros H. split; [|split; [|split]].
  - now apply update_cpu_clock_fifo.
  - now apply task_running_tick_fifo.
  - now apply task_running_tick_fifo.
  - intros Hc. unfold scheduler_tick. rewrite Hc. cbv zeta.
    set (s1 := update_rq_clock c s).
    assert (H1 : rq_policy (runqueues s1 c) = SCHED_FIFO /\
                 rq_time_slice (runqueues s1 c)
                 = rq_time_slice (runqueues s c) /\
                 tasks s1 = tasks s).
    { unfold s1, update_rq_clock. rewrite runqueues_with_rq_same.
      simpl. auto. }
    destruct H1 as (P1 & T1 & K1).
    set (s2 := update_cpu_clock c (rq_curr (runqueues s1 c)) true s1).
    destruct (update_cpu_clock_fifo s1 c (rq_curr (runqueues s1 c)) true P1)
      as (T2 & P2 & _ & K2). fold s2 in T2, P2, K2.
    set (s3 := if negb (rq_idle (runqueues s2 c)) then _ else _).
    assert (H3 : rq_time_slice (runqueues s3 c) = rq_time_slice (runqueues s2 c)
                 /\ tasks s3 = tasks s2).
    { unfold s3. destruct (negb _).
      - now apply task_running_tick_fifo.
      - destruct (no_iso_tick_frame s2) as [Hr Ht]. now rewrite Hr, Ht. }
    destruct H3 as [T3 K3].
    rewrite runqueues_with_rq_same. simpl. split; congruence.
Qed.

(** ** Timeslice refill and the deadline table *)

Lemma sched_init_prio_ratios_length : length sched_init_prio_ratios = 40%nat.
Proof. reflexivity. Qed.

Lemma sched_init_prio_ratios_bounds (i : nat) :
  (i < 40)%nat -> 128 <= nth i sched_init_prio_ratios 0 <= 5263.
Proof.
  intros Hi.
  assert (H : forallb (fun r => (128 <=? r) && (r <=? 5263))
                sched_init_prio_ratios = true) by (vm_compute; reflexivity).
  rewrite forallb_forall in H.
  specialize (H (nth i sched_init_prio_ratios 0)).
  rewrite andb_true_iff, Z.leb_le, Z.leb_le in H. apply H.
  apply nth_In. now rewrite sched_init_prio_ratios_length.
Qed.

Lemma sched_init_prio_ratios_step (i : nat) :
  (1 <= i < 40)%nat ->
  nth i sched_init_prio_ratios 0
    = nth (i - 1) sched_init_prio_ratios 0 * 11 / 10.
Proof.
  intros Hi.
  assert (H : forallb (fun k => nth k sched_init_prio_ratios 0
                         =? nth (k - 1) sched_init_prio_ratios 0 * 11 / 10)
                (seq 1 39) = true) by (vm_compute; reflexivity).
  rewrite forallb_forall in H. apply Z.eqb_eq, H, in_seq. lia.
Qed.

Lemma prio_ratio_at_init (s : sched) (i : Z) :
  prio_ratios s = sched_init_prio_ratios ->
  0 <= i < PRIO_RANGE ->
  prio_ratio_at s i = nth (Z.to_nat i) sched_init_prio_ratios 0 /\
  128 <= prio_ratio_at s i <= 5263.
Proof.
  intros Hr Hi. unfold PRIO_RANGE in Hi. unfold prio_ratio_at.
  replace (i <? 0) with false by (symmetry; apply Z.ltb_ge; lia).
  rewrite Hr. split; [reflexivity|].
  apply sched_init_prio_ratios_bounds. lia.
Qed.

Lemma MS_TO_NS_1_div_128 : MS_TO_NS 1 ÷ 128 = 8192.
Proof. reflexivity. Qed.

(** Without overflow, prio_deadline_diff is the plain product. *)
Lemma prio_deadline_diff_exact (s : sched) (up : Z) :
  0 <= prio_ratio_at s up ->
  0 <= rr_interval s ->
  prio_ratio_at s up * rr_interval s * 8192 < 2 ^ 31 ->
  prio_deadline_diff s up = prio_ratio_at s up * rr_interval s * 8192.
Proof.
  intros Hr Hrr Hb. unfold prio_deadline_diff.
  rewrite MS_TO_NS_1_div_128.
  assert (0 <= prio_ratio_at s up * rr_interval s) by lia.
  rewrite (to_int_small (prio_ratio_at s up * rr_interval s)) by lia.
  rewrite to_int_small by lia.
  apply to_u64_small. lia.
Qed.

Lemma timeslice_exact (s : sched) :
  0 <= rr_interval s -> rr_interval s * 1024 < 2 ^ 31 ->
  to_int (timeslice s) = rr_interval s * 1024.
Proof.
  intros H0 H1. unfold timeslice, MS_TO_US.
  rewrite Z.shiftl_mul_pow2 by lia. change (2 ^ 10) with 1024.
  rewrite (to_int_small (rr_interval s * 1024)) by lia.
  rewrite to_ulong_small by lia.
  apply to_int_small. lia.
Qed.

(** C3, as the code has it: time_slice_expired(p) sets p->time_slice to
    rr_interval << 10 (rr_interval * 1024 microseconds) and p->deadline
    to grq.niffies + prio_ratios[user_prio(p)] * rr_interval *
    ((1 << 20) / 128) nanoseconds, where prio_ratios[0] = 128 and
    prio_ratios[i] = prio_ratios[i-1] * 11 / 10 for i in 1..39; the int
    product and the u64 sum are exact as long as they do not overflow. *)
Theorem C3_time_slice_expired_refill (s : sched) (p : tid) :
  prio_ratios s = sched_init_prio_ratios ->
  0 <= TASK_USER_PRIO s p < PRIO_RANGE ->
  0 <= rr_interval s ->
  prio_ratio_at s (TASK_USER_PRIO s p) * rr_interval s * 8192 < 2 ^ 31 ->
  0 <= grq_niffies (grq s) ->
  grq_niffies (grq s)
    + prio_ratio_at s (TASK_USER_PRIO s p) * rr_interval s * 8192 < 2 ^ 64 ->
  let s' := time_slice_expired p s in
  p_time_slice (tasks s' p) = rr_interval s * 1024 /\
  p_deadline (tasks s' p)
    = grq_niffies (grq s)
      + prio_ratio_at s (TASK_USER_PRIO s p) * rr_interval s
        * (1048576 / 128) /\
  prio_ratio_at s 0 = 128 /\
  (forall i, 1 <= i <= 39 ->
     prio_ratio_at s i = prio_ratio_at s (i - 1) * 11 / 10).
Proof.
  intros Hr Hup Hrr Hprod Hn Hsum s'.
  destruct (prio_ratio_at_init s _ Hr Hup) as [_ Hb].
  assert (Hts : p_time_slice (tasks s' p) = rr_interval s * 1024).
  { unfold s', time_slice_expired. rewrite tasks_with_task_same.
    cbn [p_time_slice set_p_deadline]. rewrite tasks_with_task_same.
    cbn [p_time_slice set_p_time_slice]. apply timeslice_exact; nia. }
  assert (Hdl : p_deadline (tasks s' p)
                = grq_niffies (grq s)
                  + prio_ratio_at s (TASK_USER_PRIO s p) * rr_interval s
                    * 8192).
  { unfold s', time_slice_expired. rewrite tasks_with_task_same.
    cbn [p_deadline set_p_deadline].
    set (s1 := with_task p (set_p_time_slice (to_int (timeslice s))) s).
    assert (E : task_deadline_diff s1 p
                = prio_deadline_diff s (TASK_USER_PRIO s p)).
    { unfold task_deadline_diff, TASK_USER_PRIO, s1.
      now rewrite tasks_with_task_same. }
    rewrite E, prio_deadline_diff_exact by lia.
    apply to_u64_small.
    change (grq_niffies (grq s1)) with (grq_niffies (grq s)).
    lia. }
  split; [exact Hts|]. split.
  - rewrite Hdl. reflexivity.
  - split.
    + unfold prio_ratio_at. rewrite Hr. reflexivity.
    + intros i Hi. unfold prio_ratio_at.
      replace (i <? 0) with false by (symmetry; apply Z.ltb_ge; lia).
      replace (i - 1 <? 0) with false by (symmetry; apply Z.ltb_ge; lia).
      rewrite Hr, (sched_init_prio_ratios_step (Z.to_nat i)) by lia.
      do 3 f_equal. lia.
Qed.

(** ** The niffies clock *)

Lemma US_TO_NS_1 : US_TO_NS 1 = 0.
Proof. reflexivity. Qed.

Lemma niffy_diff_cases (d jd : Z) :
  niffy_diff d jd = 0 \/
  (niffy_diff d jd = d /\
   1 <= d <= to_ulong (JIFFIES_TO_NS (to_int (jd + 1)))).
Proof.
  unfold niffy_diff. cbv zeta.
  destruct (d <? 1) eqn:E1; simpl orb; cbv iota; [now left|].
  destruct (_ <? d) eqn:E2; [now left|].
  right. apply Z.ltb_ge in E1, E2. split; [reflexivity | lia].
Qed.

Lemma niffy_diff_range (d jd : Z) : 0 <= niffy_diff d jd < 2 ^ 32.
Proof.
  destruct (niffy_diff_cases d jd) as [E | [E H]]; rewrite E; [lia|].
  assert (to_ulong (JIFFIES_TO_NS (to_int (jd + 1))) < 2 ^ 32)
    by (apply Z.mod_pos_bound; lia).
  lia.
Qed.

(** update_clocks adds the clamped delta to niffies, modulo 2^64. *)
Lemma update_clocks_niffies (c : Z) (s : sched) :
  exists d, 0 <= d < 2 ^ 32 /\
    grq_niffies (grq (update_clocks c s)) = to_u64 (grq_niffies (grq s) + d).
Proof.
  unfold update_clocks. cbv zeta.
  match goal with
  | |- context [niffy_diff ?a ?b] =>
      exists (niffy_diff a b); split; [apply niffy_diff_range | reflexivity]
  end.
Qed.

Lemma update_clocks_niffies_mono (c : Z) (s : sched) :
  0 <= grq_niffies (grq s) ->
  grq_niffies (grq s) + 2 ^ 32 <= 2 ^ 64 ->
  grq_niffies (grq s) <= grq_niffies (grq (update_clocks c s))
    < grq_niffies (grq s) + 2 ^ 32.
Proof.
  intros H0 H1. destruct (update_clocks_niffies c s) as (d & Hd & E).
  rewrite E, to_u64_small; lia.
Qed.

(** Across a run of update_clocks calls niffies never goes back, as long
    as the 64-bit counter does not wrap. *)
Lemma clock_run_niffies_mono (evs : list clock_event) (s : sched) :
  0 <= grq_niffies (grq s) ->
  grq_niffies (grq s) + 2 ^ 32 * Z.of_nat (length evs) <= 2 ^ 64 ->
  grq_niffies (grq s) <= grq_niffies (grq (clock_run evs s)).
Proof.
  revert s. induction evs as [|e evs IH]; intros s H0 H1; [simpl; lia|].
  cbn [clock_run]. cbn [length] in H1.
  assert (Hstep : grq_niffies (grq s) <= grq_niffies (grq (clock_step e s))
                  < grq_niffies (grq s) + 2 ^ 32).
  { unfold clock_step. cbv zeta.
    set (s0 := set_sched_clock_cpu _ _).
    change (grq_niffies (grq s)) with (grq_niffies (grq s0)).
    apply update_clocks_niffies_mono;
      change (grq_niffies (grq s0)) with (grq_niffies (grq s)); lia. }
  specialize (IH (clock_step e s)). lia.
Qed.

(** C5 (where the code departs from it): niffy_diff replaces a delta it
    does not trust (below 1 ns, or above JIFFIES_TO_NS(jiff_diff + 1))
    by US_TO_NS(1), and US_TO_NS shifts right by 10, so the delta
    becomes 0 ns and not one microsecond. *)
Theorem C5_niffy_diff_untrusted_delta_is_zero (d jd : Z) :
  d < 1 \/ to_ulong (JIFFIES_TO_NS (to_int (jd + 1))) < d ->
  niffy_diff d jd = 0.
Proof.
  intros H. unfold niffy_diff. cbv zeta.
  replace ((d <? 1) || (to_ulong (JIFFIES_TO_NS (to_int (jd + 1))) <? d))
    with true; [reflexivity|].
  symmetry. apply orb_true_iff. rewrite !Z.ltb_lt. exact H.
Qed.

(** ** Fork *)

Ltac split_ifs :=
  repeat match goal with
         | |- context [if ?b then _ else _] => destruct b
         end.

Lemma static_deadline_diff_ext (s s2 : sched) (sp : Z) :
  rr_interval s2 = rr_interval s -> prio_ratios s2 = prio_ratios s ->
  static_deadline_diff s2 sp = static_deadline_diff s sp.
Proof.
  intros Hrr Hpr.
  unfold static_deadline_diff, prio_deadline_diff, prio_ratio_at.
  now rewrite Hrr, Hpr.
Qed.

Lemma time_slice_expired_deadline (s : sched) (p : tid) :
  p_deadline (tasks (time_slice_expired p s) p)
  = to_u64 (grq_niffies (grq s)
            + static_deadline_diff s (p_static_prio (tasks s p))).
Proof.
  unfold time_slice_expired. rewrite tasks_with_task_same.
  cbn [p_deadline set_p_deadline].
  unfold task_deadline_diff, static_deadline_diff, TASK_USER_PRIO.
  rewrite tasks_with_task_same. reflexivity.
Qed.

(** A deadline handed out at niffies [n1] is not later than one handed
    out for the same static priority at a later niffies [n2]. *)
Lemma refill_deadline_mono (s s2 : sched) (q : tid) (sp : Z) :
  rr_interval s2 = rr_interval s -> prio_ratios s2 = prio_ratios s ->
  p_static_prio (tasks s2 q) = sp ->
  0 <= grq_niffies (grq s) <= grq_niffies (grq s2) ->
  grq_niffies (grq s2) + static_deadline_diff s sp < 2 ^ 64 ->
  let dl := to_u64 (grq_niffies (grq s) + static_deadline_diff s sp) in
  let dl2 := p_deadline (tasks (time_slice_expired q s2) q) in
  dl <= dl2 /\ (grq_niffies (grq s) < grq_niffies (grq s2) -> dl < dl2).
Proof.
  intros Hrr Hpr Hsp Hn Hwrap dl dl2. unfold dl, dl2.
  rewrite time_slice_expired_deadline, Hsp.
  rewrite (static_deadline_diff_ext s s2 sp Hrr Hpr).
  assert (0 <= static_deadline_diff s sp)
    by (unfold static_deadline_diff, prio_deadline_diff; apply to_u64_range).
  rewrite !to_u64_small by lia. lia.
Qed.

(** C4, as the code has it: for a child [p] (not the forking task)
    whose policy is not SCHED_FIFO, if the parent's rq_time_slice is at
    least 2 * RESCHED_US = 200 it is halved and the child's time_slice is
    that halved value, and sched_fork leaves the child's deadline as it
    was; otherwise the parent's rq_time_slice becomes 0, the parent gets
    TIF_NEED_RESCHED, and the child gets the timeslice and the deadline
    that time_slice_expired assigns (niffies plus the deadline offset of
    its static priority).  In this second case the child's deadline is
    not later than the one the parent gets when it is refilled afterwards
    at the same static priority, and earlier once niffies has moved. *)
Theorem C4_sched_fork_timeslice (s : sched) (p : tid) (clone_flags : Z) :
  p <> current s ->
  p_policy (tasks s p) <> SCHED_FIFO ->
  let curr := current s in
  let c := task_cpu s curr in
  let s' := sched_fork p clone_flags s in
  (RESCHED_US * 2 <= rq_time_slice (runqueues s c) ->
   rq_time_slice (runqueues s' c) = rq_time_slice (runqueues s c) ÷ 2 /\
   p_time_slice (tasks s' p) = rq_time_slice (runqueues s c) ÷ 2 /\
   p_deadline (tasks s' p) = p_deadline (tasks s p) /\
   p_need_resched (tasks s' curr) = p_need_resched (tasks s curr)) /\
  (rq_time_slice (runqueues s c) < RESCHED_US * 2 ->
   rq_time_slice (runqueues s' c) = 0 /\
   p_need_resched (tasks s' curr) = true /\
   p_time_slice (tasks s' p) = to_int (timeslice s) /\
   p_deadline (tasks s' p)
     = to_u64 (grq_niffies (grq s)
               + static_deadline_diff s (p_static_prio (tasks s' p))) /\
   forall s2,
     rr_interval s2 = rr_interval s -> prio_ratios s2 = prio_ratios s ->
     p_static_prio (tasks s2 curr) = p_static_prio (tasks s' p) ->
     0 <= grq_niffies (grq s) <= grq_niffies (grq s2) ->
     grq_niffies (grq s2)
       + static_deadline_diff s (p_static_prio (tasks s' p)) < 2 ^ 64 ->
     let parent_deadline :=
       p_deadline (tasks (time_slice_expired curr s2) curr) in
     p_deadline (tasks s' p) <= parent_deadline /\
     (grq_niffies (grq s) < grq_niffies (grq s2) ->
      p_deadline (tasks s' p) < parent_deadline)).
Proof.
  intros Hne Hpol curr c s'.
  assert (Hcp : Nat.eqb curr p = false) by (apply Nat.eqb_neq; auto).
  assert (Hfresh :
    rq_time_slice (runqueues s c) < RESCHED_US * 2 ->
    p_deadline (tasks s' p)
    = to_u64 (grq_niffies (grq s)
              + static_deadline_diff s (p_static_prio (tasks s' p))) ->
    forall s2,
      rr_interval s2 = rr_interval s -> prio_ratios s2 = prio_ratios s ->
      p_static_prio (tasks s2 curr) = p_static_prio (tasks s' p) ->
      0 <= grq_niffies (grq s) <= grq_niffies (grq s2) ->
      grq_niffies (grq s2)
        + static_deadline_diff s (p_static_prio (tasks s' p)) < 2 ^ 64 ->
      let parent_deadline :=
        p_deadline (tasks (time_slice_expired curr s2) curr) in
      p_deadline (tasks s' p) <= parent_deadline /\
      (grq_niffies (grq s) < grq_niffies (grq s2) ->
       p_deadline (tasks s' p) < parent_deadline)).
  { intros _ Hdl s2 Hrr Hpr Hsp Hn Hwrap. rewrite Hdl.
    now apply refill_deadline_mono. }
  revert Hfresh. unfold s', sched_fork. cbv zeta.
  set (s3 := if p_sched_reset_on_fork _ then _ else _).
  assert (Hcur3 : current s3 = curr) by (unfold s3; split_ifs; reflexivity).
  rewrite Hcur3.
  set (s5 := with_task p (set_p_oncpu false) _).
  assert (Hrq : runqueues s5 = runqueues s)
    by (unfold s5, s3; split_ifs; reflexivity).
  assert (Hgrq : grq s5 = grq s) by (unfold s5, s3; split_ifs; reflexivity).
  assert (Hrr : rr_interval s5 = rr_interval s)
    by (unfold s5, s3; split_ifs; reflexivity).
  assert (Hpr : prio_ratios s5 = prio_ratios s)
    by (unfold s5, s3; split_ifs; reflexivity).
  assert (Hcurr : tasks s5 curr = tasks s curr).
  { unfold s5, s3. split_ifs; simpl; fold curr; rewrite ?Hcp; reflexivity. }
  assert (Hdl : p_deadline (tasks s5 p) = p_deadline (tasks s p)).
  { unfold s5, s3. split_ifs; simpl; rewrite ?Nat.eqb_refl; reflexivity. }
  assert (Hfifo : policy_eqb (p_policy (tasks s5 p)) SCHED_FIFO = false).
  { apply policy_eqb_neq. unfold s5, s3.
    destruct (p_policy (tasks s p)) eqn:E; try congruence;
      split_ifs; simpl; rewrite ?Nat.eqb_refl; simpl;
      rewrite ?Nat.eqb_refl; simpl; rewrite ?E; congruence. }
  rewrite Hfifo.
  assert (Hc : task_rq s5 curr = c).
  { unfold task_rq, task_cpu, c, task_cpu. now rewrite Hcurr. }
  rewrite Hc. clearbody s5. clear s3 Hcur3.
  intros Hfresh. split; intros Hts.
  - clear Hfresh. apply Z.leb_le in Hts. rewrite Hrq, Hts. simpl.
    rewrite !Z.eqb_refl, !Nat.eqb_refl. simpl. fold curr.
    rewrite Hcp, Hrq, Hcurr, Hdl. auto.
  - specialize (Hfresh Hts). revert Hfresh.
    apply Z.leb_gt in Hts. rewrite Hrq, Hts.
    set (sf := with_task p (set_p_last_ran _) _).
    intros Hfresh.
    assert (Hdl2 : p_deadline (tasks sf p)
                   = to_u64 (grq_niffies (grq s)
                             + static_deadline_diff s
                                 (p_static_prio (tasks sf p)))).
    { unfold sf. simpl.
      rewrite ?Z.eqb_refl, ?Nat.eqb_refl. simpl. fold curr.
      rewrite ?Nat.eqb_refl, ?Hcp. simpl. rewrite ?Nat.eqb_refl.
      rewrite Hgrq. unfold task_deadline_diff, static_deadline_diff,
        TASK_USER_PRIO, prio_deadline_diff, prio_ratio_at. simpl.
      rewrite ?Nat.eqb_refl, ?Hcp. simpl. rewrite ?Nat.eqb_refl, ?Hcp.
      simpl. rewrite Hrr, Hpr. reflexivity. }
    split; [|split; [|split; [|split; [exact Hdl2 | exact (Hfresh Hdl2)]]]].
    + unfold sf. simpl. now rewrite Z.eqb_refl.
    + unfold sf. simpl. fold curr. rewrite Hcp. simpl.
      now rewrite Nat.eqb_refl.
    + unfold sf. simpl. rewrite !Nat.eqb_refl. simpl.
      unfold timeslice. simpl. now rewrite Hrr.
Qed.

(** ** Preemption *)

Lemma can_preempt_iff (s : sched) (p : tid) (prio deadline : Z)
    (policy : sched_policy) :
  can_preempt s p prio deadline policy = true <->
  p_prio (tasks s p) < prio \/
  (p_prio (tasks s p) = prio /\ p_deadline (tasks s p) < deadline).
Proof.
  unfold can_preempt, deadline_before.
  destruct (p_prio (tasks s p) <? prio) eqn:E1.
  { apply Z.ltb_lt in E1. split; auto. }
  apply Z.ltb_ge in E1.
  destruct (prio <? p_prio (tasks s p)) eqn:E2.
  { apply Z.ltb_lt in E2. split; [discriminate | lia]. }
  apply Z.ltb_ge in E2.
  destruct (p_deadline (tasks s p) <? deadline) eqn:E3; simpl.
  - apply Z.ltb_lt in E3. split; auto. intros _. right. lia.
  - apply Z.ltb_ge in E3. split; [discriminate | lia].
Qed.

Lemma try_preempt_step_inv (s : sched) (p : tid) (this_rq : Z)
    (seen : list Z) (acc : Z * Z * Z) (cpu : Z) :
  scan_inv s seen acc ->
  0 <= rq_prio (runqueues s cpu) ->
  scan_inv s (seen ++ [cpu]) (try_preempt_step s p this_rq acc cpu).
Proof.
  destruct acc as [[ld hp] hrq]. unfold scan_inv, try_preempt_step.
  intros Hinv Hpos.
  destruct (rq_prio (runqueues s cpu) <? hp) eqn:E1.
  - apply Z.ltb_lt in E1. right.
    destruct Hinv as [[-> ->] | (Hin & Hhp & Hmax)]; [lia|].
    split; [apply in_or_app; auto|]. split; [exact Hhp|].
    intros c Hc. apply in_app_or in Hc as [Hc | [<- | []]]; [auto | lia].
  - apply Z.ltb_ge in E1. cbv zeta.
    destruct ((hp <? rq_prio (runqueues s cpu)) || _) eqn:E2.
    + right. split; [apply in_or_app; right; now left|].
      split; [reflexivity|].
      intros c Hc. apply in_app_or in Hc as [Hc | [<- | []]]; [|lia].
      destruct Hinv as [[-> _] | (_ & _ & Hmax)]; [easy|].
      specialize (Hmax c Hc). lia.
    + apply orb_false_iff in E2 as [E2 _]. apply Z.ltb_ge in E2.
      assert (hp = rq_prio (runqueues s cpu)) by lia.
      right. destruct Hinv as [[-> ->] | (Hin & Hhp & Hmax)]; [lia|].
      split; [apply in_or_app; auto|]. split; [exact Hhp|].
      intros c Hc. apply in_app_or in Hc as [Hc | [<- | []]]; [auto | lia].
Qed.

Lemma try_preempt_fold_inv (s : sched) (p : tid) (this_rq : Z)
    (l seen : list Z) (acc : Z * Z * Z) :
  scan_inv s seen acc ->
  (forall c, In c l -> 0 <= rq_prio (runqueues s c)) ->
  scan_inv s (seen ++ l) (fold_left (try_preempt_step s p this_rq) l acc).
Proof.
  revert seen acc. induction l as [|cpu l IH]; intros seen acc Hinv Hpos.
  - now rewrite app_nil_r.
  - cbn [fold_left].
    replace (seen ++ cpu :: l) with ((seen ++ [cpu]) ++ l)
      by (now rewrite <- app_assoc).
    apply IH.
    + apply try_preempt_step_inv; [exact Hinv | apply Hpos; now left].
    + intros c Hc. apply Hpos. now right.
Qed.

Lemma online_cpus_candidates (s : sched) (p : tid) :
  online_cpus s p = true -> preempt_candidates s p <> [].
Proof.
  unfold online_cpus, cpus_intersects, preempt_candidates,
    for_each_cpu_mask, cpus_and.
  intros H. apply existsb_exists in H as (c & Hc & Hbits).
  intros E.
  assert (Hin : In c (filter
                  (fun c => Z.testbit
                     (Z.land (cpu_online_map s) (p_cpus_allowed (tasks s p))) c)
                  cpu_range)).
  { apply filter_In. split; [exact Hc|]. now rewrite Z.land_spec. }
  rewrite E in Hin. exact Hin.
Qed.

Lemma resched_task_sets_flag (p : tid) (s : sched) :
  p_need_resched (tasks (resched_task p s) p) = true.
Proof.
  unfold resched_task.
  destruct (p_need_resched (tasks s p)) eqn:E; [exact E|].
  cbv zeta.
  assert (H : p_need_resched
                (tasks (with_task p (set_p_need_resched true) s) p) = true)
    by now rewrite tasks_with_task_same.
  split_ifs; exact H.
Qed.

(** C2, as the code has it: can_preempt(p, prio, deadline, policy) is
    true exactly when p->prio < prio, or p->prio = prio and p->deadline
    < deadline.  When try_preempt finds no suitable idle CPU, p is not
    SCHED_IDLEPRIO and p has an online CPU in its affinity mask, the CPU
    chosen is one of those with the largest rq_prio, and its current
    task is marked for reschedule exactly when can_preempt holds against
    that CPU's rq_prio and rq_deadline; otherwise nothing changes. *)
Theorem C2_can_preempt_and_try_preempt (s : sched) (p : tid) (this_rq : Z) :
  suitable_idle_cpus s p = false ->
  p_policy (tasks s p) <> SCHED_IDLEPRIO ->
  online_cpus s p = true ->
  (forall c, In c (preempt_candidates s p) -> 0 <= rq_prio (runqueues s c)) ->
  (forall prio deadline policy,
     can_preempt s p prio deadline policy = true <->
     p_prio (tasks s p) < prio \/
     (p_prio (tasks s p) = prio /\ p_deadline (tasks s p) < deadline)) /\
  let chosen :=
    snd (try_preempt_scan s p this_rq
           (cpus_and (cpu_online_map s) (p_cpus_allowed (tasks s p)))) in
  let r := runqueues s chosen in
  In chosen (preempt_candidates s p) /\
  (forall c, In c (preempt_candidates s p) ->
     rq_prio (runqueues s c) <= rq_prio r) /\
  (can_preempt s p (rq_prio r) (rq_deadline r) (rq_policy r) = true ->
     try_preempt p this_rq s = resched_task (rq_curr r) s /\
     p_need_resched (tasks (try_preempt p this_rq s) (rq_curr r)) = true) /\
  (can_preempt s p (rq_prio r) (rq_deadline r) (rq_policy r) = false ->
     try_preempt p this_rq s = s).
Proof.
  intros Hidle Hpol Honline Hprio.
  split; [intros; apply can_preempt_iff|].
  intros chosen r.
  pose proof (try_preempt_fold_inv s p this_rq (preempt_candidates s p) []
                (0, -1, this_rq)) as Hinv.
  unfold try_preempt_scan in chosen.
  fold (preempt_candidates s p) in chosen.
  specialize (Hinv (or_introl (conj eq_refl eq_refl)) Hprio).
  rewrite app_nil_l in Hinv.
  assert (Htp : forall b,
            can_preempt s p (rq_prio r) (rq_deadline r) (rq_policy r) = b ->
            try_preempt p this_rq s
            = if b then resched_task (rq_curr r) s else s).
  { intros b Hb. unfold try_preempt.
    apply policy_eqb_neq in Hpol. rewrite Hidle, Hpol, Honline.
    unfold try_preempt_scan. fold (preempt_candidates s p).
    unfold r, chosen in Hb. revert Hb Hinv.
    destruct (fold_left _ _ _) as [[ld hp] hrq]. cbn [snd scan_inv].
    intros Hb [[E _] | (_ & Hhp & _)].
    - now apply online_cpus_candidates in Honline.
    - rewrite Hhp, Hb. unfold r, chosen.
      now destruct b. }
  unfold r, chosen in *. clear r chosen.
  destruct (fold_left _ _ _) as [[ld hp] hrq]. cbn [snd scan_inv] in *.
  destruct Hinv as [[E _] | (Hin & Hhp & Hmax)].
  { now apply online_cpus_candidates in Honline. }
  split; [exact Hin|]. split.
  - intros c Hc. rewrite <- Hhp. now apply Hmax.
  - split; intros Hb.
    + rewrite (Htp true Hb). split; [reflexivity|].
      apply resched_task_sets_flag.
    + now rewrite (Htp false Hb).
Qed.

(** ** The selector *)

Lemma find_bit_from_spec (bm : Z) (n : nat) (off : Z) :
  let r := find_bit_from bm off n in
  off <= r <= off + Z.of_nat n /\
  (forall i, off <= i < r -> Z.testbit bm i = false) /\
  (r < off + Z.of_nat n -> Z.testbit bm r = true).
Proof.
  revert off. induction n as [|n IH]; intros off; cbn [find_bit_from].
  - cbv zeta. repeat split; lia.
  - destruct (Z.testbit bm off) eqn:E.
    + cbv zeta. repeat split; try lia. intros _. exact E.
    + specialize (IH (off + 1)). cbv zeta in IH |- *.
      destruct IH as (Hr & Hclear & Hset).
      repeat split; try lia.
      * intros i Hi. destruct (Z.eq_dec i off) as [-> | Hne]; [exact E|].
        apply Hclear. lia.
      * intros Hlt. apply Hset. lia.
Qed.

Lemma find_next_bit_spec (bm size off : Z) :
  0 <= off <= size ->
  let r := find_next_bit bm size off in
  off <= r <= size /\
  (forall i, off <= i < r -> Z.testbit bm i = false) /\
  (r < size -> Z.testbit bm r = true).
Proof.
  intros H. unfold find_next_bit.
  destruct (size <=? off) eqn:E.
  - apply Z.leb_le in E. cbv zeta. repeat split; lia.
  - apply Z.leb_gt in E.
    pose proof (find_bit_from_spec bm (Z.to_nat (size - off)) off) as F.
    rewrite Z2Nat.id in F by lia. cbv zeta in F |- *.
    replace (off + (size - off)) with size in F by lia. exact F.
Qed.

(** In a realtime band the scan stops at the first task that may run on
    the CPU. *)
Lemma edt_scan_band_rt (s : sched) (c : Z) (idle : tid) (idx : Z)
    (l : list tid) (edt : tid) (e : Z) :
  idx < MAX_RT_PRIO ->
  edt_scan_band s c idle idx l edt e
  = match find (cpu_allowed s c) l with
    | Some p => (true, p, e)
    | None => (false, edt, e)
    end.
Proof.
  intros Hrt. apply Z.ltb_lt in Hrt.
  induction l as [|p l IH]; cbn [edt_scan_band find]; [reflexivity|].
  unfold cpu_allowed at 1.
  destruct (needs_other_cpu s p _); cbn [negb]; [exact IH|].
  now rewrite Hrt.
Qed.

Lemma take_task_unlinks (s : sched) (c : Z) (p : tid) (b : Z) :
  ~ In p (grq_queue (grq (take_task c p s)) b).
Proof.
  assert (E : grq_queue (grq (take_task c p s))
              = list_del_init p (grq_queue (grq s))).
  { unfold take_task, dec_qnr, dequeue_task. cbv zeta.
    split_ifs; reflexivity. }
  rewrite E. unfold list_del_init. intros H.
  apply filter_In in H as [_ H]. now rewrite Nat.eqb_refl in H.
Qed.

Lemma take_task_qnr (s : sched) (c : Z) (p : tid) :
  grq_qnr (grq (take_task c p s)) = to_ulong (grq_qnr (grq s) - 1).
Proof.
  unfold take_task, dec_qnr, dequeue_task. cbv zeta.
  split_ifs; reflexivity.
Qed.

Lemma first_allowed_none_of_empty (s : sched) (c b : Z) :
  grq_queue (grq s) b = [] -> first_allowed s c b = None.
Proof. unfold first_allowed. now intros ->. Qed.

Lemma first_allowed_some_of_in (s : sched) (c b : Z) (q : tid) :
  In q (grq_queue (grq s) b) -> cpu_allowed s c q = true ->
  exists p, first_allowed s c b = Some p.
Proof.
  intros Hin Hq. unfold first_allowed.
  destruct (find _ _) as [p|] eqn:E; [now exists p|].
  now rewrite (find_none _ _ E q Hin) in Hq.
Qed.

(** The retry loop, started at [idx] at or below a realtime band that
    holds a task allowed on the CPU. *)
Lemma edt_retry_rt (s : sched) (c : Z) (idle : tid) (fuel : nat) :
  bitmap_covers_queues s ->
  forall idx e,
    0 <= idx ->
    PRIO_LIMIT - idx <= Z.of_nat fuel ->
    (exists b p, idx <= b < MAX_RT_PRIO /\ first_allowed s c b = Some p) ->
    exists b p,
      idx <= b < MAX_RT_PRIO /\
      first_allowed s c b = Some p /\
      (forall b', idx <= b' < b -> first_allowed s c b' = None) /\
      edt_retry fuel s c idle idx e = (p, take_task c p s).
Proof.
  intros Hcov. induction fuel as [|fuel IH]; intros idx e Hidx Hfuel Hex.
  { destruct Hex as (b & p & Hb & _). unfold PRIO_LIMIT, IDLE_PRIO in Hfuel.
    simpl in Hfuel. lia. }
  destruct Hex as (b0 & p0 & Hb0 & Hp0).
  assert (Hlim : MAX_RT_PRIO < PRIO_LIMIT)
    by (unfold PRIO_LIMIT, IDLE_PRIO; lia).
  assert (Hbit0 : Z.testbit (grq_prio_bitmap (grq s)) b0 = true).
  { apply Hcov; [lia|]. intros E.
    now rewrite (first_allowed_none_of_empty _ _ _ E) in Hp0. }
  cbn [edt_retry].
  destruct (find_next_bit_spec (grq_prio_bitmap (grq s)) PRIO_LIMIT idx
              ltac:(lia)) as (Hr & Hclear & Hset).
  set (idx1 := find_next_bit (grq_prio_bitmap (grq s)) PRIO_LIMIT idx) in *.
  assert (Hle : idx1 <= b0).
  { destruct (Z_le_gt_dec idx1 b0) as [H | H]; [exact H|].
    rewrite Hclear in Hbit0 by lia. discriminate. }
  replace (PRIO_LIMIT <=? idx1) with false by (symmetry; apply Z.leb_gt; lia).
  assert (Hbelow : forall b', idx <= b' < idx1 -> first_allowed s c b' = None).
  { intros b' Hb'. apply first_allowed_none_of_empty.
    destruct (grq_queue (grq s) b') eqn:E; [reflexivity|]. exfalso.
    assert (Hb : Z.testbit (grq_prio_bitmap (grq s)) b' = true)
      by (apply Hcov; [lia | congruence]).
    rewrite Hclear in Hb by lia. discriminate. }
  rewrite edt_scan_band_rt by lia.
  fold (first_allowed s c idx1).
  destruct (first_allowed s c idx1) as [p|] eqn:Efirst.
  - exists idx1, p. repeat split; try lia; auto.
  - rewrite Nat.eqb_refl.
    replace (idx1 + 1 <? PRIO_LIMIT) with true
      by (symmetry; apply Z.ltb_lt; lia).
    assert (Hne : idx1 <> b0) by (intros ->; congruence).
    destruct (IH (idx1 + 1) e ltac:(lia) ltac:(lia))
      as (b & p & Hb & Hp & Hmin & Hres).
    { exists b0, p0. split; [lia | exact Hp0]. }
    exists b, p. repeat split; try lia; auto.
    intros b' Hb'. destruct (Z_lt_ge_dec b' idx1) as [H1 | H1].
    + apply Hbelow. lia.
    + destruct (Z.eq_dec b' idx1) as [-> | H2]; [exact Efirst|].
      apply Hmin. lia.
Qed.

Lemma find_some_split {A : Type} (f : A -> bool) (l : list A) (x : A) :
  find f l = Some x ->
  exists l1 l2, l = l1 ++ x :: l2 /\ f x = true /\
                forall y, In y l1 -> f y = false.
Proof.
  induction l as [|a l IH]; cbn [find]; [discriminate|].
  destruct (f a) eqn:E.
  - intros [= ->]. exists [], l. repeat split; auto. intros y [].
  - intros H. destruct (IH H) as (l1 & l2 & -> & Hx & Hl1).
    exists (a :: l1), l2. repeat split; auto.
    intros y [<- | Hy]; auto.
Qed.

(** C1: when some queued task of a realtime band (index below
    MAX_RT_PRIO) may run on rq's CPU, earliest_deadline_task returns the
    first such task, in list order, of the lowest band that holds one
    (tasks before it in that band are not allowed on the CPU, and no
    lower band holds an allowed task), and the state it leaves is that of
    take_task(rq, p): p is on no run list any more and qnr is one less. *)
Theorem C1_earliest_deadline_task_realtime (s : sched) (c : Z) (idle : tid) :
  bitmap_covers_queues s ->
  (exists b q, 0 <= b < MAX_RT_PRIO /\
               In q (grq_queue (grq s) b) /\ cpu_allowed s c q = true) ->
  exists b p l1 l2,
    0 <= b < MAX_RT_PRIO /\
    grq_queue (grq s) b = l1 ++ p :: l2 /\
    cpu_allowed s c p = true /\
    (forall q, In q l1 -> cpu_allowed s c q = false) /\
    (forall b' q, 0 <= b' < b -> In q (grq_queue (grq s) b') ->
                  cpu_allowed s c q = false) /\
    earliest_deadline_task c idle s = (p, take_task c p s) /\
    (forall b', ~ In p (grq_queue (grq (take_task c p s)) b')) /\
    grq_qnr (grq (take_task c p s)) = to_ulong (grq_qnr (grq s) - 1).
Proof.
  intros Hcov (b0 & q0 & Hb0 & Hin0 & Hq0).
  destruct (first_allowed_some_of_in s c b0 q0 Hin0 Hq0) as [p0 Hp0].
  destruct (edt_retry_rt s c idle (Z.to_nat PRIO_LIMIT) Hcov 0 0)
    as (b & p & Hb & Hp & Hmin & Hres).
  - lia.
  - unfold PRIO_LIMIT, IDLE_PRIO. lia.
  - exists b0, p0. split; [lia | exact Hp0].
  - destruct (find_some_split _ _ _ Hp) as (l1 & l2 & Hl & Hpa & Hl1).
    exists b, p, l1, l2. repeat split; auto; try lia.
    + intros b' q Hb' Hq. specialize (Hmin b' Hb').
      exact (find_none _ _ Hmin q Hq).
    + apply take_task_unlinks.
    + apply take_task_qnr.
Qed.

(** ** Run lists and the priority bitmap *)

Lemma shiftl_1_neg (n : Z) : n < 0 -> Z.shiftl 1 n = 0.
Proof.
  intros H. rewrite Z.shiftl_div_pow2 by lia.
  apply Z.div_small. split; [lia|]. apply Z.pow_gt_1; lia.
Qed.

Lemma setbit_testbit (a n m : Z) :
  0 <= m -> Z.testbit (Z.setbit a n) m = (n =? m) || Z.testbit a m.
Proof.
  intros Hm. destruct (Z_lt_ge_dec n 0) as [Hn | Hn].
  - unfold Z.setbit. rewrite shiftl_1_neg, Z.lor_0_r by assumption.
    replace (n =? m) with false by (symmetry; apply Z.eqb_neq; lia).
    reflexivity.
  - apply Z.setbit_eqb. lia.
Qed.

Lemma setbit_of_set (a n : Z) : Z.testbit a n = true -> Z.setbit a n = a.
Proof.
  intros H. apply Z.bits_inj'. intros m Hm.
  rewrite setbit_testbit by assumption.
  destruct (Z.eqb_spec n m) as [-> | _]; [now rewrite H | reflexivity].
Qed.

Lemma clearbit_setbit_of_clear (a n : Z) :
  Z.testbit a n = false -> Z.clearbit (Z.setbit a n) n = a.
Proof.
  intros H. apply Z.bits_inj'. intros m Hm.
  rewrite Z.clearbit_eqb, setbit_testbit by assumption.
  destruct (Z.eqb_spec n m) as [-> | _]; simpl; [now rewrite H|].
  now rewrite andb_true_r.
Qed.

Lemma filter_other_id (p : tid) (l : list tid) :
  ~ In p l -> filter (fun x => negb (Nat.eqb x p)) l = l.
Proof.
  induction l as [|a l IH]; intros H; [reflexivity|]. cbn [filter].
  destruct (Nat.eqb_spec a p) as [-> | _]; simpl.
  - elim H. now left.
  - f_equal. apply IH. intros Hin. apply H. now right.
Qed.

Lemma filter_other_app (p : tid) (l : list tid) :
  ~ In p l -> filter (fun x => negb (Nat.eqb x p)) (l ++ [p]) = l.
Proof.
  intros H. rewrite filter_app. cbn [filter].
  rewrite Nat.eqb_refl. cbn [negb]. rewrite app_nil_r.
  now apply filter_other_id.
Qed.

(** What enqueue_task does to the machine, in terms of the band it
    decides on. *)
Lemma enqueue_task_effect (s : sched) (p : tid) :
  let s1 := enqueue_task p s in
  let band := p_prio (tasks s1 p) in
  grq s1
  = set_grq_queue (list_add_tail p band (grq_queue (grq s)))
      (set_grq_prio_bitmap (__set_bit band (grq_prio_bitmap (grq s)))
         (grq s)) /\
  tasks s1 p = set_p_prio band (tasks s p) /\
  (forall q, q <> p -> tasks s1 q = tasks s q) /\
  runqueues s1 = runqueues s /\
  ipis s1 = ipis s.
Proof.
  unfold enqueue_task.
  destruct (negb (rt_task s p)); [destruct (_ || _)|];
    simpl; rewrite ?Nat.eqb_refl; simpl;
    repeat split; try reflexivity;
    try (intros q Hq; apply Nat.eqb_neq in Hq; now rewrite Hq);
    now destruct (tasks s p).
Qed.

Lemma dequeue_task_effect (s : sched) (p : tid) :
  let s1 := dequeue_task p s in
  let prio := p_prio (tasks s p) in
  grq_queue (grq s1) = list_del_init p (grq_queue (grq s)) /\
  grq_prio_bitmap (grq s1)
  = (if list_empty (list_del_init p (grq_queue (grq s)) prio)
     then __clear_bit prio (grq_prio_bitmap (grq s))
     else grq_prio_bitmap (grq s)) /\
  grq_qnr (grq s1) = grq_qnr (grq s) /\
  grq_nr_running (grq s1) = grq_nr_running (grq s) /\
  tasks s1 = tasks s /\ runqueues s1 = runqueues s /\ ipis s1 = ipis s.
Proof.
  unfold dequeue_task. cbv zeta. simpl.
  destruct (list_empty _); simpl; repeat split; reflexivity.
Qed.

(** X1: enqueue_task followed by dequeue_task on a task that was on no
    run list gives back every band and the priority bitmap as they were
    (the band's bit standing for "non-empty" beforehand). *)
Theorem X1_enqueue_dequeue_round_trip (s : sched) (p : tid) :
  not_queued s p ->
  (Z.testbit (grq_prio_bitmap (grq s)) (p_prio (tasks (enqueue_task p s) p))
     = true <->
   grq_queue (grq s) (p_prio (tasks (enqueue_task p s) p)) <> []) ->
  (forall b, grq_queue (grq (dequeue_task p (enqueue_task p s))) b
             = grq_queue (grq s) b) /\
  grq_prio_bitmap (grq (dequeue_task p (enqueue_task p s)))
    = grq_prio_bitmap (grq s) /\
  not_queued (dequeue_task p (enqueue_task p s)) p.
Proof.
  intros Hnq Hbit.
  destruct (enqueue_task_effect s p) as (Hg & _).
  destruct (dequeue_task_effect (enqueue_task p s) p) as (Hq & Hb & _).
  cbv zeta in Hg, Hq, Hb.
  set (s1 := enqueue_task p s) in *. set (band := p_prio (tasks s1 p)) in *.
  assert (Hqueue : forall b, list_del_init p (grq_queue (grq s1)) b
                             = grq_queue (grq s) b).
  { intros b. rewrite Hg. unfold list_del_init, list_add_tail. simpl.
    destruct (Z.eqb_spec b band) as [-> | _].
    - apply filter_other_app, Hnq.
    - apply filter_other_id, Hnq. }
  split; [intros b; rewrite Hq; apply Hqueue|]. split.
  - rewrite Hb, Hqueue, Hg. simpl. unfold __set_bit, __clear_bit.
    destruct (grq_queue (grq s) band) eqn:E; simpl.
    + apply clearbit_setbit_of_clear.
      destruct (Z.testbit _ band) eqn:T; [|reflexivity].
      destruct Hbit as [H _]. now elim (H eq_refl).
    + apply setbit_of_set, Hbit. discriminate.
  - intros b. rewrite Hq, Hqueue. apply Hnq.
Qed.

Lemma enqueue_task_bitmap (s : sched) (p : tid) :
  bitmap_matches_queues s -> bitmap_matches_queues (enqueue_task p s).
Proof.
  intros Hinv. destruct (enqueue_task_effect s p) as (Hg & _).
  cbv zeta in Hg.
  set (s1 := enqueue_task p s) in *. set (band := p_prio (tasks s1 p)) in *.
  intros b Hb. rewrite Hg. simpl. unfold __set_bit, list_add_tail.
  rewrite setbit_testbit by lia. rewrite (Z.eqb_sym band b).
  destruct (Z.eqb_spec b band) as [-> | _]; simpl.
  - split; [intros _ | reflexivity].
    now destruct (grq_queue (grq s) band).
  - now apply Hinv.
Qed.

(** X2: enqueue_task keeps the bitmap in step with the bands, and leaves
    the task at the tail of the band of its (possibly rewritten)
    priority, the other bands untouched. *)
Theorem X2_enqueue_task_keeps_bitmap (s : sched) (p : tid) :
  bitmap_matches_queues s ->
  bitmap_matches_queues (enqueue_task p s) /\
  grq_queue (grq (enqueue_task p s)) (p_prio (tasks (enqueue_task p s) p))
    = grq_queue (grq s) (p_prio (tasks (enqueue_task p s) p)) ++ [p] /\
  (forall b, b <> p_prio (tasks (enqueue_task p s) p) ->
     grq_queue (grq (enqueue_task p s)) b = grq_queue (grq s) b).
Proof.
  intros Hinv. destruct (enqueue_task_effect s p) as (Hg & _).
  cbv zeta in Hg.
  set (s1 := enqueue_task p s) in *. set (band := p_prio (tasks s1 p)) in *.
  split; [|split].
  - now apply enqueue_task_bitmap.
  - rewrite Hg. simpl. unfold list_add_tail. now rewrite Z.eqb_refl.
  - intros b Hb. rewrite Hg. simpl. unfold list_add_tail.
    apply Z.eqb_neq in Hb. now rewrite Hb.
Qed.

Lemma filter_other_nonempty (p : tid) (l : list tid) (q : tid) :
  In q l -> q <> p -> filter (fun x => negb (Nat.eqb x p)) l <> [].
Proof.
  intros Hin Hne E.
  assert (H : In q (filter (fun x => negb (Nat.eqb x p)) l)).
  { apply filter_In. split; [exact Hin|].
    apply Nat.eqb_neq in Hne. now rewrite Hne. }
  now rewrite E in H.
Qed.

Lemma dequeue_task_bitmap (s : sched) (p : tid) :
  bitmap_matches_queues s -> queued_in_own_band s p ->
  bitmap_matches_queues (dequeue_task p s).
Proof.
  intros Hinv Hown.
  destruct (dequeue_task_effect s p) as (Hq & Hb & _). cbv zeta in Hq, Hb.
  assert (Hother : forall b, b <> p_prio (tasks s p) ->
            list_del_init p (grq_queue (grq s)) b = grq_queue (grq s) b).
  { intros b Hne. unfold list_del_init. apply filter_other_id.
    intros Hin. apply Hne. now apply Hown. }
  intros b Hrange. rewrite Hq, Hb.
  destruct (Z.eq_dec b (p_prio (tasks s p))) as [-> | Hne].
  - destruct (list_del_init p (grq_queue (grq s)) (p_prio (tasks s p)))
      eqn:E; simpl.
    + unfold __clear_bit. rewrite Z.clearbit_eq. split; congruence.
    + split; [discriminate | intros _].
      apply Hinv; [exact Hrange|]. intros E0.
      unfold list_del_init in E. now rewrite E0 in E.
  - rewrite (Hother b Hne).
    destruct (list_empty _); [|now apply Hinv].
    unfold __clear_bit. rewrite Z.clearbit_neq by congruence.
    now apply Hinv.
Qed.

(** X3: dequeue_task on a task that is linked only in the band of its
    priority keeps the bitmap in step with the bands, takes the task off
    every run list and keeps the other tasks of each band in order. *)
Theorem X3_dequeue_task_keeps_bitmap (s : sched) (p : tid) :
  bitmap_matches_queues s ->
  queued_in_own_band s p ->
  bitmap_matches_queues (dequeue_task p s) /\
  not_queued (dequeue_task p s) p /\
  (forall b, grq_queue (grq (dequeue_task p s)) b
             = filter (fun x => negb (Nat.eqb x p)) (grq_queue (grq s) b)) /\
  (forall b, b <> p_prio (tasks s p) ->
     grq_queue (grq (dequeue_task p s)) b = grq_queue (grq s) b).
Proof.
  intros Hinv Hown.
  destruct (dequeue_task_effect s p) as (Hq & Hb & _). cbv zeta in Hq, Hb.
  assert (Hother : forall b, b <> p_prio (tasks s p) ->
            list_del_init p (grq_queue (grq s)) b = grq_queue (grq s) b).
  { intros b Hne. unfold list_del_init. apply filter_other_id.
    intros Hin. apply Hne. now apply Hown. }
  split; [|split; [|split]].
  - now apply dequeue_task_bitmap.
  - intros b Hin. rewrite Hq in Hin. unfold list_del_init in Hin.
    apply filter_In in Hin as [_ H]. now rewrite Nat.eqb_refl in H.
  - intros b. now rewrite Hq.
  - intros b Hne. rewrite Hq. now apply Hother.
Qed.

(** ** Preemption order *)

(** X4: can_preempt is a strict order on (prio, deadline).  Taking the
    priority and deadline to beat from another task, no task can
    preempt itself, two tasks never can preempt each other, and the
    relation is transitive; two tasks of equal priority and deadline
    do not preempt one another. *)
Theorem X4_can_preempt_strict_order (s : sched) (p q r : tid) :
  can_preempt s p (p_prio (tasks s p)) (p_deadline (tasks s p))
    (p_policy (tasks s p)) = false /\
  (can_preempt s p (p_prio (tasks s q)) (p_deadline (tasks s q))
     (p_policy (tasks s q)) = true ->
   can_preempt s q (p_prio (tasks s p)) (p_deadline (tasks s p))
     (p_policy (tasks s p)) = false) /\
  (can_preempt s p (p_prio (tasks s q)) (p_deadline (tasks s q))
     (p_policy (tasks s q)) = true ->
   can_preempt s q (p_prio (tasks s r)) (p_deadline (tasks s r))
     (p_policy (tasks s r)) = true ->
   can_preempt s p (p_prio (tasks s r)) (p_deadline (tasks s r))
     (p_policy (tasks s r)) = true).
Proof.
  assert (Hfalse : forall a prio dl pol,
            ~ (p_prio (tasks s a) < prio \/
               (p_prio (tasks s a) = prio /\ p_deadline (tasks s a) < dl)) ->
            can_preempt s a prio dl pol = false).
  { intros a prio dl pol H.
    destruct (can_preempt s a prio dl pol) eqn:E; [|reflexivity].
    apply can_preempt_iff in E. now elim H. }
  split; [apply Hfalse; lia|]. split.
  - intros H. apply can_preempt_iff in H. apply Hfalse. lia.
  - intros H1 H2. apply can_preempt_iff in H1, H2. apply can_preempt_iff.
    lia.
Qed.

(** ** The selector: nothing to run, and earliest deadline first *)

Lemma edt_scan_band_none (s : sched) (c : Z) (idle : tid) (idx : Z)
    (l : list tid) (edt : tid) (e : Z) :
  (forall q, In q l -> cpu_allowed s c q = false) ->
  edt_scan_band s c idle idx l edt e = (false, edt, e).
Proof.
  induction l as [|p l IH]; intros H; cbn [edt_scan_band]; [reflexivity|].
  assert (Hp : needs_other_cpu s p (to_uint (cpu_of (runqueues s c))) = true).
  { specialize (H p (or_introl eq_refl)). unfold cpu_allowed in H.
    now destruct (needs_other_cpu _ _ _). }
  rewrite Hp. apply IH. intros q Hq. apply H. now right.
Qed.

Lemma edt_retry_none (s : sched) (c : Z) (idle : tid) (fuel : nat) :
  (forall b q, 0 <= b < PRIO_LIMIT -> In q (grq_queue (grq s) b) ->
     cpu_allowed s c q = false) ->
  forall idx e, 0 <= idx -> edt_retry fuel s c idle idx e = (idle, s).
Proof.
  intros Hnone. induction fuel as [|fuel IH]; intros idx e Hidx;
    cbn [edt_retry]; [reflexivity|].
  destruct (PRIO_LIMIT <=? find_next_bit _ PRIO_LIMIT idx) eqn:E;
    [reflexivity|].
  apply Z.leb_gt in E.
  assert (Hge : idx <= find_next_bit (grq_prio_bitmap (grq s)) PRIO_LIMIT idx).
  { destruct (Z_le_gt_dec idx PRIO_LIMIT) as [H | H].
    - now apply find_next_bit_spec.
    - unfold find_next_bit in *.
      replace (PRIO_LIMIT <=? idx) with true in *
        by (symmetry; apply Z.leb_le; lia). lia. }
  rewrite edt_scan_band_none
    by (intros q Hq; eapply Hnone; [|exact Hq]; lia).
  rewrite Nat.eqb_refl.
  destruct (_ + 1 <? PRIO_LIMIT); [apply IH; lia | reflexivity].
Qed.

(** X5: when no task on the run lists may run on rq's CPU (in
    particular when the run lists are empty), earliest_deadline_task
    returns the idle task it was given and takes nothing off the
    runqueue. *)
Theorem X5_earliest_deadline_task_nothing_to_run
    (s : sched) (c : Z) (idle : tid) :
  (forall b q, 0 <= b < PRIO_LIMIT -> In q (grq_queue (grq s) b) ->
     cpu_allowed s c q = false) ->
  earliest_deadline_task c idle s = (idle, s).
Proof.
  intros H. unfold earliest_deadline_task.
  apply edt_retry_none; [exact H | lia].
Qed.

Lemma edt_scan_band_from_best (s : sched) (c : Z) (idle : tid) (idx : Z)
    (l : list tid) :
  MAX_RT_PRIO <= idx -> ~ In idle l ->
  forall edt e, edt <> idle ->
  exists p e',
    edt_scan_band s c idle idx l edt e = (false, p, e') /\ p <> idle /\
    ((p = edt /\ e' = e /\
      forall q, In q l -> cpu_allowed s c q = true ->
                e <= adjusted_deadline s c q) \/
     (e' = adjusted_deadline s c p /\ e' < e /\
      exists l1 l2, l = l1 ++ p :: l2 /\ cpu_allowed s c p = true /\
        (forall q, In q l1 -> cpu_allowed s c q = true ->
                   e' < adjusted_deadline s c q) /\
        (forall q, In q l2 -> cpu_allowed s c q = true ->
                   e' <= adjusted_deadline s c q))).
Proof.
  intros Hidx. apply Z.ltb_ge in Hidx.
  induction l as [|a l IH]; intros Hidle edt e Hedt.
  { exists edt, e. cbn [edt_scan_band]. split; [reflexivity|].
    split; [exact Hedt|]. left. repeat split. intros q []. }
  assert (Ha : a <> idle) by (intros ->; apply Hidle; now left).
  assert (Hl : ~ In idle l) by (intros H; apply Hidle; now right).
  cbn [edt_scan_band].
  destruct (needs_other_cpu s a _) eqn:Eallow.
  - destruct (IH Hl edt e Hedt) as (p & e' & Hscan & Hp & Hcase).
    exists p, e'. split; [exact Hscan|]. split; [exact Hp|].
    assert (Hna : cpu_allowed s c a = false)
      by (unfold cpu_allowed; now rewrite Eallow).
    destruct Hcase
      as [(-> & -> & Hall)
         | (He' & Hlt & l1 & l2 & -> & Hpa & H1 & H2)].
    + left. repeat split. intros q [<- | Hq] Hqa; [congruence | auto].
    + right. split; [exact He'|]. split; [exact Hlt|].
      exists (a :: l1), l2. repeat split; auto.
      intros q [<- | Hq] Hqa; [congruence | auto].
  - assert (Haa : cpu_allowed s c a = true)
      by (unfold cpu_allowed; now rewrite Eallow).
    rewrite Hidx. fold (adjusted_deadline s c a).
    replace (Nat.eqb edt idle) with false
      by (symmetry; now apply Nat.eqb_neq).
    cbn [orb]. unfold deadline_before.
    destruct (adjusted_deadline s c a <? e) eqn:Elt.
    + apply Z.ltb_lt in Elt.
      destruct (IH Hl a (adjusted_deadline s c a) Ha)
        as (p & e' & Hscan & Hp & Hcase).
      exists p, e'. split; [exact Hscan|]. split; [exact Hp|]. right.
      destruct Hcase
        as [(-> & -> & Hall)
           | (He' & Hlt & l1 & l2 & -> & Hpa & H1 & H2)].
      * split; [reflexivity|]. split; [exact Elt|].
        exists [], l. repeat split; auto. intros q [].
      * split; [exact He'|]. split; [lia|].
        exists (a :: l1), l2. repeat split; auto.
        intros q [<- | Hq] Hqa; [lia | auto].
    + apply Z.ltb_ge in Elt.
      destruct (IH Hl edt e Hedt) as (p & e' & Hscan & Hp & Hcase).
      exists p, e'. split; [exact Hscan|]. split; [exact Hp|].
      destruct Hcase
        as [(-> & -> & Hall)
           | (He' & Hlt & l1 & l2 & -> & Hpa & H1 & H2)].
      * left. repeat split. intros q [<- | Hq] Hqa; [lia | auto].
      * right. split; [exact He'|]. split; [exact Hlt|].
        exists (a :: l1), l2. repeat split; auto.
        intros q [<- | Hq] Hqa; [lia | auto].
Qed.

Lemma edt_scan_band_from_idle (s : sched) (c : Z) (idle : tid) (idx : Z)
    (l : list tid) (e : Z) :
  MAX_RT_PRIO <= idx -> ~ In idle l ->
  (exists q, In q l /\ cpu_allowed s c q = true) ->
  exists p l1 l2,
    edt_scan_band s c idle idx l idle e
      = (false, p, adjusted_deadline s c p) /\
    p <> idle /\ l = l1 ++ p :: l2 /\ cpu_allowed s c p = true /\
    (forall q, In q l1 -> cpu_allowed s c q = true ->
               adjusted_deadline s c p < adjusted_deadline s c q) /\
    (forall q, In q l2 -> cpu_allowed s c q = true ->
               adjusted_deadline s c p <= adjusted_deadline s c q).
Proof.
  intros Hidx. induction l as [|a l IH]; intros Hidle (q0 & Hq0 & Hq0a).
  { destruct Hq0. }
  assert (Ha : a <> idle) by (intros ->; apply Hidle; now left).
  assert (Hl : ~ In idle l) by (intros H; apply Hidle; now right).
  cbn [edt_scan_band].
  destruct (needs_other_cpu s a _) eqn:Eallow.
  - assert (Hna : cpu_allowed s c a = false)
      by (unfold cpu_allowed; now rewrite Eallow).
    destruct IH as (p & l1 & l2 & Hscan & Hp & -> & Hpa & H1 & H2);
      [exact Hl | |].
    { exists q0. split; [|exact Hq0a].
      destruct Hq0 as [<- | H]; [congruence | exact H]. }
    exists p, (a :: l1), l2. repeat split; auto.
    intros q [<- | Hq] Hqa; [congruence | auto].
  - assert (Haa : cpu_allowed s c a = true)
      by (unfold cpu_allowed; now rewrite Eallow).
    replace (idx <? MAX_RT_PRIO) with false
      by (symmetry; now apply Z.ltb_ge).
    rewrite Nat.eqb_refl. cbn [orb]. fold (adjusted_deadline s c a).
    destruct (edt_scan_band_from_best s c idle idx l Hidx Hl a
                (adjusted_deadline s c a) Ha)
      as (p & e' & Hscan & Hp & Hcase).
    destruct Hcase
      as [(-> & -> & Hall)
         | (He' & Hlt & l1 & l2 & -> & Hpa & H1 & H2)].
    + exists a, [], l. repeat split; auto. intros q [].
    + subst e'. exists p, (a :: l1), l2. repeat split; auto.
      intros q [<- | Hq] Hqa; [lia | auto].
Qed.

Lemma edt_retry_reach (s : sched) (c : Z) (idle : tid) (b : Z) (p : tid)
    (fuel : nat) :
  bitmap_covers_queues s ->
  b < PRIO_LIMIT ->
  grq_queue (grq s) b <> [] ->
  p <> idle ->
  (forall e, exists e',
     edt_scan_band s c idle b (grq_queue (grq s) b) idle e
       = (false, p, e')) ->
  forall idx e,
    0 <= idx <= b ->
    PRIO_LIMIT - idx <= Z.of_nat fuel ->
    (forall b' q, idx <= b' < b -> In q (grq_queue (grq s) b') ->
       cpu_allowed s c q = false) ->
    edt_retry fuel s c idle idx e = (p, take_task c p s).
Proof.
  intros Hcov Hb Hne Hp Hscan.
  induction fuel as [|fuel IH]; intros idx e Hidx Hfuel Hnone; [lia|].
  cbn [edt_retry].
  assert (Hbit : Z.testbit (grq_prio_bitmap (grq s)) b = true)
    by (apply Hcov; [lia | exact Hne]).
  destruct (find_next_bit_spec (grq_prio_bitmap (grq s)) PRIO_LIMIT idx)
    as (Hr & Hclear & Hset); [lia|].
  set (r := find_next_bit (grq_prio_bitmap (grq s)) PRIO_LIMIT idx) in *.
  assert (Hrb : r <= b).
  { destruct (Z_le_gt_dec r b) as [H | H]; [exact H|].
    rewrite Hclear in Hbit by lia. discriminate. }
  replace (PRIO_LIMIT <=? r) with false by (symmetry; apply Z.leb_gt; lia).
  destruct (Z.eq_dec r b) as [-> | Hneq].
  - destruct (Hscan e) as (e' & ->).
    replace (Nat.eqb p idle) with false by (symmetry; now apply Nat.eqb_neq).
    reflexivity.
  - rewrite edt_scan_band_none
      by (intros q Hq; eapply Hnone; [|exact Hq]; lia).
    rewrite Nat.eqb_refl.
    replace (r + 1 <? PRIO_LIMIT) with true by (symmetry; apply Z.ltb_lt; lia).
    apply IH; [lia | lia |].
    intros b' q Hb' Hq. eapply Hnone; [|exact Hq]. lia.
Qed.

(** X6: earliest deadline first below the realtime bands.  When the
    first band holding a task that may run on rq's CPU is an ISO,
    NORMAL or IDLEPRIO band, earliest_deadline_task takes from that
    band the allowed task whose deadline plus cache distance is
    smallest: strictly smaller than that of every allowed task queued
    before it, and no larger than that of every allowed task queued
    after it (of equal deadlines the first queued wins). *)
Theorem X6_earliest_deadline_task_edf
    (s : sched) (c : Z) (idle : tid) (b : Z) :
  bitmap_covers_queues s ->
  0 <= b -> MAX_RT_PRIO <= b < PRIO_LIMIT ->
  (forall b' q, 0 <= b' < b -> In q (grq_queue (grq s) b') ->
     cpu_allowed s c q = false) ->
  ~ In idle (grq_queue (grq s) b) ->
  (exists q, In q (grq_queue (grq s) b) /\ cpu_allowed s c q = true) ->
  exists p l1 l2,
    grq_queue (grq s) b = l1 ++ p :: l2 /\
    cpu_allowed s c p = true /\
    (forall q, In q l1 -> cpu_allowed s c q = true ->
               adjusted_deadline s c p < adjusted_deadline s c q) /\
    (forall q, In q l2 -> cpu_allowed s c q = true ->
               adjusted_deadline s c p <= adjusted_deadline s c q) /\
    earliest_deadline_task c idle s = (p, take_task c p s).
Proof.
  intros Hcov Hb0 Hb Hnone Hidle Hex.
  destruct (edt_scan_band_from_idle s c idle b _ 0 (proj1 Hb) Hidle Hex)
    as (p & l1 & l2 & _ & Hp & Hl & Hpa & H1 & H2).
  exists p, l1, l2. repeat split; auto.
  unfold earliest_deadline_task.
  apply (edt_retry_reach s c idle b p); auto; try lia.
  - rewrite Hl. now destruct l1.
  - intros e.
    destruct (edt_scan_band_from_idle s c idle b _ e (proj1 Hb) Hidle Hex)
      as (p' & l1' & l2' & Hscan' & Hp' & Hl' & Hpa' & H1' & H2').
    exists (adjusted_deadline s c p'). rewrite Hscan'.
    (* the scan's choice does not depend on the stale deadline *)
    assert (p' = p); [|now subst].
    clear - Hl Hl' Hpa Hpa' H1 H2 H1' H2'.
    rewrite Hl in Hl'. clear Hl.
    revert l1' Hl' H1'. induction l1 as [|a l1 IH]; intros l1' Hl' H1'.
    + destruct l1' as [|a' l1']; cbn in Hl'; [congruence|].
      injection Hl' as Ha Hl2. rewrite Hl2 in H2. rewrite <- Ha in H1'.
      assert (In p' (l1' ++ p' :: l2')) by (apply in_or_app; right; now left).
      pose proof (H2 p' H Hpa'). pose proof (H1' p (or_introl eq_refl) Hpa).
      lia.
    + destruct l1' as [|a' l1']; cbn in Hl'.
      * injection Hl' as Ha Hl2. rewrite <- Hl2 in H2'. rewrite Ha in H1.
        assert (In p (l1 ++ p :: l2)) by (apply in_or_app; right; now left).
        pose proof (H2' p H Hpa). pose proof (H1 p' (or_introl eq_refl) Hpa').
        lia.
      * injection Hl' as _ Hl'.
        apply (IH (fun q Hq => H1 q (or_intror Hq)) l1' Hl').
        intros q Hq. apply H1'. now right.
Qed.

(** ** Rescheduling: resched_task, try_preempt, resched_best_idle *)

Lemma flags_only_refl (s : sched) : flags_only s s.
Proof. repeat split; auto. Qed.

Lemma resched_task_effect (x : tid) (s : sched) :
  flags_only s (resched_task x s) /\
  (forall q, q <> x -> tasks (resched_task x s) q = tasks s q) /\
  p_need_resched (tasks (resched_task x s) x) = true /\
  ipis (resched_task x s)
  = if negb (p_need_resched (tasks s x)) &&
       negb (task_cpu s x =? smp_processor_id s) &&
       negb (p_polling (tasks s x))
    then task_cpu s x :: ipis s else ipis s.
Proof.
  unfold resched_task.
  destruct (p_need_resched (tasks s x)) eqn:Eflag.
  { repeat split; auto. }
  set (s1 := with_task x (set_p_need_resched true) s).
  assert (Hcpu : task_cpu s1 x = task_cpu s x)
    by (unfold s1, task_cpu; simpl; now rewrite Nat.eqb_refl).
  assert (Hpoll : p_polling (tasks s1 x) = p_polling (tasks s x))
    by (unfold s1; simpl; now rewrite Nat.eqb_refl).
  assert (Hfl : flags_only s s1).
  { unfold s1. split; [reflexivity|]. split; intros q; simpl;
      destruct (Nat.eqb q x) eqn:E; auto;
      apply Nat.eqb_eq in E; now subst. }
  assert (Hoth : forall q, q <> x -> tasks s1 q = tasks s q).
  { intros q Hq. unfold s1. simpl.
    now replace (Nat.eqb q x) with false by (symmetry; now apply Nat.eqb_neq). }
  assert (Hset : p_need_resched (tasks s1 x) = true)
    by (unfold s1; simpl; now rewrite Nat.eqb_refl).
  rewrite Hcpu, Hpoll. change (smp_processor_id s1) with (smp_processor_id s).
  cbn [negb andb].
  destruct (task_cpu s x =? smp_processor_id s); cbn [negb andb].
  { split; [exact Hfl|]. split; [exact Hoth|]. now split. }
  destruct (p_polling (tasks s x)); cbn [negb].
  { split; [exact Hfl|]. split; [exact Hoth|]. now split. }
  split; [|split; [exact Hoth|now split]].
  destruct Hfl as (A & B & C). split; [exact A|]. split; [exact B | exact C].
Qed.

(** X7: resched_task is idempotent.  It leaves the task with
    TIF_NEED_RESCHED set and changes nothing but that flag and the
    interrupts sent; the reschedule interrupt goes out only when the
    flag was clear and the task's CPU is another one that is not
    polling, so a second call sends none. *)
Theorem X7_resched_task_idempotent (x : tid) (s : sched) :
  resched_task x (resched_task x s) = resched_task x s /\
  flags_only s (resched_task x s) /\
  p_need_resched (tasks (resched_task x s) x) = true /\
  (forall q, q <> x -> tasks (resched_task x s) q = tasks s q) /\
  (ipis (resched_task x s) <> ipis s ->
   p_need_resched (tasks s x) = false /\
   task_cpu s x <> smp_processor_id s /\
   p_polling (tasks s x) = false /\
   ipis (resched_task x s) = task_cpu s x :: ipis s).
Proof.
  destruct (resched_task_effect x s) as (Hfl & Hoth & Hset & Hipi).
  split; [unfold resched_task at 1; now rewrite Hset|].
  split; [exact Hfl|]. split; [exact Hset|]. split; [exact Hoth|].
  intros Hne. rewrite Hipi in Hne |- *.
  destruct (p_need_resched (tasks s x)); cbn [negb andb] in *;
    [now elim Hne|].
  destruct (task_cpu s x =? smp_processor_id s) eqn:E; cbn [negb andb] in *;
    [now elim Hne|].
  destruct (p_polling (tasks s x)); cbn [negb andb] in *; [now elim Hne|].
  apply Z.eqb_neq in E. repeat split; auto.
Qed.

Lemma try_preempt_cases (p : tid) (this : Z) (s : sched) :
  try_preempt p this s = s \/
  exists c, try_preempt p this s = resched_task (rq_curr (runqueues s c)) s.
Proof.
  unfold try_preempt, resched_best_idle.
  destruct (suitable_idle_cpus s p); [right; eauto|].
  destruct (policy_eqb _ _); [now left|].
  destruct (online_cpus s p); [|now left].
  destruct (try_preempt_scan _ _ _ _) as [[ld hp] hrq].
  destruct (negb _); [now left | right; eauto].
Qed.

Lemma try_preempt_flags_only (p : tid) (this : Z) (s : sched) :
  flags_only s (try_preempt p this s).
Proof.
  destruct (try_preempt_cases p this s) as [-> | (c & ->)];
    [apply flags_only_refl | apply resched_task_effect].
Qed.

(** X8: try_preempt disturbs nothing but one flag.  Whatever the
    woken task and the state, the run lists, the runqueues, the clocks
    and every task field other than TIF_NEED_RESCHED are as before; at
    most one task (the current task of some runqueue) has its flag
    raised, no flag is ever cleared, and at most one reschedule
    interrupt is sent. *)
Theorem X8_try_preempt_only_flags (p : tid) (this : Z) (s : sched) :
  flags_only s (try_preempt p this s) /\
  (try_preempt p this s = s \/
   exists c,
     let x := rq_curr (runqueues s c) in
     p_need_resched (tasks (try_preempt p this s) x) = true /\
     forall q, q <> x -> tasks (try_preempt p this s) q = tasks s q) /\
  (ipis (try_preempt p this s) = ipis s \/
   exists cpu, ipis (try_preempt p this s) = cpu :: ipis s).
Proof.
  destruct (try_preempt_cases p this s) as [-> | (c & ->)].
  { split; [apply flags_only_refl|]. split; now left. }
  destruct (resched_task_effect (rq_curr (runqueues s c)) s)
    as (Hfl & Hoth & Hset & Hipi).
  split; [exact Hfl|]. split.
  - right. exists c. cbv zeta. split; assumption.
  - rewrite Hipi. destruct (_ && _); [right; eauto | now left].
Qed.

Lemma find_bit_from_hit (bm off : Z) (n : nat) :
  Z.testbit bm off = true -> (0 < n)%nat -> find_bit_from bm off n = off.
Proof.
  intros H Hn. destruct n as [|n]; [lia|]. cbn [find_bit_from]. now rewrite H.
Qed.

Lemma next_cpu_wrapped (mask n : Z) :
  (exists c, 0 <= c < NR_CPUS /\ Z.testbit mask c = true) ->
  let c1 := next_cpu n mask in
  let c2 := if NR_CPUS <=? c1 then next_cpu (-1) mask else c1 in
  0 <= c2 < NR_CPUS /\ Z.testbit mask c2 = true.
Proof.
  intros (c & Hc & Hbit). cbv zeta.
  destruct (NR_CPUS <=? next_cpu n mask) eqn:E.
  - unfold next_cpu. change (to_int (-1) + 1) with 0.
    unfold find_next_bit.
    replace (NR_CPUS <=? 0) with false by (symmetry; apply Z.leb_gt; lia).
    destruct (find_bit_from_spec mask (Z.to_nat (NR_CPUS - 0)) 0)
      as (Hr & Hclear & Hset).
    set (r := find_bit_from mask 0 (Z.to_nat (NR_CPUS - 0))) in *.
    rewrite Z2Nat.id in * by lia.
    assert (Hlt : r < NR_CPUS).
    { destruct (Z_lt_ge_dec r NR_CPUS) as [H | H]; [exact H|].
      rewrite Hclear in Hbit by lia. discriminate. }
    rewrite Z.min_r by lia. split; [lia|]. apply Hset. lia.
  - apply Z.leb_gt in E. unfold next_cpu in *.
    set (r := find_next_bit mask NR_CPUS (to_int n + 1)) in *.
    assert (Hr : r < NR_CPUS) by lia.
    rewrite Z.min_r by lia.
    assert (Hset : Z.testbit mask r = true).
    { unfold r, find_next_bit in *.
      destruct (NR_CPUS <=? to_int n + 1) eqn:E2; [lia|].
      apply Z.leb_gt in E2.
      destruct (find_bit_from_spec mask
                  (Z.to_nat (NR_CPUS - (to_int n + 1))) (to_int n + 1))
        as (_ & _ & Hs).
      rewrite Z2Nat.id in Hs by lia. apply Hs. lia. }
    split; [|exact Hset]. split; [|exact Hr].
    destruct (Z_lt_ge_dec r 0) as [H | H]; [|lia].
    rewrite Z.testbit_neg_r in Hset by exact H. discriminate.
Qed.

Lemma best_idle_scan_in_mask (s : sched) (r : rq) (mask : Z) :
  nr_cpu_ids s = NR_CPUS ->
  (exists c, 0 <= c < NR_CPUS /\ Z.testbit mask c = true) ->
  forall n cpu_tmp best_cpu best_ranking,
    let b := best_idle_scan n s r mask cpu_tmp best_cpu best_ranking in
    (b = best_cpu /\ best_ranking <= CPUIDLE_DIFF_CPU) \/
    (0 <= b < NR_CPUS /\ Z.testbit mask b = true).
Proof.
  intros Hids Hex. induction n as [|n IH]; intros cpu_tmp best_cpu best_ranking;
    cbn [best_idle_scan]; rewrite Hids;
    pose proof (next_cpu_wrapped mask cpu_tmp Hex) as Hw; cbv zeta in Hw |- *;
    set (c2 := if NR_CPUS <=? next_cpu cpu_tmp mask
               then next_cpu (-1) mask else next_cpu cpu_tmp mask) in *;
    set (ranking := if 2 <? rq_cpu_locality r c2
                    then CPUIDLE_DIFF_CPU else 0);
    assert (Hrk : 0 <= ranking <= CPUIDLE_DIFF_CPU)
      by (unfold ranking, CPUIDLE_DIFF_CPU; destruct (2 <? _); lia);
    destruct (ranking <? best_ranking) eqn:E.
  - destruct (ranking =? 0); now right.
  - left. apply Z.ltb_ge in E. split; [reflexivity | lia].
  - destruct (ranking =? 0); [now right|].
    destruct (IH c2 c2 ranking) as [(-> & _) | H]; now right.
  - apply Z.ltb_ge in E.
    destruct (IH c2 best_cpu best_ranking) as [(-> & _) | H];
      [left; split; [reflexivity | lia] | now right].
Qed.

Lemma to_int_to_ulong_pred (x : Z) :
  0 <= x <= 2 ^ 31 -> to_int (to_ulong (x - 1)) + 1 = x.
Proof.
  intros H. unfold to_int, to_ulong, wrap_signed, wrap_unsigned.
  change (2 ^ (32 - 1)) with (2 ^ 31).
  destruct (Z.eq_dec x 0) as [-> | Hne]; [reflexivity|].
  rewrite (Z.mod_small (x - 1)) by lia.
  rewrite Z.mod_small by lia. lia.
Qed.

Lemma best_idle_scan_own (s : sched) (r : rq) (mask x bc : Z) (n : nat) :
  nr_cpu_ids s = NR_CPUS ->
  0 <= x < NR_CPUS -> NR_CPUS <= 2 ^ 31 ->
  Z.testbit mask x = true ->
  rq_cpu_locality r x <= 2 ->
  best_idle_scan n s r mask (to_ulong (x - 1)) bc (to_ulong (-1)) = x.
Proof.
  intros Hids Hx Hnr Hbit Hloc.
  assert (Hnext : next_cpu (to_ulong (x - 1)) mask = x).
  { unfold next_cpu. rewrite to_int_to_ulong_pred by lia.
    unfold find_next_bit.
    replace (NR_CPUS <=? x) with false by (symmetry; apply Z.leb_gt; lia).
    rewrite find_bit_from_hit by (try exact Hbit; lia). lia. }
  destruct n; cbn [best_idle_scan]; rewrite Hids, Hnext;
    replace (NR_CPUS <=? x) with false by (symmetry; apply Z.leb_gt; lia);
    replace (2 <? rq_cpu_locality r x) with false
      by (symmetry; apply Z.ltb_ge; lia);
    reflexivity.
Qed.

(** X9: resched_best_idle picks an idle CPU the task may run on.
    With at least one CPU both idle and allowed (what its callers
    check through suitable_idle_cpus), the CPU whose current task is
    told to reschedule is below NR_CPUS, idle and in p->cpus_allowed;
    and when the CPU the task last ran on is itself idle, allowed and
    cache-local (locality at most 2), that CPU is the one chosen. *)
Theorem X9_resched_best_idle_choice (s : sched) (p : tid) :
  nr_cpu_ids s = NR_CPUS ->
  (exists c, 0 <= c < NR_CPUS /\
     Z.testbit (p_cpus_allowed (tasks s p)) c = true /\
     Z.testbit (grq_cpu_idle_map (grq s)) c = true) ->
  exists best,
    0 <= best < NR_CPUS /\
    Z.testbit (p_cpus_allowed (tasks s p)) best = true /\
    Z.testbit (grq_cpu_idle_map (grq s)) best = true /\
    resched_best_idle p s = resched_task (rq_curr (runqueues s best)) s /\
    (0 <= task_cpu s p < NR_CPUS -> NR_CPUS <= 2 ^ 31 ->
     Z.testbit (p_cpus_allowed (tasks s p)) (task_cpu s p) = true ->
     Z.testbit (grq_cpu_idle_map (grq s)) (task_cpu s p) = true ->
     rq_cpu_locality (runqueues s (task_cpu s p)) (task_cpu s p) <= 2 ->
     best = task_cpu s p).
Proof.
  intros Hids (c & Hc & Ha & Hi).
  set (mask := cpus_and (p_cpus_allowed (tasks s p))
                 (grq_cpu_idle_map (grq s))).
  assert (Hmask : forall b, Z.testbit mask b = true ->
            Z.testbit (p_cpus_allowed (tasks s p)) b = true /\
            Z.testbit (grq_cpu_idle_map (grq s)) b = true).
  { intros b Hb. unfold mask, cpus_and in Hb. rewrite Z.land_spec in Hb.
    now apply andb_true_iff in Hb. }
  assert (Hex : exists c, 0 <= c < NR_CPUS /\ Z.testbit mask c = true).
  { exists c. split; [exact Hc|]. unfold mask, cpus_and.
    rewrite Z.land_spec, Ha, Hi. reflexivity. }
  unfold resched_best_idle. fold mask.
  set (best := best_idle_scan _ s _ mask _ _ _).
  exists best.
  destruct (best_idle_scan_in_mask s (runqueues s (task_cpu s p)) mask Hids Hex
              (Z.to_nat (cpus_weight mask - 1))
              (to_ulong (task_cpu s p - 1)) (task_cpu s p) (to_ulong (-1)))
    as [(_ & Hbad) | (Hrange & Hbit)].
  { unfold CPUIDLE_DIFF_CPU in Hbad. vm_compute in Hbad. now elim Hbad. }
  fold best in Hrange, Hbit. destruct (Hmask best Hbit) as (Hba & Hbi).
  repeat split; try assumption; try apply Hrange.
  intros Hcpu Hnr Hca Hci Hloc. unfold best.
  apply best_idle_scan_own; auto.
  unfold mask, cpus_and. rewrite Z.land_spec, Hca, Hci. reflexivity.
Qed.

(** ** Waking a task *)

Lemma flags_only_grq (s s' : sched) : flags_only s s' -> grq s' = grq s.
Proof. intros (H & _). exact (f_equal grq H). Qed.

Lemma flags_only_runqueues (s s' : sched) :
  flags_only s s' -> runqueues s' = runqueues s.
Proof. intros (H & _). exact (f_equal runqueues H). Qed.

Lemma flags_only_prio (s s' : sched) (q : tid) :
  flags_only s s' -> p_prio (tasks s' q) = p_prio (tasks s q).
Proof. intros (_ & H & _). exact (f_equal p_prio (H q)). Qed.

Lemma activate_task_effect (p : tid) (c : Z) (s : sched) :
  let s1 := activate_task p c s in
  let band := p_prio (tasks s1 p) in
  grq_queue (grq s1) = list_add_tail p band (grq_queue (grq s)) /\
  grq_prio_bitmap (grq s1) = __set_bit band (grq_prio_bitmap (grq s)) /\
  grq_nr_running (grq s1) = to_ulong (grq_nr_running (grq s) + 1) /\
  grq_qnr (grq s1) = to_ulong (grq_qnr (grq s) + 1) /\
  p_state (tasks s1 p) = p_state (tasks s p) /\
  (forall q, q <> p -> tasks s1 q = tasks s q).
Proof.
  unfold activate_task.
  destruct (effective_prio p (update_clocks c s)) as [prio s0] eqn:E.
  assert (H0 : grq s0 = grq (update_clocks c s) /\
               p_state (tasks s0 p) = p_state (tasks s p) /\
               forall q, q <> p -> tasks s0 q = tasks s q).
  { unfold effective_prio in E. destruct (negb _); inversion E; subst;
      (split; [reflexivity|]); simpl; rewrite Nat.eqb_refl;
      (split; [reflexivity|]); intros q Hq; apply Nat.eqb_neq in Hq;
      now rewrite Hq. }
  destruct H0 as (Hg & Hst & Hoth). clear E.
  set (s2 := with_task p (set_p_prio prio) s0).
  set (s3 := if task_contributes_to_load (tasks s2 p) then _ else s2).
  assert (H3 : grq_queue (grq s3) = grq_queue (grq s) /\
               grq_prio_bitmap (grq s3) = grq_prio_bitmap (grq s) /\
               grq_nr_running (grq s3) = grq_nr_running (grq s) /\
               grq_qnr (grq s3) = grq_qnr (grq s) /\
               p_state (tasks s3 p) = p_state (tasks s p) /\
               forall q, q <> p -> tasks s3 q = tasks s q).
  { assert (Hs2 : p_state (tasks s2 p) = p_state (tasks s p))
      by (unfold s2; simpl; now rewrite Nat.eqb_refl).
    assert (Ho2 : forall q, q <> p -> tasks s2 q = tasks s q).
    { intros q Hq. unfold s2. simpl. rewrite <- (Hoth q Hq).
      apply Nat.eqb_neq in Hq. now rewrite Hq. }
    unfold s3. destruct (task_contributes_to_load _); simpl; rewrite Hg;
      repeat split; auto. }
  destruct H3 as (Hq3 & Hb3 & Hn3 & Hqn3 & Hs3 & Ho3). clearbody s3.
  destruct (enqueue_task_effect s3 p) as (Heg & Hep & Heo & _).
  cbv zeta in Heg, Hep, Heo |- *.
  set (s4 := enqueue_task p s3) in *. clearbody s4.
  change (tasks (inc_qnr (with_grq _ s4))) with (tasks s4).
  unfold inc_qnr. simpl. rewrite Heg. simpl.
  rewrite Hq3, Hb3, Hn3, Hqn3.
  repeat split; auto.
  - rewrite Hep. simpl. exact Hs3.
  - intros q Hq. rewrite (Heo q Hq). auto.
Qed.

(** X10: a wake-up that finds the task asleep in a matching state,
    neither queued nor running, returns 1 and leaves the task
    TASK_RUNNING at the tail of the run list of its (recomputed)
    priority, with that band's bit set in the bitmap, every other band
    as it was, and both grq.nr_running and grq.qnr one higher. *)
Theorem X10_try_to_wake_up_activates
    (p : tid) (state wake_flags : Z) (s : sched) :
  Z.land (to_uint (p_state (tasks s p))) state <> 0 ->
  task_queued s p = false -> task_running s p = false ->
  exists s',
    try_to_wake_up p state wake_flags s = (1, s') /\
    p_state (tasks s' p) = TASK_RUNNING /\
    grq_queue (grq s') (p_prio (tasks s' p))
    = grq_queue (grq s) (p_prio (tasks s' p)) ++ [p] /\
    (forall b, b <> p_prio (tasks s' p) ->
               grq_queue (grq s') b = grq_queue (grq s) b) /\
    grq_prio_bitmap (grq s')
    = __set_bit (p_prio (tasks s' p)) (grq_prio_bitmap (grq s)) /\
    grq_nr_running (grq s') = to_ulong (grq_nr_running (grq s) + 1) /\
    grq_qnr (grq s') = to_ulong (grq_qnr (grq s) + 1).
Proof.
  intros Hstate Hq Hr. unfold try_to_wake_up.
  apply Z.eqb_neq in Hstate. rewrite Hstate, Hq, Hr. cbn [orb].
  destruct (activate_task_effect p (task_rq s p) s)
    as (Haq & Hab & Han & Haqn & _ & _).
  cbv zeta in Haq, Hab, Han, Haqn.
  set (s1 := activate_task p (task_rq s p) s) in *.
  match goal with
  | |- context [with_task p (set_p_state TASK_RUNNING) ?x] => set (s2 := x)
  end.
  assert (Hfl : flags_only s1 s2).
  { unfold s2. destruct (_ || _); [|apply flags_only_refl].
    apply try_preempt_flags_only. }
  eexists. split; [reflexivity|].
  assert (Hprio : p_prio (tasks (with_task p (set_p_state TASK_RUNNING) s2) p)
                  = p_prio (tasks s1 p)).
  { rewrite tasks_with_task_same. simpl. now apply flags_only_prio. }
  rewrite Hprio.
  change (grq (with_task p (set_p_state TASK_RUNNING) s2)) with (grq s2).
  rewrite (flags_only_grq _ _ Hfl), Haq, Hab, Han, Haqn.
  rewrite tasks_with_task_same.
  split; [reflexivity|]. unfold list_add_tail.
  rewrite Z.eqb_refl. repeat split; auto.
  intros b Hb. apply Z.eqb_neq in Hb. now rewrite Hb.
Qed.

(** ** The ISO accounting of the tick *)







(** ** Fork: the child's priority *)

(** X13: sched_fork gives the child the parent's normal priority, not
    a priority the parent holds through priority inheritance, marks it
    TASK_RUNNING on the forking CPU and not on a CPU, and leaves the
    global runqueue as it is.  With sched_reset_on_fork set the child
    ends with the flag cleared, a policy that is not realtime and a
    nice level that is not negative; without it policy and static
    priority are the ones it was copied with. *)
Theorem X13_sched_fork_child_priority
    (s : sched) (p : tid) (clone_flags : Z) :
  p <> current s ->
  let s' := sched_fork p clone_flags s in
  p_prio (tasks s' p) = p_normal_prio (tasks s (current s)) /\
  p_state (tasks s' p) = TASK_RUNNING /\
  p_oncpu (tasks s' p) = false /\
  p_cpu (tasks s' p) = smp_processor_id s /\
  grq s' = grq s /\
  p_sched_reset_on_fork (tasks s' p) = false /\
  (p_sched_reset_on_fork (tasks s p) = true ->
   is_rt_policy (p_policy (tasks s' p)) = false /\
   0 <= PRIO_TO_NICE (p_static_prio (tasks s' p))) /\
  (p_sched_reset_on_fork (tasks s p) = false ->
   p_policy (tasks s' p) = p_policy (tasks s p) /\
   p_static_prio (tasks s' p) = p_static_prio (tasks s p)).
Proof.
  intros Hne s'.
  assert (Hcp : Nat.eqb (current s) p = false) by (apply Nat.eqb_neq; auto).
  unfold s', sched_fork. cbv zeta.
  set (s1 := set_task_cpu p (smp_processor_id s)
               (with_task p (set_p_state TASK_RUNNING) s)).
  set (s3 := if p_sched_reset_on_fork (tasks s1 p) then _ else s1).
  assert (H1 : p_sched_reset_on_fork (tasks s1 p)
               = p_sched_reset_on_fork (tasks s p))
    by (unfold s1; simpl; now rewrite ?Nat.eqb_refl).
  assert (Hpol1 : p_policy (tasks s1 p) = p_policy (tasks s p))
    by (unfold s1; simpl; now rewrite ?Nat.eqb_refl).
  assert (Hsp1 : p_static_prio (tasks s1 p) = p_static_prio (tasks s p))
    by (unfold s1; simpl; now rewrite ?Nat.eqb_refl).
  assert (Hcur3 : current s3 = current s)
    by (unfold s3; split_ifs; reflexivity).
  assert (Hgrq3 : grq s3 = grq s) by (unfold s3; split_ifs; reflexivity).
  assert (Hcurr3 : tasks s3 (current s) = tasks s (current s)).
  { unfold s3. split_ifs; simpl; rewrite ?Hcp; reflexivity. }
  assert (Hst3 : p_state (tasks s3 p) = TASK_RUNNING /\
                 p_cpu (tasks s3 p) = smp_processor_id s).
  { unfold s3. split_ifs; simpl; rewrite ?Nat.eqb_refl; simpl;
      rewrite ?Nat.eqb_refl; simpl; rewrite ?Nat.eqb_refl; now split. }
  assert (Hreset3 :
    p_sched_reset_on_fork (tasks s3 p) = false /\
    (p_sched_reset_on_fork (tasks s p) = true ->
     is_rt_policy (p_policy (tasks s3 p)) = false /\
     0 <= PRIO_TO_NICE (p_static_prio (tasks s3 p))) /\
    (p_sched_reset_on_fork (tasks s p) = false ->
     p_policy (tasks s3 p) = p_policy (tasks s p) /\
     p_static_prio (tasks s3 p) = p_static_prio (tasks s p))).
  { unfold s3. rewrite H1.
    destruct (p_sched_reset_on_fork (tasks s p)) eqn:Er.
    2:{ rewrite H1, Hpol1, Hsp1. split; [reflexivity|].
        split; [discriminate | now split]. }
    set (s2 := if is_rt_policy (p_policy (tasks s1 p)) then _ else s1).
    assert (Hrt2 : is_rt_policy (p_policy (tasks s2 p)) = false).
    { unfold s2. destruct (is_rt_policy (p_policy (tasks s1 p))) eqn:Ert;
        [|exact Ert].
      simpl. rewrite ?Nat.eqb_refl. reflexivity. }
    clearbody s2.
    destruct (PRIO_TO_NICE (p_static_prio (tasks s2 p)) <? 0) eqn:En.
    - simpl. rewrite ?Nat.eqb_refl. simpl. rewrite ?Nat.eqb_refl. simpl.
      split; [reflexivity|]. split; [|discriminate]. intros _.
      split; [exact Hrt2|]. unfold PRIO_TO_NICE, NICE_TO_PRIO. lia.
    - apply Z.ltb_ge in En. simpl. rewrite ?Nat.eqb_refl. simpl.
      split; [reflexivity|]. split; [|discriminate]. intros _.
      split; [exact Hrt2 | exact En]. }
  clearbody s3. clear s1 H1 Hpol1 Hsp1.
  rewrite Hcur3, Hcurr3.
  destruct Hst3 as (Hst & Hcpu). destruct Hreset3 as (Hr & Hrt & Hrf).
  set (s5 := with_task p (set_p_oncpu false) _).
  assert (H5 : tasks s5 p
               = set_p_oncpu false
                   (set_p_prio (p_normal_prio (tasks s (current s)))
                      (tasks s3 p)))
    by (unfold s5; simpl; now rewrite ?Nat.eqb_refl).
  assert (Hgrq5 : grq s5 = grq s3) by reflexivity.
  assert (Hfinal : forall sf,
            grq sf = grq s5 ->
            set_p_time_slice 0 (set_p_deadline 0 (set_p_last_ran 0
              (tasks sf p)))
            = set_p_time_slice 0 (set_p_deadline 0 (set_p_last_ran 0
                (tasks s5 p))) ->
            p_prio (tasks sf p) = p_normal_prio (tasks s (current s)) /\
            p_state (tasks sf p) = TASK_RUNNING /\
            p_oncpu (tasks sf p) = false /\
            p_cpu (tasks sf p) = smp_processor_id s /\
            grq sf = grq s /\
            p_sched_reset_on_fork (tasks sf p) = false /\
            (p_sched_reset_on_fork (tasks s p) = true ->
             is_rt_policy (p_policy (tasks sf p)) = false /\
             0 <= PRIO_TO_NICE (p_static_prio (tasks sf p))) /\
            (p_sched_reset_on_fork (tasks s p) = false ->
             p_policy (tasks sf p) = p_policy (tasks s p) /\
             p_static_prio (tasks sf p) = p_static_prio (tasks s p))).
  { intros sf Hg Ht. rewrite H5 in Ht.
    pose proof (f_equal p_prio Ht) as E1.
    pose proof (f_equal p_state Ht) as E2.
    pose proof (f_equal p_oncpu Ht) as E3.
    pose proof (f_equal p_cpu Ht) as E4.
    pose proof (f_equal p_sched_reset_on_fork Ht) as E5.
    pose proof (f_equal p_policy Ht) as E6.
    pose proof (f_equal p_static_prio Ht) as E7.
    cbn in E1, E2, E3, E4, E5, E6, E7.
    rewrite E1, E2, E3, E4, E5, E6, E7, Hg, Hgrq5, Hgrq3.
    repeat split; auto; try apply Hrt; try apply Hrf; auto. }
  clearbody s5.
  destruct (policy_eqb (p_policy (tasks s5 p)) SCHED_FIFO);
    [now apply Hfinal|].
  assert (Hpc : Nat.eqb p (current s) = false) by (apply Nat.eqb_neq; auto).
  destruct (RESCHED_US * 2 <=? _); apply Hfinal; try reflexivity;
    simpl; rewrite ?Nat.eqb_refl; simpl; rewrite ?Nat.eqb_refl, ?Hcp, ?Hpc;
    simpl; rewrite ?Nat.eqb_refl; now destruct (tasks s5 p).
Qed.

(** ** The dispatcher *)

Lemma dispatch_frame_refl (s : sched) : dispatch_frame s s.
Proof. repeat split. Qed.

Lemma dispatch_frame_trans (s s1 s2 : sched) :
  dispatch_frame s s1 -> dispatch_frame s1 s2 -> dispatch_frame s s2.
Proof.
  intros (A1 & B1 & C1 & D1) (A2 & B2 & C2 & D2).
  split; [congruence|]. split; [intros q; now rewrite B2|].
  split; [|congruence].
  intros d. destruct (C1 d), (C2 d). split; congruence.
Qed.

Lemma dispatch_frame_with_rq (s s1 : sched) (c : Z) (f : rq -> rq) :
  (forall r, rq_curr (f r) = rq_curr r /\
             rq_idle_task (f r) = rq_idle_task r) ->
  dispatch_frame s s1 -> dispatch_frame s (with_rq c f s1).
Proof.
  intros Hf H. apply (dispatch_frame_trans _ _ _ H).
  split; [reflexivity|]. split; [reflexivity|]. split; [|reflexivity].
  intros d. simpl. destruct (d =? c) eqn:E; [|now split].
  apply Z.eqb_eq in E. subst d. apply Hf.
Qed.

Lemma dispatch_frame_with_grq (s s1 : sched)
    (f : global_rq -> global_rq) :
  (forall g, grq_queue (f g) = grq_queue g) ->
  dispatch_frame s s1 -> dispatch_frame s (with_grq f s1).
Proof.
  intros Hf H. apply (dispatch_frame_trans _ _ _ H).
  split; [apply Hf|]. repeat split.
Qed.

Lemma dispatch_frame_with_task (s s1 : sched) (p : tid)
    (f : task_struct -> task_struct) :
  (forall t, p_oncpu (f t) = p_oncpu t) ->
  dispatch_frame s s1 -> dispatch_frame s (with_task p f s1).
Proof.
  intros Hf H. apply (dispatch_frame_trans _ _ _ H).
  split; [reflexivity|]. split; [|repeat split].
  intros q. simpl. destruct (Nat.eqb q p) eqn:E; [|reflexivity].
  apply Nat.eqb_eq in E. subst q. apply Hf.
Qed.

Lemma dispatch_frame_flags_only (s s1 s2 : sched) :
  dispatch_frame s s1 -> flags_only s1 s2 -> dispatch_frame s s2.
Proof.
  intros H (A & B & _). apply (dispatch_frame_trans _ _ _ H).
  split; [exact (f_equal (fun x => grq_queue (grq x)) A)|].
  split; [intros q; exact (f_equal p_oncpu (B q))|].
  split; [|exact (f_equal smp_processor_id A)].
  intros d. pose proof (f_equal runqueues A) as E. simpl in E.
  rewrite E. now split.
Qed.

Ltac dispatch_frame_step :=
  first
    [ assumption
    | apply dispatch_frame_refl
    | apply dispatch_frame_with_rq; [intros ?; split; reflexivity|]
    | apply dispatch_frame_with_grq; [intros ?; reflexivity|]
    | apply dispatch_frame_with_task; [intros ?; reflexivity|]
    | match goal with
      | |- dispatch_frame _ (if ?b then _ else _) => destruct b
      end ].

Lemma update_clocks_dispatch_frame (s s1 : sched) (c : Z) :
  dispatch_frame s s1 -> dispatch_frame s (update_clocks c s1).
Proof.
  intros H. unfold update_clocks, update_rq_clock. cbv zeta.
  repeat dispatch_frame_step.
Qed.

Lemma update_cpu_clock_dispatch_frame (s s1 : sched) (c : Z) (p : tid)
    (tick : bool) :
  dispatch_frame s s1 -> dispatch_frame s (update_cpu_clock c p tick s1).
Proof.
  intros H. unfold update_cpu_clock. cbv zeta.
  repeat dispatch_frame_step.
Qed.

Lemma check_deadline_dispatch_frame (s s1 : sched) (p : tid) :
  dispatch_frame s s1 -> dispatch_frame s (check_deadline p s1).
Proof.
  intros H. unfold check_deadline, time_slice_expired. cbv zeta.
  repeat dispatch_frame_step.
Qed.

Lemma resched_suitable_idle_flags_only (s : sched) (p : tid) :
  flags_only s (resched_suitable_idle p s).
Proof.
  unfold resched_suitable_idle, resched_best_idle.
  destruct (suitable_idle_cpus s p); [|apply flags_only_refl].
  apply resched_task_effect.
Qed.

Lemma edt_scan_band_result (s : sched) (c : Z) (idle : tid) (idx : Z)
    (l : list tid) :
  forall edt e flag p e',
    edt_scan_band s c idle idx l edt e = (flag, p, e') ->
    (flag = false /\ p = edt) \/ (In p l /\ cpu_allowed s c p = true).
Proof.
  induction l as [|a l IH]; intros edt e flag p e' H; cbn [edt_scan_band] in H.
  { injection H as <- <- _. now left. }
  destruct (needs_other_cpu s a _) eqn:Ea.
  { destruct (IH _ _ _ _ _ H) as [? | (? & ?)]; [now left | right].
    split; [now right | assumption]. }
  assert (Haa : cpu_allowed s c a = true)
    by (unfold cpu_allowed; now rewrite Ea).
  destruct (idx <? MAX_RT_PRIO).
  { injection H as _ <- _. right. split; [now left | exact Haa]. }
  destruct (_ || _).
  - destruct (IH _ _ _ _ _ H) as [(_ & ->) | (? & ?)]; right;
      (split; [|assumption]); [now left | now right].
  - destruct (IH _ _ _ _ _ H) as [? | (? & ?)]; [now left | right].
    split; [now right | assumption].
Qed.

Lemma edt_retry_result (s : sched) (c : Z) (idle : tid) (fuel : nat) :
  forall idx e,
    edt_retry fuel s c idle idx e = (idle, s) \/
    exists p b,
      In p (grq_queue (grq s) b) /\ cpu_allowed s c p = true /\
      edt_retry fuel s c idle idx e = (p, take_task c p s).
Proof.
  induction fuel as [|fuel IH]; intros idx e; cbn [edt_retry]; [now left|].
  destruct (PRIO_LIMIT <=? _); [now left|].
  destruct (edt_scan_band _ _ _ _ _ _ _) as [[flag p] e'] eqn:E.
  apply edt_scan_band_result in E.
  destruct flag.
  { destruct E as [(? & _) | (Hin & Ha)]; [discriminate | right; eauto]. }
  destruct (Nat.eqb p idle) eqn:Ei.
  - apply Nat.eqb_eq in Ei. subst p.
    destruct (_ <? _); [apply IH | now left].
  - destruct E as [(_ & ->) | (Hin & Ha)]; [|right; eauto].
    now rewrite Nat.eqb_refl in Ei.
Qed.

Lemma take_task_effect (s : sched) (c : Z) (p : tid) :
  let s' := take_task c p s in
  grq_queue (grq s') = list_del_init p (grq_queue (grq s)) /\
  (forall q, p_oncpu (tasks s' q) = p_oncpu (tasks s q)) /\
  runqueues s' = runqueues s /\
  smp_processor_id s' = smp_processor_id s /\
  grq_nr_running (grq s') = grq_nr_running (grq s) /\
  grq_nr_switches (grq s') = grq_nr_switches (grq s) /\
  (forall q, p_prio (tasks s' q) = p_prio (tasks s q) /\
             p_state (tasks s' q) = p_state (tasks s q)) /\
  grq_cpu_idle_map (grq s') = grq_cpu_idle_map (grq s) /\
  (forall q, p_cpus_allowed (tasks s' q) = p_cpus_allowed (tasks s q)).
Proof.
  cbv zeta. unfold take_task, dec_qnr, dequeue_task, set_task_cpu. cbv zeta.
  split; [split_ifs; reflexivity|].
  split.
  { intros q. split_ifs; simpl; destruct (Nat.eqb q p) eqn:Eq;
      try reflexivity; apply Nat.eqb_eq in Eq; now subst. }
  split; [split_ifs; reflexivity|].
  split; [split_ifs; reflexivity|].
  split; [split_ifs; reflexivity|].
  split; [split_ifs; reflexivity|].
  split.
  { intros q. split_ifs; simpl; destruct (Nat.eqb q p) eqn:Eq;
      try (split; reflexivity); apply Nat.eqb_eq in Eq; now subst. }
  split; [split_ifs; reflexivity|].
  intros q. split_ifs; simpl; destruct (Nat.eqb q p) eqn:Eq;
    try reflexivity; apply Nat.eqb_eq in Eq; now subst.
Qed.

Lemma not_queued_list_del_init (s s' : sched) (p q : tid) :
  grq_queue (grq s') = list_del_init p (grq_queue (grq s)) ->
  (q = p \/ not_queued s q) -> not_queued s' q.
Proof.
  intros E H b Hin. rewrite E in Hin. unfold list_del_init in Hin.
  apply filter_In in Hin as [Hin Hne].
  destruct H as [-> | H]; [now rewrite Nat.eqb_refl in Hne | exact (H b Hin)].
Qed.

Lemma schedule_switch_effect (c : Z) (prev next : tid) (s1 : sched) :
  rq_curr (runqueues s1 c) = prev ->
  let s' :=
    if negb (Nat.eqb prev next) then
      set_current next
        (with_rq c (set_rq_curr next)
           (with_task next (set_p_oncpu true)
              (with_task prev (set_p_oncpu false)
                 (with_grq (fun g =>
                    set_grq_nr_switches (to_u64 (grq_nr_switches g + 1)) g)
                    (set_rq_task c next s1)))))
    else s1 in
  rq_curr (runqueues s' c) = next /\
  rq_idle_task (runqueues s' c) = rq_idle_task (runqueues s1 c) /\
  smp_processor_id s' = smp_processor_id s1 /\
  p_oncpu (tasks s' next)
  = (if Nat.eqb prev next then p_oncpu (tasks s1 prev) else true) /\
  (next <> prev -> p_oncpu (tasks s' prev) = false) /\
  grq s'
  = (if Nat.eqb prev next then grq s1
     else set_grq_nr_switches (to_u64 (grq_nr_switches (grq s1) + 1))
            (grq s1)) /\
  (forall q, p_prio (tasks s' q) = p_prio (tasks s1 q) /\
             p_state (tasks s' q) = p_state (tasks s1 q)) /\
  (next <> prev -> rq_caches_curr s' c) /\
  (forall q, p_cpus_allowed (tasks s' q) = p_cpus_allowed (tasks s1 q)) /\
  rq_cpu (runqueues s' c) = rq_cpu (runqueues s1 c).
Proof.
  intros Hcurr. cbv zeta.
  destruct (Nat.eqb prev next) eqn:E; cbn [negb].
  { apply Nat.eqb_eq in E. subst next.
    repeat split; auto; intros; exfalso; congruence. }
  assert (E' : Nat.eqb next prev = false)
    by (rewrite Nat.eqb_sym; exact E).
  unfold set_rq_task. cbv zeta.
  split; [simpl; now rewrite Z.eqb_refl|].
  split; [split_ifs; simpl; rewrite ?Z.eqb_refl; reflexivity|].
  split; [split_ifs; reflexivity|].
  split; [simpl; now rewrite Nat.eqb_refl|].
  split; [intros _; simpl; now rewrite E, Nat.eqb_refl|].
  split; [split_ifs; reflexivity|].
  split.
  { intros q. simpl.
    destruct (Nat.eqb q next) eqn:E1; [apply Nat.eqb_eq in E1; subst q|];
      simpl; rewrite ?E', ?Nat.eqb_refl;
      try (destruct (Nat.eqb q prev) eqn:E2;
           [apply Nat.eqb_eq in E2; subst q|]);
      simpl; rewrite ?Nat.eqb_refl; split_ifs; now split. }
  split.
  { intros _. unfold rq_caches_curr. cbv zeta. simpl.
    rewrite ?Z.eqb_refl, ?Nat.eqb_refl. simpl.
    rewrite ?Z.eqb_refl, ?Nat.eqb_refl, ?E'. simpl.
    destruct (Nat.eqb next (rq_idle_task (runqueues s1 c))) eqn:Ei; simpl;
      rewrite ?Z.eqb_refl, ?Nat.eqb_refl, ?E', ?Ei; simpl;
      rewrite ?Z.eqb_refl, ?Nat.eqb_refl, ?E', ?Ei; repeat split. }
  split.
  { intros q. simpl.
    destruct (Nat.eqb q next) eqn:E1; [apply Nat.eqb_eq in E1; subst q|];
      simpl; rewrite ?E', ?Nat.eqb_refl;
      try (destruct (Nat.eqb q prev) eqn:E2;
           [apply Nat.eqb_eq in E2; subst q|]);
      simpl; rewrite ?Nat.eqb_refl; split_ifs; reflexivity. }
  simpl. rewrite ?Z.eqb_refl. simpl.
  split_ifs; simpl; rewrite ?Z.eqb_refl; reflexivity.
Qed.

Lemma set_cpuidle_map_frame (s s1 : sched) (cpu : Z) :
  dispatch_frame s s1 -> dispatch_frame s (set_cpuidle_map cpu s1).
Proof. intros H. unfold set_cpuidle_map. repeat dispatch_frame_step. Qed.

Lemma clear_cpuidle_map_frame (s s1 : sched) (cpu : Z) :
  dispatch_frame s s1 -> dispatch_frame s (clear_cpuidle_map cpu s1).
Proof.
  intros H. unfold clear_cpuidle_map. cbv zeta. repeat dispatch_frame_step.
Qed.

Lemma schedule_pick_effect (c : Z) (prev idle : tid) (s : sched) :
  rq_curr (runqueues s c) = prev ->
  rq_idle_task (runqueues s c) = idle ->
  let s' := schedule_pick c prev idle s in
  let next := rq_curr (runqueues s' c) in
  (next = idle \/
   exists b, In next (grq_queue (grq s) b) /\ cpu_allowed s c next = true) /\
  (grq_qnr (grq s) = 0 -> next = idle) /\
  rq_idle_task (runqueues s' c) = idle /\
  smp_processor_id s' = smp_processor_id s /\
  p_oncpu (tasks s' next)
  = (if Nat.eqb prev next then p_oncpu (tasks s prev) else true) /\
  (next <> prev -> p_oncpu (tasks s' prev) = false) /\
  (forall q, not_queued s q -> not_queued s' q) /\
  (not_queued s idle -> not_queued s' next) /\
  grq_nr_running (grq s') = grq_nr_running (grq s) /\
  grq_nr_switches (grq s')
  = (if Nat.eqb prev next then grq_nr_switches (grq s)
     else to_u64 (grq_nr_switches (grq s) + 1)) /\
  (forall q, p_prio (tasks s' q) = p_prio (tasks s q) /\
             p_state (tasks s' q) = p_state (tasks s q)) /\
  (forall q b, q <> next -> In q (grq_queue (grq s) b) ->
               In q (grq_queue (grq s') b)) /\
  grq_cpu_idle_map (grq s')
  = (if grq_qnr (grq s) =? 0
     then Z.setbit (grq_cpu_idle_map (grq s)) (smp_processor_id s)
     else Z.clearbit (grq_cpu_idle_map (grq s)) (smp_processor_id s)) /\
  (next <> prev -> rq_caches_curr s' c) /\
  (next = idle \/ cpu_allowed s' c next = true).
Proof.
  intros Hcurr Hidle. cbv zeta. unfold schedule_pick. cbv zeta.
  unfold queued_notrunning.
  assert (Hmain : forall next s1,
    (next = idle \/
     exists b, In next (grq_queue (grq s) b) /\
               cpu_allowed s c next = true) ->
    (grq_qnr (grq s) = 0 -> next = idle) ->
    (forall q, p_oncpu (tasks s1 q) = p_oncpu (tasks s q)) ->
    (forall d, rq_curr (runqueues s1 d) = rq_curr (runqueues s d) /\
               rq_idle_task (runqueues s1 d) = rq_idle_task (runqueues s d)) ->
    smp_processor_id s1 = smp_processor_id s ->
    (forall q, not_queued s q -> not_queued s1 q) ->
    (not_queued s idle -> not_queued s1 next) ->
    grq_nr_running (grq s1) = grq_nr_running (grq s) ->
    grq_nr_switches (grq s1) = grq_nr_switches (grq s) ->
    (forall q, p_prio (tasks s1 q) = p_prio (tasks s q) /\
               p_state (tasks s1 q) = p_state (tasks s q)) ->
    (forall q b, q <> next -> In q (grq_queue (grq s) b) ->
                 In q (grq_queue (grq s1) b)) ->
    grq_cpu_idle_map (grq s1)
    = (if grq_qnr (grq s) =? 0
       then Z.setbit (grq_cpu_idle_map (grq s)) (smp_processor_id s)
       else Z.clearbit (grq_cpu_idle_map (grq s)) (smp_processor_id s)) ->
    (forall q, p_cpus_allowed (tasks s1 q) = p_cpus_allowed (tasks s q)) ->
    rq_cpu (runqueues s1 c) = rq_cpu (runqueues s c) ->
    let s' :=
      if negb (Nat.eqb prev next) then
        set_current next
          (with_rq c (set_rq_curr next)
             (with_task next (set_p_oncpu true)
                (with_task prev (set_p_oncpu false)
                   (with_grq (fun g =>
                      set_grq_nr_switches
                        (to_u64 (grq_nr_switches g + 1)) g)
                      (set_rq_task c next s1)))))
      else s1 in
    let next' := rq_curr (runqueues s' c) in
    (next' = idle \/
     exists b, In next' (grq_queue (grq s) b) /\
               cpu_allowed s c next' = true) /\
    (grq_qnr (grq s) = 0 -> next' = idle) /\
    rq_idle_task (runqueues s' c) = idle /\
    smp_processor_id s' = smp_processor_id s /\
    p_oncpu (tasks s' next')
    = (if Nat.eqb prev next' then p_oncpu (tasks s prev) else true) /\
    (next' <> prev -> p_oncpu (tasks s' prev) = false) /\
    (forall q, not_queued s q -> not_queued s' q) /\
    (not_queued s idle -> not_queued s' next') /\
    grq_nr_running (grq s') = grq_nr_running (grq s) /\
    grq_nr_switches (grq s')
    = (if Nat.eqb prev next' then grq_nr_switches (grq s)
       else to_u64 (grq_nr_switches (grq s) + 1)) /\
    (forall q, p_prio (tasks s' q) = p_prio (tasks s q) /\
               p_state (tasks s' q) = p_state (tasks s q)) /\
    (forall q b, q <> next' -> In q (grq_queue (grq s) b) ->
                 In q (grq_queue (grq s') b)) /\
    grq_cpu_idle_map (grq s')
    = (if grq_qnr (grq s) =? 0
       then Z.setbit (grq_cpu_idle_map (grq s)) (smp_processor_id s)
       else Z.clearbit (grq_cpu_idle_map (grq s)) (smp_processor_id s)) /\
    (next' <> prev -> rq_caches_curr s' c) /\
    (next' = idle \/ cpu_allowed s' c next' = true)).
  { intros next s1 Hn H0 Hon Hrq Hsmp Hnq Hnqi Hnr Hsw Hps Hin Hmap Hca1
      Hcpu1.
    assert (Hc1 : rq_curr (runqueues s1 c) = prev)
      by (rewrite (proj1 (Hrq c)); exact Hcurr).
    destruct (schedule_switch_effect c prev next s1 Hc1)
      as (A & B & C & D & E & F & G & Hcache & Hca & Hcpu).
    cbv zeta in A, B, C, D, E, F, G, Hcache, Hca, Hcpu |- *.
    match type of A with
    | rq_curr (runqueues ?x c) = _ => set (s' := x) in *
    end.
    clearbody s'. rewrite A.
    assert (Hq' : grq_queue (grq s') = grq_queue (grq s1))
      by (rewrite F; now destruct (Nat.eqb prev next)).
    assert (Hnq' : forall q, not_queued s1 q -> not_queued s' q)
      by (intros q H b; rewrite Hq'; apply H).
    split; [exact Hn|]. split; [exact H0|].
    split; [rewrite B, (proj2 (Hrq c)); exact Hidle|].
    split; [congruence|].
    split; [rewrite D, Hon; reflexivity|].
    split; [exact E|].
    split; [auto|]. split; [auto|].
    split; [rewrite F; destruct (Nat.eqb prev next); simpl; congruence|].
    split; [rewrite F; destruct (Nat.eqb prev next); simpl; congruence|].
    split.
    { intros q. destruct (G q) as (G1 & G2). destruct (Hps q) as (P1 & P2).
      split; congruence. }
    split; [intros q b Hq H; rewrite Hq'; now apply Hin|].
    split; [rewrite <- Hmap, F; now destruct (Nat.eqb prev next)|].
    split; [exact Hcache|].
    destruct Hn as [Hn | (b & _ & Hn)]; [now left | right].
    unfold cpu_allowed, needs_other_cpu, cpu_isset, cpu_of in Hn |- *.
    now rewrite Hca, Hca1, Hcpu, Hcpu1. }
  destruct (grq_qnr (grq s) =? 0) eqn:Eq.
  - apply (Hmain idle (set_cpuidle_map (smp_processor_id s) s));
      try reflexivity; auto.
  - apply Z.eqb_neq in Eq. unfold earliest_deadline_task.
    assert (Hclr : forall s1,
      grq_cpu_idle_map (grq (clear_cpuidle_map (smp_processor_id s) s1))
      = Z.clearbit (grq_cpu_idle_map (grq s1)) (smp_processor_id s) /\
      grq_nr_running (grq (clear_cpuidle_map (smp_processor_id s) s1))
      = grq_nr_running (grq s1) /\
      grq_nr_switches (grq (clear_cpuidle_map (smp_processor_id s) s1))
      = grq_nr_switches (grq s1) /\
      tasks (clear_cpuidle_map (smp_processor_id s) s1) = tasks s1).
    { intros s1. unfold clear_cpuidle_map. cbv zeta.
      split_ifs; repeat split. }
    destruct (edt_retry_result s c idle (Z.to_nat PRIO_LIMIT) 0 0)
      as [-> | (p & b & Hin & Ha & ->)].
    + destruct (clear_cpuidle_map_frame s s (smp_processor_id s)
                  (dispatch_frame_refl s)) as (A & B & C & D).
      destruct (Hclr s) as (M1 & M2 & M3 & M4).
      apply (Hmain idle (clear_cpuidle_map (smp_processor_id s) s)); auto.
      * intros q H b. rewrite A. apply H.
      * intros H b. rewrite A. apply H.
      * intros q. rewrite M4. now split.
      * intros q b _ H. now rewrite A.
      * intros q. now rewrite M4.
      * unfold clear_cpuidle_map. cbv zeta. split_ifs; reflexivity.
    + destruct (take_task_effect s c p)
        as (Tq & Ton & Trq & Tsmp & Tnr & Tsw & Tps & Tmap & Tca).
      cbv zeta in Tq, Ton, Trq, Tsmp, Tnr, Tsw, Tps, Tmap, Tca.
      set (s1 := take_task c p s) in *. clearbody s1.
      destruct (clear_cpuidle_map_frame s1 s1 (smp_processor_id s)
                  (dispatch_frame_refl s1)) as (A & B & C & D).
      destruct (Hclr s1) as (M1 & M2 & M3 & M4).
      apply (Hmain p (clear_cpuidle_map (smp_processor_id s) s1)).
      * right. eauto.
      * intros H. now elim Eq.
      * intros q. now rewrite B, Ton.
      * intros d. rewrite (proj1 (C d)), (proj2 (C d)), Trq. now split.
      * congruence.
      * intros q H. intros b0. rewrite A.
        apply (not_queued_list_del_init s s1 p q Tq). now right.
      * intros _ b0. rewrite A.
        apply (not_queued_list_del_init s s1 p p Tq). now left.
      * congruence.
      * congruence.
      * intros q. rewrite M4. apply Tps.
      * intros q b0 Hq H. rewrite A, Tq. unfold list_del_init.
        apply filter_In. split; [exact H|].
        apply Nat.eqb_neq in Hq. now rewrite Hq.
      * rewrite M1, Tmap. reflexivity.
      * intros q. rewrite M4. apply Tca.
      * rewrite <- Trq. unfold clear_cpuidle_map. cbv zeta.
        split_ifs; reflexivity.
Qed.

Lemma enqueue_task_smp_processor_id (p : tid) (s : sched) :
  smp_processor_id (enqueue_task p s) = smp_processor_id s.
Proof. unfold enqueue_task. cbv zeta. split_ifs; reflexivity. Qed.

Lemma return_task_effect (prev : tid) (d : bool) (s : sched) :
  let s' := return_task prev d s in
  (forall q, p_oncpu (tasks s' q) = p_oncpu (tasks s q)) /\
  runqueues s' = runqueues s /\
  smp_processor_id s' = smp_processor_id s /\
  (forall q, q <> prev -> not_queued s q -> not_queued s' q) /\
  grq_nr_switches (grq s') = grq_nr_switches (grq s) /\
  (d = true ->
   grq_queue (grq s') = grq_queue (grq s) /\
   grq_qnr (grq s') = grq_qnr (grq s) /\
   grq_nr_running (grq s') = to_ulong (grq_nr_running (grq s) - 1)) /\
  (d = false -> grq_nr_running (grq s') = grq_nr_running (grq s)) /\
  (d = true -> tasks s' = tasks s) /\
  grq_cpu_idle_map (grq s') = grq_cpu_idle_map (grq s) /\
  (d = false -> In prev (grq_queue (grq s') (p_prio (tasks s' prev)))).
Proof.
  cbv zeta. unfold return_task. destruct d.
  - unfold deactivate_task. cbv zeta.
    destruct (task_contributes_to_load _); repeat split; auto; discriminate.
  - destruct (enqueue_task_effect (inc_qnr s) prev)
      as (Hg & Hp & Ho & Hr & _).
    cbv zeta in Hg, Hp, Ho, Hr.
    pose proof (enqueue_task_smp_processor_id prev (inc_qnr s)) as Hsmp.
    set (s1 := enqueue_task prev (inc_qnr s)) in *. clearbody s1.
    split.
    { intros q. destruct (Nat.eq_dec q prev) as [-> | Hq].
      - rewrite Hp. reflexivity.
      - now rewrite (Ho q Hq). }
    split; [exact Hr|].
    split; [exact Hsmp|].
    split.
    { intros q Hq Hnq b Hin. rewrite Hg in Hin. simpl in Hin.
      unfold list_add_tail in Hin.
      destruct (b =? p_prio (tasks s1 prev)); [|exact (Hnq b Hin)].
      apply in_app_or in Hin as [Hin | [Hin | []]];
        [exact (Hnq _ Hin) | congruence]. }
    rewrite Hg. simpl.
    split; [reflexivity|]. split; [discriminate|]. split; [reflexivity|].
    split; [discriminate|]. split; [reflexivity|].
    intros _. unfold list_add_tail. rewrite Z.eqb_refl.
    apply in_or_app. right. now left.
Qed.

(** X15: schedule() keeps the running task off the run lists.  If
    before the call the CPU's rq->curr is marked oncpu and is on no
    run list, and the CPU's idle task is on no run list, the same
    holds after one pass, whichever path the pass takes (rerun of
    prev, switch to the idle task, switch to a queued task); and a
    task that was switched away from is no longer marked oncpu. *)
Theorem X15_schedule_keeps_curr_running (preempt_active : bool) (s : sched) :
  curr_running_unqueued s (smp_processor_id s) ->
  not_queued s (rq_idle_task (runqueues s (smp_processor_id s))) ->
  curr_running_unqueued (schedule preempt_active s) (smp_processor_id s) /\
  not_queued (schedule preempt_active s)
    (rq_idle_task (runqueues s (smp_processor_id s))) /\
  rq_idle_task (runqueues (schedule preempt_active s) (smp_processor_id s))
  = rq_idle_task (runqueues s (smp_processor_id s)) /\
  smp_processor_id (schedule preempt_active s) = smp_processor_id s /\
  (rq_curr (runqueues (schedule preempt_active s) (smp_processor_id s))
     <> rq_curr (runqueues s (smp_processor_id s)) ->
   p_oncpu (tasks (schedule preempt_active s)
              (rq_curr (runqueues s (smp_processor_id s)))) = false).
Proof.
  intros (Hon & Hnq) Hnqi. unfold schedule. cbv zeta.
  set (c := smp_processor_id s) in *.
  set (prev := rq_curr (runqueues s c)) in *.
  set (idle := rq_idle_task (runqueues s c)) in *.
  set (s4 := with_task prev (set_p_need_resched false) _).
  assert (F4 : dispatch_frame s s4).
  { unfold s4. apply dispatch_frame_with_task; [reflexivity|].
    apply dispatch_frame_with_rq; [intros r; now split|].
    apply update_cpu_clock_dispatch_frame, update_clocks_dispatch_frame,
      dispatch_frame_refl. }
  clearbody s4.
  assert (Hpick : forall sx,
    (forall q, p_oncpu (tasks sx q) = p_oncpu (tasks s q)) ->
    (forall d, rq_curr (runqueues sx d) = rq_curr (runqueues s d) /\
               rq_idle_task (runqueues sx d) = rq_idle_task (runqueues s d)) ->
    smp_processor_id sx = c ->
    not_queued sx idle ->
    curr_running_unqueued (schedule_pick c prev idle sx) c /\
    not_queued (schedule_pick c prev idle sx) idle /\
    rq_idle_task (runqueues (schedule_pick c prev idle sx) c) = idle /\
    smp_processor_id (schedule_pick c prev idle sx) = c /\
    (rq_curr (runqueues (schedule_pick c prev idle sx) c) <> prev ->
     p_oncpu (tasks (schedule_pick c prev idle sx) prev) = false)).
  { intros sx Hox Hrx Hsx Hqx.
    destruct (schedule_pick_effect c prev idle sx)
      as (_ & _ & A & B & C & D & E & F & _);
      [apply Hrx | apply Hrx |].
    cbv zeta in A, B, C, D, E, F.
    set (s' := schedule_pick c prev idle sx) in *. clearbody s'.
    split; [split|].
    - rewrite C, Hox. fold prev. rewrite Hon. now destruct (Nat.eqb _ _).
    - now apply F.
    - split; [now apply E|]. split; [exact A|]. split; [congruence | exact D]. }
  set (pair := if negb (p_state (tasks s4 prev) =? 0) && negb preempt_active
               then _ else (false, s4)).
  assert (Hpair : dispatch_frame s (snd pair)).
  { unfold pair. destruct (_ && _); [|exact F4].
    destruct (signal_pending_state _ _); [|exact F4].
    now apply dispatch_frame_with_task. }
  destruct pair as [d s5]. cbn [snd] in Hpair. clear F4 s4.
  destruct Hpair as (Q5 & O5 & R5 & S5).
  assert (Hnq5 : forall q, not_queued s q -> not_queued s5 q)
    by (intros q H b; rewrite Q5; apply H).
  destruct (Nat.eqb prev idle) eqn:Epi; cbn [negb].
  { apply Hpick; auto. }
  apply Nat.eqb_neq in Epi.
  set (s9 := with_task prev (set_p_last_ran _) _).
  assert (F9 : dispatch_frame s s9).
  { unfold s9. apply dispatch_frame_with_task; [reflexivity|].
    apply check_deadline_dispatch_frame.
    apply dispatch_frame_with_task; [reflexivity|].
    apply dispatch_frame_with_task; [reflexivity|].
    exact (conj Q5 (conj O5 (conj R5 S5))). }
  clearbody s9. clear Q5 O5 R5 S5 Hnq5 s5.
  assert (Hret : forall sx,
    dispatch_frame s sx ->
    curr_running_unqueued
      (schedule_pick c prev idle (return_task prev d sx)) c /\
    not_queued (schedule_pick c prev idle (return_task prev d sx)) idle /\
    rq_idle_task
      (runqueues (schedule_pick c prev idle (return_task prev d sx)) c)
    = idle /\
    smp_processor_id (schedule_pick c prev idle (return_task prev d sx)) = c /\
    (rq_curr (runqueues (schedule_pick c prev idle (return_task prev d sx)) c)
       <> prev ->
     p_oncpu (tasks (schedule_pick c prev idle (return_task prev d sx)) prev)
     = false)).
  { intros sx (Qx & Ox & Rx & Sx).
    destruct (return_task_effect prev d sx) as (A & B & C & D & _).
    cbv zeta in A, B, C, D.
    apply Hpick.
    - intros q. now rewrite A, Ox.
    - intros q. rewrite B. apply Rx.
    - rewrite C, Sx. reflexivity.
    - apply D; [auto|]. intros b. rewrite Qx. apply Hnqi. }
  destruct (needs_other_cpu s9 prev c).
  { apply Hret. apply (dispatch_frame_flags_only _ _ _ F9).
    apply resched_suitable_idle_flags_only. }
  destruct (negb d); [|now apply Hret].
  destruct (queued_notrunning s9 =? 0).
  - destruct F9 as (Q9 & O9 & R9 & S9).
    split; [split|].
    + rewrite (proj1 (R9 c)), O9. exact Hon.
    + rewrite (proj1 (R9 c)). intros b. rewrite Q9. apply Hnq.
    + split; [intros b; rewrite Q9; apply Hnqi|].
      split; [apply R9|]. split; [exact S9|].
      intros H. now elim H; rewrite (proj1 (R9 c)).
  - apply Hret. apply (dispatch_frame_flags_only _ _ _ F9).
    apply resched_suitable_idle_flags_only.
Qed.

Lemma keeps_accounts_refl (st : bool) (s : sched) : keeps_accounts st s s.
Proof. split; [reflexivity|]. split; [intros q; now split | now intros]. Qed.

Lemma keeps_accounts_trans (st : bool) (s s1 s2 : sched) :
  keeps_accounts st s s1 -> keeps_accounts st s1 s2 ->
  keeps_accounts st s s2.
Proof.
  intros (A1 & B1 & C1) (A2 & B2 & C2). split; [congruence|].
  split; [|intros d; now rewrite C2].
  intros q. destruct (B1 q) as (P1 & S1), (B2 q) as (P2 & S2).
  split; [congruence|]. intros H. rewrite (S2 H). auto.
Qed.

Lemma keeps_accounts_with_rq (st : bool) (s s1 : sched) (c : Z)
    (f : rq -> rq) :
  (forall r, rq_cpu (f r) = rq_cpu r) ->
  keeps_accounts st s s1 -> keeps_accounts st s (with_rq c f s1).
Proof.
  intros Hf H. apply (keeps_accounts_trans _ _ _ _ H).
  split; [reflexivity|]. split; [intros q; now split|].
  intros d. simpl. destruct (d =? c) eqn:E; [|reflexivity].
  apply Z.eqb_eq in E. subst d. apply Hf.
Qed.

Lemma keeps_accounts_with_grq (st : bool) (s s1 : sched)
    (f : global_rq -> global_rq) :
  (forall g, set_grq_niffies 0 (set_grq_last_jiffy 0 (f g))
             = set_grq_niffies 0 (set_grq_last_jiffy 0 g)) ->
  keeps_accounts st s s1 -> keeps_accounts st s (with_grq f s1).
Proof.
  intros Hf H. apply (keeps_accounts_trans _ _ _ _ H).
  split; [apply Hf|]. split; [intros q; now split | now intros].
Qed.

Lemma keeps_accounts_with_task (st : bool) (s s1 : sched) (p : tid)
    (f : task_struct -> task_struct) :
  (forall t, p_prio (f t) = p_prio t /\
             (st = true -> p_state (f t) = p_state t)) ->
  keeps_accounts st s s1 -> keeps_accounts st s (with_task p f s1).
Proof.
  intros Hf H. apply (keeps_accounts_trans _ _ _ _ H).
  split; [reflexivity|]. split; [|now intros].
  intros q. simpl. destruct (Nat.eqb q p) eqn:E; [|now split].
  apply Nat.eqb_eq in E. subst q. apply Hf.
Qed.

Lemma keeps_accounts_flags_only (st : bool) (s s1 s2 : sched) :
  keeps_accounts st s s1 -> flags_only s1 s2 -> keeps_accounts st s s2.
Proof.
  intros H (A & B & _). apply (keeps_accounts_trans _ _ _ _ H).
  assert (G : grq s2 = grq s1) by exact (f_equal grq A).
  assert (R : runqueues s2 = runqueues s1) by exact (f_equal runqueues A).
  split; [now rewrite G|]. split; [|intros d; now rewrite R].
  intros q. split; [exact (f_equal p_prio (B q))|].
  intros _. exact (f_equal p_state (B q)).
Qed.

Ltac keeps_accounts_step :=
  first
    [ assumption
    | apply keeps_accounts_refl
    | apply keeps_accounts_with_rq; [intros ?; reflexivity|]
    | apply keeps_accounts_with_grq; [intros ?; reflexivity|]
    | apply keeps_accounts_with_task; [intros ?; now split|]
    | match goal with
      | |- keeps_accounts _ _ (if ?b then _ else _) => destruct b
      end ].

Lemma update_cpu_clock_tasks (c : Z) (p : tid) (tick : bool) (s : sched) :
  tasks (update_cpu_clock c p tick s) = tasks s.
Proof. unfold update_cpu_clock. cbv zeta. split_ifs; reflexivity. Qed.

(** The three ways through one pass of schedule(): the idle task was
    running (nothing to return), prev is rerun without looking at the
    queue, or prev is returned and the next task picked. *)
Lemma schedule_cases (preempt_active : bool) (s : sched) :
  let c := smp_processor_id s in
  let prev := rq_curr (runqueues s c) in
  let idle := rq_idle_task (runqueues s c) in
  let d := prev_sleeps preempt_active s in
  exists sx,
    dispatch_frame s sx /\ keeps_accounts d s sx /\
    ((prev = idle /\
      schedule preempt_active s = schedule_pick c prev idle sx) \/
     (prev <> idle /\ d = false /\ grq_qnr (grq sx) = 0 /\
      schedule preempt_active s = sx /\
      needs_other_cpu sx prev c = false) \/
     (prev <> idle /\
      schedule preempt_active s
      = schedule_pick c prev idle (return_task prev d sx))).
Proof.
  cbv zeta. unfold schedule, prev_sleeps. cbv zeta.
  set (c := smp_processor_id s) in *.
  set (prev := rq_curr (runqueues s c)) in *.
  set (idle := rq_idle_task (runqueues s c)) in *.
  set (s4 := with_task prev (set_p_need_resched false) _).
  assert (T4 : tasks s4 prev = set_p_need_resched false (tasks s prev)).
  { unfold s4. rewrite tasks_with_task_same.
    change (tasks (with_rq c ?f ?x)) with (tasks x).
    now rewrite update_cpu_clock_tasks. }
  assert (F4 : dispatch_frame s s4).
  { unfold s4. apply dispatch_frame_with_task; [reflexivity|].
    apply dispatch_frame_with_rq; [intros r; now split|].
    apply update_cpu_clock_dispatch_frame, update_clocks_dispatch_frame,
      dispatch_frame_refl. }
  assert (K4 : forall st, keeps_accounts st s s4).
  { intros st. unfold s4, update_cpu_clock, update_clocks, update_rq_clock.
    cbv zeta. repeat keeps_accounts_step. }
  clearbody s4. rewrite T4.
  change (p_state (set_p_need_resched false (tasks s prev)))
    with (p_state (tasks s prev)).
  set (d := negb (p_state (tasks s prev) =? 0) && negb preempt_active &&
            negb (signal_pending_state (p_state (tasks s prev))
                    (set_p_need_resched false (tasks s prev)))).
  set (pair := if negb (p_state (tasks s prev) =? 0) && negb preempt_active
               then _ else (false, s4)).
  assert (Hpair : fst pair = d /\ dispatch_frame s (snd pair) /\
                  keeps_accounts d s (snd pair)).
  { unfold pair, d.
    destruct (negb (p_state (tasks s prev) =? 0) && negb preempt_active);
      cbn [andb fst snd]; [|auto].
    destruct (signal_pending_state _ _); cbn [negb fst snd]; [|auto].
    split; [reflexivity|]. split.
    - now apply dispatch_frame_with_task.
    - apply keeps_accounts_with_task; [|apply K4].
      intros t. split; [reflexivity | discriminate]. }
  destruct pair as [d' s5]. cbn [fst snd] in Hpair.
  destruct Hpair as (-> & F5 & K5). clear F4 K4 T4 s4.
  destruct (Nat.eqb prev idle) eqn:Epi; cbn [negb].
  { apply Nat.eqb_eq in Epi. exists s5. split; [exact F5|].
    split; [exact K5|]. left. now split. }
  apply Nat.eqb_neq in Epi.
  set (s9 := with_task prev (set_p_last_ran _) _).
  assert (F9 : dispatch_frame s s9).
  { unfold s9. apply dispatch_frame_with_task; [reflexivity|].
    apply check_deadline_dispatch_frame.
    apply dispatch_frame_with_task; [reflexivity|].
    now apply dispatch_frame_with_task. }
  assert (K9 : keeps_accounts d s s9).
  { unfold s9, check_deadline, time_slice_expired. cbv zeta.
    repeat keeps_accounts_step. }
  clearbody s9. clear F5 K5 s5.
  assert (Fr : dispatch_frame s (resched_suitable_idle prev s9))
    by (apply (dispatch_frame_flags_only _ _ _ F9),
          resched_suitable_idle_flags_only).
  assert (Kr : keeps_accounts d s (resched_suitable_idle prev s9))
    by (apply (keeps_accounts_flags_only _ _ _ _ K9),
          resched_suitable_idle_flags_only).
  destruct (needs_other_cpu s9 prev c) eqn:En.
  { exists (resched_suitable_idle prev s9). split; [exact Fr|].
    split; [exact Kr|]. right. right. now split. }
  destruct d eqn:Ed; cbn [negb].
  { exists s9. split; [exact F9|]. split; [exact K9|].
    right. right. now split. }
  unfold queued_notrunning. destruct (grq_qnr (grq s9) =? 0) eqn:Eq.
  - apply Z.eqb_eq in Eq. exists s9. split; [exact F9|].
    split; [exact K9|]. right. left. repeat split; auto.
  - exists (resched_suitable_idle prev s9). split; [exact Fr|].
    split; [exact Kr|]. right. right. now split.
Qed.

Lemma keeps_accounts_grq (st : bool) (s s' : sched) :
  keeps_accounts st s s' ->
  grq_queue (grq s') = grq_queue (grq s) /\
  grq_nr_running (grq s') = grq_nr_running (grq s) /\
  grq_nr_switches (grq s') = grq_nr_switches (grq s) /\
  grq_qnr (grq s') = grq_qnr (grq s) /\
  grq_cpu_idle_map (grq s') = grq_cpu_idle_map (grq s).
Proof.
  intros (A & _).
  split; [exact (f_equal grq_queue A)|].
  split; [exact (f_equal grq_nr_running A)|].
  split; [exact (f_equal grq_nr_switches A)|].
  split; [exact (f_equal grq_qnr A) | exact (f_equal grq_cpu_idle_map A)].
Qed.

(** X16: a task that calls schedule() to sleep is switched away from.
    When prev is not the idle task, is in a sleeping state without a
    pending signal and the call is not a preemption, one pass of
    schedule() leaves another task as rq->curr, prev not marked oncpu,
    still on no run list and still in its sleeping state, with
    grq.nr_running one lower and grq.nr_switches one higher; and when
    nothing is queued the CPU switches to its idle task and sets its
    bit in the idle map. *)
Theorem X16_schedule_deactivates_sleeping_task
    (preempt_active : bool) (s : sched) :
  this_curr s <> this_idle s ->
  prev_sleeps preempt_active s = true ->
  not_queued s (this_curr s) ->
  this_curr (schedule preempt_active s) <> this_curr s /\
  p_oncpu (tasks (schedule preempt_active s) (this_curr s)) = false /\
  not_queued (schedule preempt_active s) (this_curr s) /\
  p_state (tasks (schedule preempt_active s) (this_curr s))
  = p_state (tasks s (this_curr s)) /\
  grq_nr_running (grq (schedule preempt_active s))
  = to_ulong (grq_nr_running (grq s) - 1) /\
  grq_nr_switches (grq (schedule preempt_active s))
  = to_u64 (grq_nr_switches (grq s) + 1) /\
  (grq_qnr (grq s) = 0 ->
   this_curr (schedule preempt_active s) = this_idle s /\
   grq_cpu_idle_map (grq (schedule preempt_active s))
   = Z.setbit (grq_cpu_idle_map (grq s)) (smp_processor_id s)).
Proof.
  unfold this_curr, this_idle. intros Hpi Hd Hnq.
  destruct (schedule_cases preempt_active s) as (sx & F & K & Hc).
  cbv zeta in K, Hc. rewrite Hd in K, Hc.
  set (c := smp_processor_id s) in *.
  set (prev := rq_curr (runqueues s c)) in *.
  set (idle := rq_idle_task (runqueues s c)) in *.
  destruct Hc as [(E & _) | [(_ & E & _) | (_ & ->)]];
    [now elim Hpi | discriminate |].
  destruct F as (Fq & Fo & Fr & Fs).
  destruct (keeps_accounts_grq _ _ _ K) as (Kq & Knr & Ksw & Kqnr & Kmap).
  destruct K as (_ & Kt & _).
  destruct (return_task_effect prev true sx)
    as (Ro & Rr & Rs & Rnq & Rsw & Rd & _ & Rt & Rmap & _).
  cbv zeta in Ro, Rr, Rs, Rnq, Rsw, Rd, Rt, Rmap.
  destruct (Rd eq_refl) as (Rq & Rqnr & Rnr). specialize (Rt eq_refl).
  set (sr := return_task prev true sx) in *. clearbody sr.
  destruct (schedule_pick_effect c prev idle sr)
    as (Pn & P0 & Pi & Ps & Po & Pp & Pnq & _ & Pnr & Psw & Pt & _ & Pmap
        & _).
  { rewrite Rr. apply Fr. }
  { rewrite Rr. apply Fr. }
  cbv zeta in Pn, P0, Pi, Ps, Po, Pp, Pnq, Pnr, Psw, Pt, Pmap.
  set (s' := schedule_pick c prev idle sr) in *. clearbody s'.
  assert (Hs' : smp_processor_id s' = c)
    by (rewrite Ps, Rs, Fs; reflexivity).
  rewrite Hs'.
  assert (Hnext : rq_curr (runqueues s' c) <> prev).
  { destruct Pn as [E | (b & Hin & _)]; [congruence|].
    intros E. rewrite E, Rq, Kq in Hin. exact (Hnq b Hin). }
  split; [exact Hnext|]. split; [now apply Pp|].
  split.
  { apply Pnq. intros b. rewrite Rq, Kq. apply Hnq. }
  split.
  { rewrite (proj2 (Pt prev)), Rt. now apply Kt. }
  split; [congruence|].
  split.
  { rewrite Psw, Rsw, Ksw.
    replace (Nat.eqb prev (rq_curr (runqueues s' c))) with false;
      [reflexivity|].
    symmetry. apply Nat.eqb_neq. congruence. }
  intros H0.
  assert (H0r : grq_qnr (grq sr) = 0) by congruence.
  split; [now apply P0|].
  rewrite Pmap, H0r, Rmap, Kmap, Rs, Fs. reflexivity.
Qed.

(** X17: schedule() never loses a task that stays runnable.  When
    prev is not the idle task and is not deactivated (it is runnable,
    or the call is a preemption, or a signal is pending), after one
    pass prev is either still rq->curr or on the run list of its
    priority, and grq.nr_running is unchanged. *)
Theorem X17_schedule_keeps_runnable_task
    (preempt_active : bool) (s : sched) :
  this_curr s <> this_idle s ->
  prev_sleeps preempt_active s = false ->
  (this_curr (schedule preempt_active s) = this_curr s \/
   In (this_curr s)
     (grq_queue (grq (schedule preempt_active s))
        (p_prio (tasks (schedule preempt_active s) (this_curr s))))) /\
  grq_nr_running (grq (schedule preempt_active s))
  = grq_nr_running (grq s).
Proof.
  unfold this_curr, this_idle. intros Hpi Hd.
  destruct (schedule_cases preempt_active s) as (sx & F & K & Hc).
  cbv zeta in K, Hc. rewrite Hd in K, Hc.
  set (c := smp_processor_id s) in *.
  set (prev := rq_curr (runqueues s c)) in *.
  set (idle := rq_idle_task (runqueues s c)) in *.
  destruct F as (Fq & Fo & Fr & Fs).
  destruct (keeps_accounts_grq _ _ _ K) as (Kq & Knr & Ksw & Kqnr & Kmap).
  destruct Hc as [(E & _) | [(_ & _ & _ & -> & _) | (_ & ->)]];
    [now elim Hpi | |].
  { split; [|exact Knr]. left. rewrite Fs. apply Fr. }
  destruct (return_task_effect prev false sx)
    as (Ro & Rr & Rs & Rnq & Rsw & _ & Rd & _ & Rmap & Rin).
  cbv zeta in Ro, Rr, Rs, Rnq, Rsw, Rd, Rmap, Rin.
  specialize (Rd eq_refl). specialize (Rin eq_refl).
  set (sr := return_task prev false sx) in *. clearbody sr.
  destruct (schedule_pick_effect c prev idle sr)
    as (Pn & P0 & Pi & Ps & Po & Pp & Pnq & _ & Pnr & Psw & Pt & Pin & _).
  { rewrite Rr. apply Fr. }
  { rewrite Rr. apply Fr. }
  cbv zeta in Pn, P0, Pi, Ps, Po, Pp, Pnq, Pnr, Psw, Pt, Pin.
  set (s' := schedule_pick c prev idle sr) in *. clearbody s'.
  assert (Hs' : smp_processor_id s' = c)
    by (rewrite Ps, Rs, Fs; reflexivity).
  rewrite Hs'. split; [|congruence].
  destruct (Nat.eq_dec (rq_curr (runqueues s' c)) prev) as [E | E];
    [now left | right].
  rewrite (proj1 (Pt prev)). apply Pin; [congruence | exact Rin].
Qed.

(** ** Deadline offsets by nice level *)

Lemma sched_init_prio_ratios_increasing (i j : nat) :
  (i < j < 40)%nat ->
  nth i sched_init_prio_ratios 0 < nth j sched_init_prio_ratios 0.
Proof.
  intros H.
  assert (T : forallb (fun a =>
                forallb (fun b =>
                  negb (a <? b)%nat ||
                  (nth a sched_init_prio_ratios 0
                     <? nth b sched_init_prio_ratios 0))
                  (seq 0 40))
                (seq 0 40) = true) by (vm_compute; reflexivity).
  rewrite forallb_forall in T.
  specialize (T i). rewrite forallb_forall in T.
  specialize (T ltac:(apply in_seq; lia) j ltac:(apply in_seq; lia)).
  replace (i <? j)%nat with true in T
    by (symmetry; apply Nat.ltb_lt; lia).
  now apply Z.ltb_lt in T.
Qed.

(** X14: with the prio_ratios table that sched_init builds, the
    deadline offset grows strictly with the nice level: a task of
    higher user priority index (higher nice) gets a strictly later
    virtual deadline than one of lower index refilled at the same
    time.  This needs rr_interval small enough for the int product of
    the largest ratio not to overflow. *)
Theorem X14_prio_deadline_diff_increasing (s : sched) (i j : Z) :
  prio_ratios s = prio_ratios (sched_init s) ->
  0 < rr_interval s ->
  5263 * rr_interval s * 8192 < 2 ^ 31 ->
  0 <= i -> i < j -> j < PRIO_RANGE ->
  prio_deadline_diff s i < prio_deadline_diff s j.
Proof.
  intros Hr Hrr Hmax Hi Hij Hj.
  change (prio_ratios (sched_init s)) with sched_init_prio_ratios in Hr.
  destruct (prio_ratio_at_init s i Hr) as (Ei & Bi); [lia|].
  destruct (prio_ratio_at_init s j Hr) as (Ej & Bj); [lia|].
  assert (Hlt : prio_ratio_at s i < prio_ratio_at s j).
  { rewrite Ei, Ej. apply sched_init_prio_ratios_increasing.
    unfold PRIO_RANGE in Hj. lia. }
  rewrite !prio_deadline_diff_exact; try lia; nia.
Qed.

(** X18: after a context switch the runqueue holds a copy of the new
    task.  Whenever one pass of schedule() changes rq->curr, the
    fields rq_time_slice, rq_deadline, rq_last_ran, rq_policy and
    rq_prio of the runqueue equal the new current task's time_slice,
    deadline, last_ran, policy and prio, and rq_running tells whether
    it is the idle task. *)
Theorem X18_schedule_caches_next_task (preempt_active : bool) (s : sched) :
  this_curr (schedule preempt_active s) <> this_curr s ->
  rq_caches_curr (schedule preempt_active s) (smp_processor_id s).
Proof.
  unfold this_curr.
  destruct (schedule_cases preempt_active s) as (sx & F & K & Hc).
  cbv zeta in K, Hc.
  set (c := smp_processor_id s) in *.
  set (prev := rq_curr (runqueues s c)) in *.
  set (idle := rq_idle_task (runqueues s c)) in *.
  destruct F as (Fq & Fo & Fr & Fs).
  assert (Hpick : forall sy,
    runqueues sy = runqueues sx -> smp_processor_id sy = smp_processor_id sx ->
    rq_curr (runqueues (schedule_pick c prev idle sy)
               (smp_processor_id (schedule_pick c prev idle sy))) <> prev ->
    rq_caches_curr (schedule_pick c prev idle sy) c).
  { intros sy Hr Hs Hne.
    destruct (schedule_pick_effect c prev idle sy)
      as (_ & _ & _ & Ps & _ & _ & _ & _ & _ & _ & _ & _ & _ & Pc & _).
    { rewrite Hr. apply Fr. }
    { rewrite Hr. apply Fr. }
    cbv zeta in Ps, Pc. apply Pc.
    rewrite Ps, Hs, Fs in Hne. exact Hne. }
  destruct Hc as [(_ & ->) | [(_ & _ & _ & -> & _) | (_ & ->)]].
  - now apply Hpick.
  - intros H. elim H. rewrite Fs. apply Fr.
  - apply Hpick; apply return_task_effect.
Qed.

(** ** Priority inheritance *)

Lemma bitmap_matches_queues_grq (s s' : sched) :
  grq s' = grq s -> bitmap_matches_queues s -> bitmap_matches_queues s'.
Proof. intros E H b Hb. rewrite E. now apply H. Qed.

Lemma enqueue_task_rt (s : sched) (p : tid) :
  rt_task s p = true ->
  p_prio (tasks (enqueue_task p s) p) = p_prio (tasks s p).
Proof. intros H. unfold enqueue_task. now rewrite H. Qed.

(** X19: boosting a queued task to a realtime priority moves it to the
    tail of the new band.  After rt_mutex_setprio(p, prio) with prio
    below MAX_RT_PRIO on a task queued in the band of its priority,
    p->prio is prio, the task is at the tail of band prio and on no
    other run list, the other tasks keep their bands and order, the
    bitmap still matches the bands, and normal_prio and static_prio
    are untouched. *)
Theorem X19_rt_mutex_setprio_requeues (s : sched) (p : tid) (prio : Z) :
  bitmap_matches_queues s ->
  queued_in_own_band s p ->
  task_queued s p = true ->
  0 <= prio < MAX_RT_PRIO ->
  p_prio (tasks (rt_mutex_setprio p prio s) p) = prio /\
  p_normal_prio (tasks (rt_mutex_setprio p prio s) p)
  = p_normal_prio (tasks s p) /\
  p_static_prio (tasks (rt_mutex_setprio p prio s) p)
  = p_static_prio (tasks s p) /\
  grq_queue (grq (rt_mutex_setprio p prio s)) prio
  = filter (fun x => negb (Nat.eqb x p)) (grq_queue (grq s) prio) ++ [p] /\
  (forall b, b <> prio ->
     grq_queue (grq (rt_mutex_setprio p prio s)) b
     = filter (fun x => negb (Nat.eqb x p)) (grq_queue (grq s) b)) /\
  bitmap_matches_queues (rt_mutex_setprio p prio s) /\
  queued_in_own_band (rt_mutex_setprio p prio s) p.
Proof.
  intros Hinv Hown Hq Hprio. unfold rt_mutex_setprio. cbv zeta. rewrite Hq.
  pose proof (dequeue_task_bitmap s p Hinv Hown) as Hinv1.
  destruct (dequeue_task_effect s p) as (Dq & _ & _ & _ & Dt & _).
  cbv zeta in Dq, Dt.
  set (s1 := dequeue_task p s) in *. clearbody s1.
  set (s2 := with_task p (set_p_prio prio) s1).
  set (s3 := if task_running s2 p && _ then resched_task p s2 else s2).
  assert (F3 : flags_only s2 s3).
  { unfold s3. destruct (_ && _); [|apply flags_only_refl].
    apply resched_task_effect. }
  assert (G3 : grq s3 = grq s1)
    by (rewrite (flags_only_grq _ _ F3); reflexivity).
  assert (T3 : set_p_need_resched true (tasks s3 p)
               = set_p_need_resched true (set_p_prio prio (tasks s p))).
  { destruct F3 as (_ & B & _). rewrite B. unfold s2.
    now rewrite tasks_with_task_same, Dt. }
  assert (P3 : p_prio (tasks s3 p) = prio) by exact (f_equal p_prio T3).
  clearbody s3. clear F3 s2.
  assert (Hrt : rt_task s3 p = true).
  { unfold rt_task, rt_prio. rewrite P3. apply Z.ltb_lt. lia. }
  pose proof (enqueue_task_rt s3 p Hrt) as P4. rewrite P3 in P4.
  pose proof (enqueue_task_bitmap s3 p
                (bitmap_matches_queues_grq s1 s3 G3 Hinv1)) as Hinv4.
  destruct (enqueue_task_effect s3 p) as (Eg & Et & _).
  cbv zeta in Eg, Et. rewrite P4 in Eg, Et.
  set (s4 := enqueue_task p s3) in *. clearbody s4.
  pose proof (try_preempt_flags_only p (task_rq s p) s4) as F5.
  set (s5 := try_preempt p (task_rq s p) s4) in *. clearbody s5.
  assert (G5 : grq s5 = grq s4) by now apply flags_only_grq.
  assert (T5 : set_p_need_resched true (tasks s5 p)
               = set_p_need_resched true (set_p_prio prio (tasks s p))).
  { destruct F5 as (_ & B & _). rewrite B, Et.
    transitivity (set_p_prio prio (set_p_need_resched true (tasks s3 p)));
      [reflexivity|]. now rewrite T3. }
  assert (Q5 : grq_queue (grq s5)
               = list_add_tail p prio (list_del_init p (grq_queue (grq s)))).
  { rewrite G5, Eg. simpl. now rewrite G3, Dq. }
  split; [exact (f_equal p_prio T5)|].
  split; [exact (f_equal p_normal_prio T5)|].
  split; [exact (f_equal p_static_prio T5)|].
  split; [rewrite Q5; unfold list_add_tail, list_del_init;
          now rewrite Z.eqb_refl|].
  split.
  { intros b Hb. rewrite Q5. unfold list_add_tail, list_del_init.
    apply Z.eqb_neq in Hb. now rewrite Hb. }
  split; [exact (bitmap_matches_queues_grq s4 s5 G5 Hinv4)|].
  assert (P5 : p_prio (tasks s5 p) = prio) by exact (f_equal p_prio T5).
  intros b Hin. rewrite P5.
  destruct (Z.eq_dec b prio) as [E | E]; [exact E|].
  rewrite Q5 in Hin. unfold list_add_tail, list_del_init in Hin.
  apply Z.eqb_neq in E. rewrite E in Hin.
  apply filter_In in Hin as [_ H]. now rewrite Nat.eqb_refl in H.
Qed.

(** ** Wait queues and completions *)

(** X20: a wake-up with nr_exclusive = 0, or any count that is not
    positive, wakes everything: __wake_up_common calls the wake
    function of every entry of the queue, in queue order, whatever the
    entries' flags and whatever the functions return. *)
Theorem X20_wake_up_common_wakes_all
    (q : list wait_queue_t) (mode nr_exclusive wake_flags : Z) (s : sched) :
  nr_exclusive <= 0 ->
  - 2 ^ 31 + Z.of_nat (length q) <= nr_exclusive ->
  __wake_up_common q mode nr_exclusive wake_flags s
  = wake_all q mode wake_flags s.
Proof.
  revert nr_exclusive s.
  induction q as [|w q IH]; intros n s Hn Hlen; [reflexivity|].
  cbn [__wake_up_common wake_all]. cbn [length] in Hlen.
  destruct (wq_func w _ _ _ _ s) as [r s1]. cbn [snd].
  destruct (negb (r =? 0)); [|apply IH; lia].
  destruct (negb (Z.land (to_uint (wq_flags w)) WQ_FLAG_EXCLUSIVE =? 0));
    [|apply IH; lia].
  cbv zeta. rewrite to_int_small by lia.
  replace (n - 1 =? 0) with false by (symmetry; apply Z.eqb_neq; lia).
  apply IH; lia.
Qed.

Lemma wake_up_common_budget
    (q : list wait_queue_t) (mode nr_exclusive wake_flags : Z) (s : sched) :
  1 <= nr_exclusive < 2 ^ 31 ->
  exists q1 q2,
    q = q1 ++ q2 /\
    __wake_up_common q mode nr_exclusive wake_flags s
    = wake_all q1 mode wake_flags s /\
    exclusive_woken q1 mode wake_flags s <= nr_exclusive /\
    (q2 <> [] -> exclusive_woken q1 mode wake_flags s = nr_exclusive).
Proof.
  revert nr_exclusive s.
  induction q as [|w q IH]; intros n s Hn.
  { exists [], []. repeat split; try reflexivity; [cbn; lia | congruence]. }
  cbn [__wake_up_common].
  destruct (wq_func w (wq_flags w) (wq_private w) mode wake_flags s)
    as [r s1] eqn:Ew.
  assert (Hcons : forall n' k,
    1 <= n' < 2 ^ 31 -> n' + k = n ->
    k = (if negb (r =? 0) &&
            negb (Z.land (to_uint (wq_flags w)) WQ_FLAG_EXCLUSIVE =? 0)
         then 1 else 0) ->
    exists q1 q2,
      w :: q = q1 ++ q2 /\
      __wake_up_common q mode n' wake_flags s1
      = wake_all q1 mode wake_flags s /\
      exclusive_woken q1 mode wake_flags s <= n /\
      (q2 <> [] -> exclusive_woken q1 mode wake_flags s = n)).
  { intros n' k Hn' Hk Hkdef.
    destruct (IH n' s1 Hn') as (q1 & q2 & -> & Hw & Hle & Heq).
    exists (w :: q1), q2. cbn [wake_all exclusive_woken]. rewrite Ew.
    cbn [snd]. rewrite <- Hkdef.
    split; [reflexivity|]. split; [exact Hw|]. split; [lia|].
    intros H. rewrite (Heq H). lia. }
  destruct (negb (r =? 0)) eqn:Er; cbn [andb] in Hcons;
    [|apply (Hcons n 0); auto; lia].
  destruct (negb (Z.land (to_uint (wq_flags w)) WQ_FLAG_EXCLUSIVE =? 0))
    eqn:Ex; [|apply (Hcons n 0); auto; lia].
  cbv zeta. rewrite to_int_small by lia.
  destruct (n - 1 =? 0) eqn:E1; [|apply Z.eqb_neq in E1;
                                  apply (Hcons (n - 1) 1); auto; lia].
  apply Z.eqb_eq in E1.
  exists [w], q. cbn [wake_all exclusive_woken app]. rewrite Ew, Er, Ex.
  cbn [snd andb]. repeat split; lia.
Qed.

(** X21: an exclusive wake-up stops at its budget.  With a positive
    nr_exclusive, __wake_up_common calls the wake functions of a
    prefix of the queue, in order; among these at most nr_exclusive
    are exclusive entries that were woken, and when part of the queue
    is left unvisited exactly nr_exclusive were. *)
Theorem X21_wake_up_common_exclusive_budget
    (q : list wait_queue_t) (mode nr_exclusive wake_flags : Z) (s : sched) :
  1 <= nr_exclusive < 2 ^ 31 ->
  exists q1 q2,
    q = q1 ++ q2 /\
    __wake_up_common q mode nr_exclusive wake_flags s
    = wake_all q1 mode wake_flags s /\
    exclusive_woken q1 mode wake_flags s <= nr_exclusive /\
    (q2 <> [] -> exclusive_woken q1 mode wake_flags s = nr_exclusive).
Proof. apply wake_up_common_budget. Qed.

(** X22: complete() followed by try_wait_for_completion() is a round
    trip on the counter, and wakes at most one waiter.  Unless the
    counter is at its maximum (where the increment wraps to zero), the
    wait succeeds and leaves x->done as it was before complete(); and
    among the entries whose wake function complete() calls, at most
    one is an exclusive entry that was woken. *)
Theorem X22_complete_try_wait_round_trip (x : completion) (s : sched) :
  0 <= done x < UINT_MAX ->
  try_wait_for_completion (fst (complete x s))
  = (true, mk_completion (done x) (wait x)) /\
  completion_done (fst (complete x s)) = true /\
  exists q1 q2,
    wait x = q1 ++ q2 /\
    snd (complete x s) = wake_all q1 TASK_NORMAL 0 s /\
    exclusive_woken q1 TASK_NORMAL 0 s <= 1.
Proof.
  intros Hd. unfold UINT_MAX in Hd.
  unfold complete, try_wait_for_completion, completion_done.
  cbn [fst snd done wait].
  assert (Hinc : to_uint (done x + 1) = done x + 1)
    by (unfold to_uint, wrap_unsigned; apply Z.mod_small; lia).
  rewrite Hinc.
  replace (done x + 1 =? 0) with false by (symmetry; apply Z.eqb_neq; lia).
  replace (done x + 1 - 1) with (done x) by lia.
  split; [|split; [reflexivity|]].
  - f_equal. f_equal. unfold to_uint, wrap_unsigned. apply Z.mod_small. lia.
  - destruct (wake_up_common_budget (wait x) TASK_NORMAL 1 0 s)
      as (q1 & q2 & A & B & C & _); [lia|].
    exists q1, q2. auto.
Qed.

(** ** Renicing and the virtual deadline *)

Lemma flags_only_deadline (s s' : sched) (q : tid) :
  flags_only s s' -> p_deadline (tasks s' q) = p_deadline (tasks s q).
Proof. intros (_ & H & _). exact (f_equal p_deadline (H q)). Qed.

Lemma enqueue_task_deadline (s : sched) (p q : tid) :
  p_deadline (tasks (enqueue_task p s) q) = p_deadline (tasks s q).
Proof.
  destruct (enqueue_task_effect s p) as (_ & Hp & Ho & _).
  cbv zeta in Hp, Ho.
  destruct (Nat.eq_dec q p) as [-> | Hq]; [now rewrite Hp | now rewrite Ho].
Qed.

Lemma prio_deadline_diff_lt (s : sched) (i j : Z) :
  prio_ratios s = sched_init_prio_ratios ->
  0 < rr_interval s ->
  5263 * rr_interval s * 8192 < 2 ^ 31 ->
  0 <= i < j -> j < 40 ->
  prio_deadline_diff s i < prio_deadline_diff s j.
Proof.
  intros Hr Hrr Hmax Hij Hj.
  destruct (prio_ratio_at_init s i Hr) as (Ei & Bi);
    [unfold PRIO_RANGE; lia|].
  destruct (prio_ratio_at_init s j Hr) as (Ej & Bj);
    [unfold PRIO_RANGE; lia|].
  assert (Hlt : prio_ratio_at s i < prio_ratio_at s j)
    by (rewrite Ei, Ej; apply sched_init_prio_ratios_increasing; lia).
  rewrite !prio_deadline_diff_exact; try lia; nia.
Qed.

(** X23: renicing moves the virtual deadline by the difference of the
    two nice levels' deadline offsets.  For a task without a realtime
    policy, set_user_nice to a different valid nice level leaves
    p->deadline at the old deadline plus prio_deadline_diff of the new
    level minus that of the old one (when this does not wrap the u64);
    with the prio_ratios of sched_init the deadline therefore becomes
    later exactly when the nice level is raised. *)
Theorem X23_set_user_nice_shifts_deadline (s : sched) (p : tid) (nice : Z) :
  prio_ratios s = prio_ratios (sched_init s) ->
  0 < rr_interval s ->
  5263 * rr_interval s * 8192 < 2 ^ 31 ->
  has_rt_policy s p = false ->
  -20 <= nice <= 19 ->
  -20 <= TASK_NICE s p <= 19 ->
  TASK_NICE s p <> nice ->
  0 <= p_deadline (tasks s p)
       + (prio_deadline_diff s (nice + 20)
          - prio_deadline_diff s (TASK_NICE s p + 20)) < 2 ^ 64 ->
  p_deadline (tasks (set_user_nice p nice s) p)
  = p_deadline (tasks s p)
    + (prio_deadline_diff s (nice + 20)
       - prio_deadline_diff s (TASK_NICE s p + 20)) /\
  (TASK_NICE s p < nice <->
   p_deadline (tasks s p) < p_deadline (tasks (set_user_nice p nice s) p)).
Proof.
  intros Hr Hrr Hmax Hrt Hnice Hold Hne Hwrap.
  set (new := prio_deadline_diff s (nice + 20)) in *.
  set (old := prio_deadline_diff s (TASK_NICE s p + 20)) in *.
  assert (Hmono : TASK_NICE s p < nice <-> old < new).
  { unfold old, new. split; intros H.
    - apply prio_deadline_diff_lt; assumption || lia.
    - destruct (Z_lt_ge_dec (TASK_NICE s p) nice) as [L | G]; [exact L|].
      assert (nice < TASK_NICE s p) by lia.
      assert (new < old)
        by (apply prio_deadline_diff_lt; assumption || lia).
      lia. }
  assert (Hrange : 0 <= old < 2 ^ 64 /\ 0 <= new < 2 ^ 64)
    by (split; apply to_u64_range).
  assert (Hmain : p_deadline (tasks (set_user_nice p nice s) p)
                  = p_deadline (tasks s p) + (new - old)).
  { unfold set_user_nice.
    replace (TASK_NICE s p =? nice) with false
      by (symmetry; now apply Z.eqb_neq).
    replace (nice <? -20) with false by (symmetry; apply Z.ltb_ge; lia).
    replace (19 <? nice) with false by (symmetry; apply Z.ltb_ge; lia).
    cbn [orb]. cbv zeta.
    set (c := task_rq s p).
    set (s1 := update_clocks c s).
    change (has_rt_policy s1 p) with (has_rt_policy s p). rewrite Hrt.
    set (s2 := if task_queued s1 p then dequeue_task p s1 else s1).
    assert (H2 : tasks s2 = tasks s /\ rr_interval s2 = rr_interval s /\
                 prio_ratios s2 = prio_ratios s).
    { unfold s2. destruct (task_queued s1 p); [|now repeat split].
      unfold dequeue_task. cbv zeta.
      destruct (list_empty _); now repeat split. }
    destruct H2 as (T2 & R2 & P2).
    set (s3 := adjust_deadline p (NICE_TO_PRIO nice) s2).
    assert (D3 : p_deadline (tasks s3 p)
                 = p_deadline (tasks s p) + (new - old)).
    { unfold s3, adjust_deadline. rewrite tasks_with_task_same. cbn.
      rewrite (static_deadline_diff_ext s s2 _ R2 P2).
      unfold task_deadline_diff, TASK_USER_PRIO. rewrite T2.
      fold (static_deadline_diff s2 (p_static_prio (tasks s p))).
      rewrite (static_deadline_diff_ext s s2 _ R2 P2).
      unfold static_deadline_diff, USER_PRIO, NICE_TO_PRIO.
      replace (MAX_RT_PRIO + nice + 20 - MAX_RT_PRIO) with (nice + 20) by lia.
      replace (p_static_prio (tasks s p) - MAX_RT_PRIO)
        with (TASK_NICE s p + 20)
        by (unfold TASK_NICE, PRIO_TO_NICE; lia).
      fold new old. unfold to_u64, wrap_unsigned.
      rewrite Zplus_mod_idemp_r. apply Z.mod_small. lia. }
    rewrite <- D3. clearbody s3. clear D3.
    unfold effective_prio. cbv zeta.
    destruct (negb (rt_prio _)); destruct (task_queued s1 p);
      repeat match goal with
        | |- context [if ?b then _ else _] => destruct b
        end;
      rewrite ?(flags_only_deadline _ _ _ (try_preempt_flags_only _ _ _)),
        ?(flags_only_deadline _ _ _ (proj1 (resched_task_effect _ _))),
        ?enqueue_task_deadline;
      unfold reset_rq_task; simpl; rewrite ?Nat.eqb_refl; reflexivity. }
  split; [exact Hmain|]. rewrite Hmain, Hmono. lia.
Qed.

(** ** The dispatcher and CPU affinity *)

(** X24: schedule() never leaves a task on a CPU outside its affinity
    mask.  On a CPU whose runqueue carries its own number, after one
    pass of schedule() rq->curr is the CPU's idle task or a task whose
    cpus_allowed contains this CPU: a prev that may no longer run here
    is not rerun, and the selector only takes allowed tasks. *)
Theorem X24_schedule_respects_affinity (preempt_active : bool) (s : sched) :
  rq_cpu (runqueues s (smp_processor_id s)) = smp_processor_id s ->
  0 <= smp_processor_id s < 2 ^ 32 ->
  this_curr (schedule preempt_active s) = this_idle s \/
  cpu_allowed (schedule preempt_active s) (smp_processor_id s)
    (this_curr (schedule preempt_active s)) = true.
Proof.
  unfold this_curr, this_idle. intros Hcpu Hrange.
  destruct (schedule_cases preempt_active s) as (sx & F & K & Hc).
  cbv zeta in K, Hc.
  set (c := smp_processor_id s) in *.
  set (prev := rq_curr (runqueues s c)) in *.
  set (idle := rq_idle_task (runqueues s c)) in *.
  destruct F as (Fq & Fo & Fr & Fs).
  destruct K as (_ & _ & Kc).
  assert (Hpick : forall sy,
    runqueues sy = runqueues sx -> smp_processor_id sy = smp_processor_id sx ->
    rq_curr (runqueues (schedule_pick c prev idle sy)
               (smp_processor_id (schedule_pick c prev idle sy))) = idle \/
    cpu_allowed (schedule_pick c prev idle sy) c
      (rq_curr (runqueues (schedule_pick c prev idle sy)
                  (smp_processor_id (schedule_pick c prev idle sy)))) = true).
  { intros sy Hr Hs.
    destruct (schedule_pick_effect c prev idle sy)
      as (_ & _ & _ & Ps & _ & _ & _ & _ & _ & _ & _ & _ & _ & _ & Pa).
    { rewrite Hr. apply Fr. }
    { rewrite Hr. apply Fr. }
    cbv zeta in Ps, Pa. rewrite Ps, Hs, Fs. exact Pa. }
  destruct Hc as [(_ & ->) | [(_ & _ & _ & -> & Hn) | (_ & ->)]].
  - now apply Hpick.
  - right. rewrite Fs. fold c. rewrite (proj1 (Fr c)). fold prev.
    unfold cpu_allowed, cpu_of. rewrite Kc, Hcpu.
    replace (to_uint c) with c
      by (unfold to_uint, wrap_unsigned; symmetry; apply Z.mod_small; lia).
    now rewrite Hn.
  - apply Hpick; apply return_task_effect.
Qed.

(** X25: what earliest_deadline_task can return.  For every state,
    runqueue and idle task, the selector either returns the idle task
    and leaves the state untouched, or returns a task that is on a run
    list and may run on the runqueue's CPU, together with the state in
    which exactly that task has been taken (take_task). *)
Theorem X25_earliest_deadline_task_result
    (s : sched) (c : Z) (idle : tid) :
  earliest_deadline_task c idle s = (idle, s) \/
  exists p b,
    In p (grq_queue (grq s) b) /\ cpu_allowed s c p = true /\
    earliest_deadline_task c idle s = (p, take_task c p s) /\
    not_queued (take_task c p s) p.
Proof.
  unfold earliest_deadline_task.
  destruct (edt_retry_result s c idle (Z.to_nat PRIO_LIMIT) 0 0)
    as [H | (p & b & Hin & Ha & H)]; [now left | right].
  exists p, b. repeat split; try assumption.
  destruct (take_task_effect s c p) as (Tq & _).
  apply (not_queued_list_del_init s _ p p Tq). now left.
Qed.

(** ** Timeslice accounting *)

(** X26: update_cpu_clock never adds time to the running slice.  With
    rq_time_slice not within 2^22 of the smallest int, the call leaves
    rq_time_slice at most what it was and less than 2^22 microseconds
    lower (the clamped time difference is below 2^32 ns), leaves it
    unchanged for SCHED_FIFO and for the idle task, and sets
    rq_last_ran and timekeep_clock to rq->clock. *)
Theorem X26_update_cpu_clock_slice_shrinks
    (s : sched) (c : Z) (p : tid) (tick : bool) :
  - 2 ^ 31 + 2 ^ 22 <= rq_time_slice (runqueues s c) < 2 ^ 31 ->
  rq_time_slice (runqueues (update_cpu_clock c p tick s) c)
    <= rq_time_slice (runqueues s c) /\
  rq_time_slice (runqueues s c) - 2 ^ 22
    < rq_time_slice (runqueues (update_cpu_clock c p tick s) c) /\
  (rq_policy (runqueues s c) = SCHED_FIFO \/
   p = rq_idle_task (runqueues s c) ->
   rq_time_slice (runqueues (update_cpu_clock c p tick s) c)
   = rq_time_slice (runqueues s c)) /\
  rq_last_ran (runqueues (update_cpu_clock c p tick s) c)
  = rq_clock (runqueues s c) /\
  rq_timekeep_clock (runqueues (update_cpu_clock c p tick s) c)
  = rq_clock (runqueues s c).
Proof.
  intros Hts. unfold update_cpu_clock. cbv zeta.
  destruct (negb (policy_eqb (rq_policy (runqueues s c)) SCHED_FIFO) &&
            negb (Nat.eqb p (rq_idle_task (runqueues s c)))) eqn:E.
  - set (d := niffy_diff _ 1).
    assert (Hd : 0 <= NS_TO_US d < 2 ^ 22).
    { pose proof (niffy_diff_range
                    (to_s64 (rq_clock (runqueues s c)
                             - rq_last_ran (runqueues s c))) 1) as R.
      fold d in R. unfold NS_TO_US. rewrite Z.shiftr_div_pow2 by lia.
      split; [apply Z.div_pos; lia|].
      apply Z.div_lt_upper_bound; lia. }
    simpl. rewrite !Z.eqb_refl. simpl.
    rewrite to_int_small by lia.
    apply andb_true_iff in E as (E1 & E2).
    repeat split; try lia.
    intros [H | H].
    + rewrite H in E1. discriminate.
    + subst p. now rewrite Nat.eqb_refl in E2.
  - simpl. rewrite !Z.eqb_refl. simpl. repeat split; lia.
Qed.

End BFS.

(** ** The statements at concrete machines *)

Lemma C1_witness :
  bitmap_covers_queues cfg_MAX_RT_PRIO ex_rt_queued /\
  (exists b q, 0 <= b < cfg_MAX_RT_PRIO /\
     In q (grq_queue (grq ex_rt_queued) b) /\
     cpu_allowed ex_rt_queued 0 q = true) /\
  exists b p l1 l2,
    0 <= b < cfg_MAX_RT_PRIO /\
    grq_queue (grq ex_rt_queued) b = l1 ++ p :: l2 /\
    cpu_allowed ex_rt_queued 0 p = true /\
    (forall q, In q l1 -> cpu_allowed ex_rt_queued 0 q = false) /\
    (forall b' q, 0 <= b' < b -> In q (grq_queue (grq ex_rt_queued) b') ->
       cpu_allowed ex_rt_queued 0 q = false) /\
    earliest_deadline_task cfg_MAX_RT_PRIO 0 0%nat ex_rt_queued
      = (p, take_task 0 p ex_rt_queued) /\
    (forall b', ~ In p (grq_queue (grq (take_task 0 p ex_rt_queued)) b')) /\
    grq_qnr (grq (take_task 0 p ex_rt_queued))
      = to_ulong (grq_qnr (grq ex_rt_queued) - 1).
Proof.
  assert (H1 : bitmap_covers_queues cfg_MAX_RT_PRIO ex_rt_queued).
  { intros b Hb Hne. simpl in Hne. unfold ex_rt_queue in Hne.
    destruct (b =? 50) eqn:E50.
    - apply Z.eqb_eq in E50. subst b. reflexivity.
    - destruct (b =? 60) eqn:E60.
      + apply Z.eqb_eq in E60. subst b. reflexivity.
      + now elim Hne. }
  assert (H2 : exists b q, 0 <= b < cfg_MAX_RT_PRIO /\
                 In q (grq_queue (grq ex_rt_queued) b) /\
                 cpu_allowed ex_rt_queued 0 q = true).
  { exists 50, 11%nat. split; [unfold cfg_MAX_RT_PRIO; lia|].
    split; [simpl; auto | reflexivity]. }
  split; [exact H1|]. split; [exact H2|].
  exact (C1_earliest_deadline_task_realtime cfg_MAX_RT_PRIO ex_rt_queued 0
           0%nat H1 H2).
Defined.

(** The selector on that machine: task 11 from band 50, task 10 being
    skipped for its affinity and left alone in the band. *)
Example earliest_deadline_task_example :
  fst (earliest_deadline_task cfg_MAX_RT_PRIO 0 0%nat ex_rt_queued) = 11%nat
  /\ grq_queue
       (grq (snd (earliest_deadline_task cfg_MAX_RT_PRIO 0 0%nat
                    ex_rt_queued))) 50
     = [10%nat].
Proof. split; reflexivity. Qed.

(** Against C2 as worded: a SCHED_IDLEPRIO task wakes with an earlier
    deadline than the SCHED_IDLEPRIO tasks running on both CPUs of its
    affinity mask.  No CPU is idle and can_preempt holds against either
    CPU, and still try_preempt marks neither current task. *)
Lemma C2_counterexample :
  suitable_idle_cpus cfg_NR_CPUS ex_wake_idleprio 4%nat = false /\
  preempt_candidates cfg_NR_CPUS ex_wake_idleprio 4%nat = [0; 1] /\
  forall c, In c [0; 1] ->
    can_preempt ex_wake_idleprio 4%nat
      (rq_prio (runqueues ex_wake_idleprio c))
      (rq_deadline (runqueues ex_wake_idleprio c))
      (rq_policy (runqueues ex_wake_idleprio c)) = true /\
    p_need_resched
      (tasks (try_preempt cfg_NR_CPUS cfg_MAX_RT_PRIO 4%nat 0
                ex_wake_idleprio)
         (rq_curr (runqueues ex_wake_idleprio c))) = false.
Proof.
  split; [reflexivity|]. split; [reflexivity|].
  intros c [<- | [<- | []]]; split; reflexivity.
Qed.

Lemma C2_witness :
  (suitable_idle_cpus cfg_NR_CPUS ex_wake_normal 4%nat = false /\
   p_policy (tasks ex_wake_normal 4%nat) <> SCHED_IDLEPRIO /\
   online_cpus cfg_NR_CPUS ex_wake_normal 4%nat = true /\
   (forall c, In c (preempt_candidates cfg_NR_CPUS ex_wake_normal 4%nat) ->
      0 <= rq_prio (runqueues ex_wake_normal c)) /\
   try_preempt cfg_NR_CPUS cfg_MAX_RT_PRIO 4%nat 0 ex_wake_normal
     = resched_task (rq_curr (runqueues ex_wake_normal 1)) ex_wake_normal /\
   p_need_resched
     (tasks (try_preempt cfg_NR_CPUS cfg_MAX_RT_PRIO 4%nat 0 ex_wake_normal)
        (rq_curr (runqueues ex_wake_normal 1))) = true) /\
  (suitable_idle_cpus cfg_NR_CPUS ex_wake_late 4%nat = false /\
   p_policy (tasks ex_wake_late 4%nat) <> SCHED_IDLEPRIO /\
   online_cpus cfg_NR_CPUS ex_wake_late 4%nat = true /\
   (forall c, In c (preempt_candidates cfg_NR_CPUS ex_wake_late 4%nat) ->
      0 <= rq_prio (runqueues ex_wake_late c)) /\
   try_preempt cfg_NR_CPUS cfg_MAX_RT_PRIO 4%nat 0 ex_wake_late
     = ex_wake_late).
Proof.
  assert (Hprio : forall s, runqueues s = runqueues ex_wake_normal ->
            forall c, In c [0; 1] -> 0 <= rq_prio (runqueues s c)).
  { intros s -> c [<- | [<- | []]]; simpl; lia. }
  split.
  - assert (H1 : suitable_idle_cpus cfg_NR_CPUS ex_wake_normal 4%nat = false)
      by reflexivity.
    assert (H2 : p_policy (tasks ex_wake_normal 4%nat) <> SCHED_IDLEPRIO)
      by discriminate.
    assert (H3 : online_cpus cfg_NR_CPUS ex_wake_normal 4%nat = true)
      by reflexivity.
    pose proof (Hprio ex_wake_normal eq_refl) as H4.
    repeat (split; [assumption|]).
    destruct (C2_can_preempt_and_try_preempt cfg_NR_CPUS cfg_MAX_RT_PRIO
                ex_wake_normal 4%nat 0 H1 H2 H3 H4)
      as (_ & _ & _ & Hyes & _).
    exact (Hyes eq_refl).
  - assert (H1 : suitable_idle_cpus cfg_NR_CPUS ex_wake_late 4%nat = false)
      by reflexivity.
    assert (H2 : p_policy (tasks ex_wake_late 4%nat) <> SCHED_IDLEPRIO)
      by discriminate.
    assert (H3 : online_cpus cfg_NR_CPUS ex_wake_late 4%nat = true)
      by reflexivity.
    pose proof (Hprio ex_wake_late eq_refl) as H4.
    repeat (split; [assumption|]).
    destruct (C2_can_preempt_and_try_preempt cfg_NR_CPUS cfg_MAX_RT_PRIO
                ex_wake_late 4%nat 0 H1 H2 H3 H4)
      as (_ & _ & _ & _ & Hno).
    exact (Hno eq_refl).
Defined.

(** Against C3 as worded: with rr_interval = 6 the refilled timeslice is
    6144 microseconds (not 6 * 1000), and the deadline of a nice-0 task
    (ratio 836) lies 836 * 6 * 8192 ns after niffies (not
    836 * 6 * (1000000 / 128)). *)
Lemma C3_counterexample :
  p_time_slice
    (tasks (time_slice_expired cfg_MAX_RT_PRIO 4%nat ex_wake_normal) 4%nat)
    = 6144 /\
  p_time_slice
    (tasks (time_slice_expired cfg_MAX_RT_PRIO 4%nat ex_wake_normal) 4%nat)
    <> rr_interval ex_wake_normal * 1000 /\
  p_deadline
    (tasks (time_slice_expired cfg_MAX_RT_PRIO 4%nat ex_wake_normal) 4%nat)
    = 1000000 + 836 * 6 * 8192 /\
  p_deadline
    (tasks (time_slice_expired cfg_MAX_RT_PRIO 4%nat ex_wake_normal) 4%nat)
    <> grq_niffies (grq ex_wake_normal)
       + prio_ratio_at ex_wake_normal
           (TASK_USER_PRIO cfg_MAX_RT_PRIO ex_wake_normal 4%nat)
         * rr_interval ex_wake_normal * (1000000 / 128).
Proof. repeat split; try reflexivity; vm_compute; discriminate. Qed.

Lemma C3_witness :
  prio_ratios ex_wake_normal = sched_init_prio_ratios /\
  0 <= TASK_USER_PRIO cfg_MAX_RT_PRIO ex_wake_normal 4%nat < PRIO_RANGE /\
  0 <= rr_interval ex_wake_normal /\
  prio_ratio_at ex_wake_normal
    (TASK_USER_PRIO cfg_MAX_RT_PRIO ex_wake_normal 4%nat)
    * rr_interval ex_wake_normal * 8192 < 2 ^ 31 /\
  0 <= grq_niffies (grq ex_wake_normal) /\
  grq_niffies (grq ex_wake_normal)
    + prio_ratio_at ex_wake_normal
        (TASK_USER_PRIO cfg_MAX_RT_PRIO ex_wake_normal 4%nat)
      * rr_interval ex_wake_normal * 8192 < 2 ^ 64 /\
  p_time_slice
    (tasks (time_slice_expired cfg_MAX_RT_PRIO 4%nat ex_wake_normal) 4%nat)
    = rr_interval ex_wake_normal * 1024 /\
  p_deadline
    (tasks (time_slice_expired cfg_MAX_RT_PRIO 4%nat ex_wake_normal) 4%nat)
    = grq_niffies (grq ex_wake_normal)
      + prio_ratio_at ex_wake_normal
          (TASK_USER_PRIO cfg_MAX_RT_PRIO ex_wake_normal 4%nat)
        * rr_interval ex_wake_normal * (1048576 / 128).
Proof.
  assert (H1 : prio_ratios ex_wake_normal = sched_init_prio_ratios)
    by reflexivity.
  assert (H2 : 0 <= TASK_USER_PRIO cfg_MAX_RT_PRIO ex_wake_normal 4%nat
               < PRIO_RANGE)
    by (vm_compute; split; [discriminate | reflexivity]).
  assert (H3 : 0 <= rr_interval ex_wake_normal) by (vm_compute; discriminate).
  assert (H4 : prio_ratio_at ex_wake_normal
                 (TASK_USER_PRIO cfg_MAX_RT_PRIO ex_wake_normal 4%nat)
               * rr_interval ex_wake_normal * 8192 < 2 ^ 31)
    by (vm_compute; reflexivity).
  assert (H5 : 0 <= grq_niffies (grq ex_wake_normal))
    by (vm_compute; discriminate).
  assert (H6 : grq_niffies (grq ex_wake_normal)
               + prio_ratio_at ex_wake_normal
                   (TASK_USER_PRIO cfg_MAX_RT_PRIO ex_wake_normal 4%nat)
                 * rr_interval ex_wake_normal * 8192 < 2 ^ 64)
    by (vm_compute; reflexivity).
  repeat (split; [assumption|]).
  destruct (C3_time_slice_expired_refill cfg_MAX_RT_PRIO ex_wake_normal 4%nat
              H1 H2 H3 H4 H5 H6) as (Hts & Hdl & _).
  exact (conj Hts Hdl).
Defined.

(** Against C4 as worded: in the scenario of the specification (parent
    with rq_time_slice = 5000, the child a copy of it) both end with
    2500, but sched_fork does not touch the child's deadline: it stays
    equal to the parent's and is not earlier.  With 150 microseconds
    left the child's fresh deadline is, when sched_fork returns, later
    than the deadline the parent still runs with. *)
Lemma C4_counterexample :
  (4%nat <> current (ex_fork 5000) /\
   p_policy (tasks (ex_fork 5000) 4%nat) <> SCHED_FIFO /\
   rq_time_slice (runqueues (ex_fork 5000) 0) = 5000 /\
   let s' := sched_fork cfg_MAX_RT_PRIO cfg_TASK_RUNNING 4%nat 0
               (ex_fork 5000) in
   rq_time_slice (runqueues s' 0) = 2500 /\
   p_time_slice (tasks s' 4%nat) = 2500 /\
   ~ p_deadline (tasks s' 4%nat) < rq_deadline (runqueues s' 0) /\
   ~ p_deadline (tasks s' 4%nat) < p_deadline (tasks s' 2%nat)) /\
  (rq_time_slice (runqueues (ex_fork 150) 0) = 150 /\
   let s' := sched_fork cfg_MAX_RT_PRIO cfg_TASK_RUNNING 4%nat 0
               (ex_fork 150) in
   ~ p_deadline (tasks s' 4%nat) < rq_deadline (runqueues s' 0) /\
   ~ p_deadline (tasks s' 4%nat) < p_deadline (tasks s' 2%nat)).
Proof. repeat split; try reflexivity; discriminate. Qed.

Lemma C4_witness :
  (4%nat <> current (ex_fork 5000) /\
   p_policy (tasks (ex_fork 5000) 4%nat) <> SCHED_FIFO /\
   let s' := sched_fork cfg_MAX_RT_PRIO cfg_TASK_RUNNING 4%nat 0
               (ex_fork 5000) in
   rq_time_slice (runqueues s' 0) = 2500 /\
   p_time_slice (tasks s' 4%nat) = 2500 /\
   p_deadline (tasks s' 4%nat) = 5000000) /\
  (4%nat <> current (ex_fork 150) /\
   p_policy (tasks (ex_fork 150) 4%nat) <> SCHED_FIFO /\
   let s' := sched_fork cfg_MAX_RT_PRIO cfg_TASK_RUNNING 4%nat 0
               (ex_fork 150) in
   rq_time_slice (runqueues s' 0) = 0 /\
   p_need_resched (tasks s' 2%nat) = true /\
   p_time_slice (tasks s' 4%nat) = 6144 /\
   p_deadline (tasks s' 4%nat) = 1000000 + 836 * 6 * 8192 /\
   let s2 := with_grq (set_grq_niffies 1002000) s' in
   p_deadline (tasks s' 4%nat)
     < p_deadline (tasks (time_slice_expired cfg_MAX_RT_PRIO 2%nat s2) 2%nat)).
Proof.
  assert (Hne : forall n, 4%nat <> current (ex_fork n)) by discriminate.
  assert (Hpol : forall n, p_policy (tasks (ex_fork n) 4%nat) <> SCHED_FIFO)
    by discriminate.
  split; (split; [apply Hne | split; [apply Hpol|]]).
  - destruct (C4_sched_fork_timeslice cfg_MAX_RT_PRIO cfg_TASK_RUNNING
                (ex_fork 5000) 4%nat 0 (Hne _) (Hpol _)) as [Hshare _].
    destruct Hshare as (Hrq & Hts & Hdl & _).
    { vm_compute. discriminate. }
    exact (conj Hrq (conj Hts Hdl)).
  - destruct (C4_sched_fork_timeslice cfg_MAX_RT_PRIO cfg_TASK_RUNNING
                (ex_fork 150) 4%nat 0 (Hne _) (Hpol _)) as [_ Hfresh].
    destruct Hfresh as (Hrq & Hnr & Hts & Hdl & Hlater).
    { vm_compute. reflexivity. }
    refine (conj Hrq (conj Hnr (conj Hts (conj Hdl _)))).
    refine (proj2 (Hlater
                     (with_grq (set_grq_niffies 1002000)
                        (sched_fork cfg_MAX_RT_PRIO cfg_TASK_RUNNING 4%nat 0
                           (ex_fork 150)))
                     eq_refl eq_refl eq_refl _ _) _).
    + vm_compute. split; discriminate.
    + vm_compute. reflexivity.
    + vm_compute. reflexivity.
Defined.

(** C5 at a stalled sched clock: a delta of 0 ns is not trusted, and
    the value put in its place is 0, not 1000. *)
Lemma C5_witness :
  (0 < 1 \/ to_ulong (JIFFIES_TO_NS cfg_HZ (to_int (0 + 1))) < 0) /\
  niffy_diff cfg_HZ 0 0 = 0.
Proof.
  assert (H : 0 < 1 \/ to_ulong (JIFFIES_TO_NS cfg_HZ (to_int (0 + 1))) < 0)
    by (left; reflexivity).
  exact (conj H (C5_niffy_diff_untrusted_delta_is_zero cfg_HZ 0 0 H)).
Defined.

(** update_clocks on a CPU whose sched clock has not moved since its
    last update leaves niffies where it was. *)
Example update_clocks_stalled_clock :
  rq_clock (runqueues ex_wake_normal 0)
    = rq_old_clock (runqueues ex_wake_normal 0) /\
  sched_clock_cpu ex_wake_normal 0 = rq_clock (runqueues ex_wake_normal 0) /\
  grq_niffies (grq ex_wake_normal) = 1000000 /\
  grq_niffies (grq (update_clocks cfg_HZ 0 ex_wake_normal)) = 1000000.
Proof. repeat split; reflexivity. Qed.

Lemma C6_witness :
  rq_policy (runqueues ex_fifo_tick 0) = SCHED_FIFO /\
  rq_time_slice (runqueues ex_fifo_tick 0) = 3000 /\
  rq_time_slice
    (runqueues (update_cpu_clock cfg_HZ 0 2%nat true ex_fifo_tick) 0)
    = 3000 /\
  rq_time_slice
    (runqueues
       (task_running_tick cfg_HZ cfg_NR_CPUS cfg_MAX_RT_PRIO 0 ex_fifo_tick)
       0)
    = 3000 /\
  rq_time_slice
    (runqueues
       (scheduler_tick cfg_HZ cfg_NR_CPUS cfg_MAX_RT_PRIO ex_fifo_tick) 0)
    = 3000 /\
  tasks (scheduler_tick cfg_HZ cfg_NR_CPUS cfg_MAX_RT_PRIO ex_fifo_tick)
    = tasks ex_fifo_tick.
Proof.
  assert (H : rq_policy (runqueues ex_fifo_tick 0) = SCHED_FIFO)
    by reflexivity.
  destruct (C6_fifo_timeslice_not_decremented cfg_HZ cfg_NR_CPUS
              cfg_MAX_RT_PRIO ex_fifo_tick 0 2%nat true H)
    as (H1 & H2 & _ & H4).
  destruct (H4 eq_refl) as [H5 H6].
  exact (conj H (conj eq_refl (conj H1 (conj H2 (conj H5 H6))))).
Defined.

(** The same tick with a SCHED_NORMAL task running takes the 5 ms that
    went by off the timeslice (niffy_diff trusts them). *)
Example scheduler_tick_normal_decrements :
  rq_time_slice
    (runqueues
       (scheduler_tick cfg_HZ cfg_NR_CPUS cfg_MAX_RT_PRIO
          (with_rq 0 (set_rq_policy SCHED_NORMAL) ex_fifo_tick)) 0)
  = 3000 - 5000000 / 1024.
Proof. reflexivity. Qed.

Lemma C7_witness :
  (0 <= cfg_MAX_RT_PRIO /\
   p_policy (tasks (ex_iso 1) 4%nat) = SCHED_ISO /\
   rt_task cfg_MAX_RT_PRIO (ex_iso 1) 4%nat = false /\
   p_normal_prio (tasks (ex_iso 1) 4%nat)
     = normal_prio cfg_MAX_RT_PRIO (ex_iso 1) 4%nat /\
   let s' := enqueue_task cfg_MAX_RT_PRIO cfg_PF_EXITING
               cfg_task_contributes_to_load 4%nat (ex_iso 1) in
   p_prio (tasks s' 4%nat) = 102 /\
   grq_queue (grq s') 102 = [4%nat]) /\
  (0 <= cfg_MAX_RT_PRIO /\
   p_policy (tasks (ex_iso 0) 4%nat) = SCHED_ISO /\
   rt_task cfg_MAX_RT_PRIO (ex_iso 0) 4%nat = false /\
   p_normal_prio (tasks (ex_iso 0) 4%nat)
     = normal_prio cfg_MAX_RT_PRIO (ex_iso 0) 4%nat /\
   let s' := enqueue_task cfg_MAX_RT_PRIO cfg_PF_EXITING
               cfg_task_contributes_to_load 4%nat (ex_iso 0) in
   p_prio (tasks s' 4%nat) = 101 /\
   grq_queue (grq s') 101 = [4%nat]).
Proof.
  assert (H0 : 0 <= cfg_MAX_RT_PRIO) by (vm_compute; discriminate).
  split.
  - destruct (C7_enqueue_task_iso_band cfg_MAX_RT_PRIO cfg_PF_EXITING
                cfg_task_contributes_to_load (ex_iso 1) 4%nat
                H0 eq_refl eq_refl eq_refl) as (Hp & Hq & _).
    exact (conj H0 (conj eq_refl (conj eq_refl (conj eq_refl (conj Hp Hq))))).
  - destruct (C7_enqueue_task_iso_band cfg_MAX_RT_PRIO cfg_PF_EXITING
                cfg_task_contributes_to_load (ex_iso 0) 4%nat
                H0 eq_refl eq_refl eq_refl) as (Hp & Hq & _).
    exact (conj H0 (conj eq_refl (conj eq_refl (conj eq_refl (conj Hp Hq))))).
Defined.

Lemma C8_witness :
  p_policy (tasks ex_wake_idleprio 4%nat) = SCHED_IDLEPRIO /\
  cpus_intersects cfg_NR_CPUS (p_cpus_allowed (tasks ex_wake_idleprio 4%nat))
    (grq_cpu_idle_map (grq ex_wake_idleprio)) = false /\
  try_preempt cfg_NR_CPUS cfg_MAX_RT_PRIO 4%nat 0 ex_wake_idleprio
    = ex_wake_idleprio /\
  try_preempt_up 4%nat 0 ex_wake_idleprio = ex_wake_idleprio.
Proof.
  destruct (C8_idleprio_never_preempts cfg_NR_CPUS cfg_MAX_RT_PRIO
              ex_wake_idleprio 4%nat 0 eq_refl eq_refl) as (H1 & H2 & _).
  exact (conj eq_refl (conj eq_refl (conj H1 H2))).
Defined.

Lemma C9_witness :
  is_rt_policy (p_policy (tasks ex_wake_normal 4%nat)) = false /\
  -20 <= 5 <= 19 /\
  task_nice cfg_MAX_RT_PRIO
    (set_user_nice cfg_HZ cfg_NR_CPUS cfg_MAX_RT_PRIO cfg_PF_EXITING
       cfg_task_contributes_to_load 4%nat 5 ex_wake_normal) 4%nat = 5.
Proof.
  assert (H : -20 <= 5 <= 19) by lia.
  exact (conj eq_refl (conj H
           (C9_set_user_nice_round_trip cfg_HZ cfg_NR_CPUS cfg_MAX_RT_PRIO
              cfg_PF_EXITING cfg_task_contributes_to_load ex_wake_normal
              4%nat 5 eq_refl H))).
Defined.

(** Task 2 is running on CPU 0 and has just set its state to
    TASK_INTERRUPTIBLE (1) when the wake-up arrives. *)
Lemma C10_witness :
  Z.land
    (to_uint (p_state (tasks (with_task 2%nat (set_p_state 1) ex_wake_normal)
                         2%nat))) 1 <> 0 /\
  (task_queued cfg_MAX_RT_PRIO
     (with_task 2%nat (set_p_state 1) ex_wake_normal) 2%nat = true \/
   task_running (with_task 2%nat (set_p_state 1) ex_wake_normal) 2%nat
     = true) /\
  try_to_wake_up cfg_HZ cfg_NR_CPUS cfg_MAX_RT_PRIO cfg_TASK_RUNNING
    cfg_PF_EXITING cfg_WF_SYNC cfg_task_contributes_to_load 2%nat 1 0
    (with_task 2%nat (set_p_state 1) ex_wake_normal)
  = (0, with_task 2%nat (set_p_state cfg_TASK_RUNNING)
          (with_task 2%nat (set_p_state 1) ex_wake_normal)).
Proof.
  assert (H1 : Z.land
                 (to_uint (p_state
                    (tasks (with_task 2%nat (set_p_state 1) ex_wake_normal)
                       2%nat))) 1 <> 0)
    by (vm_compute; discriminate).
  assert (H2 : task_queued cfg_MAX_RT_PRIO
                 (with_task 2%nat (set_p_state 1) ex_wake_normal) 2%nat
               = true \/
               task_running (with_task 2%nat (set_p_state 1) ex_wake_normal)
                 2%nat = true)
    by (right; reflexivity).
  exact (conj H1 (conj H2
           (proj1 (C10_try_to_wake_up_already_active cfg_HZ cfg_NR_CPUS
                     cfg_MAX_RT_PRIO cfg_TASK_RUNNING cfg_PF_EXITING
                     cfg_WF_SYNC cfg_task_contributes_to_load
                     (with_task 2%nat (set_p_state 1) ex_wake_normal)
                     2%nat 1 0 H1 H2)))).
Defined.

(** ** More statements at concrete machines *)

Ltac by_compute :=
  vm_compute; repeat split; solve [reflexivity | discriminate].

Lemma ex_rt_queued_bitmap :
  bitmap_matches_queues cfg_MAX_RT_PRIO ex_rt_queued.
Proof.
  intros b Hb. unfold PRIO_LIMIT, IDLE_PRIO, cfg_MAX_RT_PRIO in Hb.
  change (grq_prio_bitmap (grq ex_rt_queued))
    with (Z.setbit (Z.setbit (Z.setbit 0 104) 50) 60).
  change (grq_queue (grq ex_rt_queued) b) with (ex_rt_queue b).
  unfold ex_rt_queue.
  rewrite !Z.setbit_eqb by lia. rewrite Z.bits_0, orb_false_r.
  replace (104 =? b) with false by (symmetry; apply Z.eqb_neq; lia).
  rewrite orb_false_r, (Z.eqb_sym 60 b), (Z.eqb_sym 50 b).
  destruct (b =? 50), (b =? 60); cbn [orb];
    (split; [discriminate || (intros _; discriminate)
            | reflexivity || (intros H; now elim H)]).
Qed.

Lemma ex_rt_queued_own_band (p : tid) :
  (p = 11%nat /\ p_prio (tasks ex_rt_queued p) = 50) \/
  (p = 12%nat /\ p_prio (tasks ex_rt_queued p) = 60) ->
  queued_in_own_band ex_rt_queued p.
Proof.
  intros Hp b Hin. simpl in Hin. unfold ex_rt_queue in Hin.
  destruct (b =? 50) eqn:E50; [apply Z.eqb_eq in E50|].
  { destruct Hp as [(-> & ->) | (-> & _)]; [exact E50|].
    destruct Hin as [H | [H | []]]; discriminate H. }
  destruct (b =? 60) eqn:E60; [apply Z.eqb_eq in E60 | destruct Hin].
  destruct Hp as [(-> & _) | (-> & ->)]; [|exact E60].
  destruct Hin as [H | []]; discriminate H.
Qed.

Lemma ex_rt_queued_not_queued (p : tid) :
  p <> 10%nat /\ p <> 11%nat /\ p <> 12%nat -> not_queued ex_rt_queued p.
Proof.
  intros (H10 & H11 & H12) b Hin. simpl in Hin. unfold ex_rt_queue in Hin.
  destruct (b =? 50); [destruct Hin as [H | [H | []]]; congruence|].
  destruct (b =? 60); [destruct Hin as [H | []]; congruence | destruct Hin].
Qed.

Lemma X1_witness :
  (not_queued ex_wake_normal 4%nat) /\
  (Z.testbit (grq_prio_bitmap (grq ex_wake_normal))
     (p_prio
        (tasks
           (enqueue_task cfg_MAX_RT_PRIO cfg_PF_EXITING
              cfg_task_contributes_to_load 4%nat ex_wake_normal)
           4%nat)) =
   true <->
   grq_queue (grq ex_wake_normal)
     (p_prio
        (tasks
           (enqueue_task cfg_MAX_RT_PRIO cfg_PF_EXITING
              cfg_task_contributes_to_load 4%nat ex_wake_normal)
           4%nat)) <>
   []) /\
  ((forall b : Z,
    grq_queue
      (grq
         (dequeue_task 4%nat
            (enqueue_task cfg_MAX_RT_PRIO cfg_PF_EXITING
               cfg_task_contributes_to_load 4%nat ex_wake_normal)))
      b =
    grq_queue (grq ex_wake_normal) b) /\
   grq_prio_bitmap
     (grq
        (dequeue_task 4%nat
           (enqueue_task cfg_MAX_RT_PRIO cfg_PF_EXITING
              cfg_task_contributes_to_load 4%nat ex_wake_normal))) =
   grq_prio_bitmap (grq ex_wake_normal) /\
   not_queued
     (dequeue_task 4%nat
        (enqueue_task cfg_MAX_RT_PRIO cfg_PF_EXITING
           cfg_task_contributes_to_load 4%nat ex_wake_normal))
     4%nat).
Proof.
  split; [intros b H; exact H|].
  split; [split; intros H; [vm_compute in H; discriminate H | exfalso; apply
    H; reflexivity]|].
  apply (X1_enqueue_dequeue_round_trip cfg_MAX_RT_PRIO cfg_PF_EXITING
    cfg_task_contributes_to_load ex_wake_normal 4%nat).
  - intros b H; exact H.
  - split; intros H; [vm_compute in H; discriminate H | exfalso; apply H;
    reflexivity].
Defined.

Lemma X2_witness :
  (bitmap_matches_queues cfg_MAX_RT_PRIO ex_rt_queued) /\
  (bitmap_matches_queues cfg_MAX_RT_PRIO
     (enqueue_task cfg_MAX_RT_PRIO cfg_PF_EXITING
        cfg_task_contributes_to_load 4%nat ex_rt_queued) /\
   grq_queue
     (grq
        (enqueue_task cfg_MAX_RT_PRIO cfg_PF_EXITING
           cfg_task_contributes_to_load 4%nat ex_rt_queued))
     (p_prio
        (tasks
           (enqueue_task cfg_MAX_RT_PRIO cfg_PF_EXITING
              cfg_task_contributes_to_load 4%nat ex_rt_queued)
           4%nat)) =
   grq_queue (grq ex_rt_queued)
     (p_prio
        (tasks
           (enqueue_task cfg_MAX_RT_PRIO cfg_PF_EXITING
              cfg_task_contributes_to_load 4%nat ex_rt_queued)
           4%nat)) ++
   [4%nat] /\
   (forall b : Z,
    b <>
    p_prio
      (tasks
         (enqueue_task cfg_MAX_RT_PRIO cfg_PF_EXITING
            cfg_task_contributes_to_load 4%nat ex_rt_queued)
         4%nat) ->
    grq_queue
      (grq
         (enqueue_task cfg_MAX_RT_PRIO cfg_PF_EXITING
            cfg_task_contributes_to_load 4%nat ex_rt_queued))
      b =
    grq_queue (grq ex_rt_queued) b)).
Proof.
  split; [exact ex_rt_queued_bitmap|].
  apply (X2_enqueue_task_keeps_bitmap cfg_MAX_RT_PRIO cfg_PF_EXITING
    cfg_task_contributes_to_load ex_rt_queued 4%nat).
  - exact ex_rt_queued_bitmap.
Defined.

Lemma X3_witness :
  (bitmap_matches_queues cfg_MAX_RT_PRIO ex_rt_queued) /\
  (queued_in_own_band ex_rt_queued 11%nat) /\
  (bitmap_matches_queues cfg_MAX_RT_PRIO
     (dequeue_task 11%nat ex_rt_queued) /\
   not_queued (dequeue_task 11%nat ex_rt_queued) 11%nat /\
   (forall b : Z,
    grq_queue (grq (dequeue_task 11%nat ex_rt_queued)) b =
    filter (fun x : nat => negb (x =? 11)%nat)
      (grq_queue (grq ex_rt_queued) b)) /\
   (forall b : Z,
    b <> p_prio (tasks ex_rt_queued 11%nat) ->
    grq_queue (grq (dequeue_task 11%nat ex_rt_queued)) b =
    grq_queue (grq ex_rt_queued) b)).
Proof.
  split; [exact ex_rt_queued_bitmap|].
  split; [apply ex_rt_queued_own_band; left; by_compute|].
  apply (X3_dequeue_task_keeps_bitmap cfg_MAX_RT_PRIO ex_rt_queued 11%nat).
  - exact ex_rt_queued_bitmap.
  - apply ex_rt_queued_own_band; left; by_compute.
Defined.

Lemma X5_witness :
  ((forall (b : Z) (q : tid),
    0 <= b < PRIO_LIMIT cfg_MAX_RT_PRIO ->
    In q (grq_queue (grq ex_pinned_queued) b) ->
    cpu_allowed ex_pinned_queued 0 q = false)) /\
  (earliest_deadline_task cfg_MAX_RT_PRIO 0 0%nat ex_pinned_queued =
   (0%nat, ex_pinned_queued)).
Proof.
  split; [intros b q _ H; simpl in H; destruct (b =? 50); [destruct H as [<- |
    []]; reflexivity | destruct H]|].
  apply (X5_earliest_deadline_task_nothing_to_run cfg_MAX_RT_PRIO
    ex_pinned_queued 0 0%nat).
  - intros b q _ H; simpl in H; destruct (b =? 50); [destruct H as [<- | []];
    reflexivity | destruct H].
Defined.

Lemma X6_witness :
  (bitmap_covers_queues cfg_MAX_RT_PRIO ex_edf_queued) /\
  (0 <= 102) /\
  (cfg_MAX_RT_PRIO <= 102 < PRIO_LIMIT cfg_MAX_RT_PRIO) /\
  ((forall (b' : Z) (q : tid),
    0 <= b' < 102 ->
    In q (grq_queue (grq ex_edf_queued) b') ->
    cpu_allowed ex_edf_queued 0 q = false)) /\
  (~ In 0%nat (grq_queue (grq ex_edf_queued) 102)) /\
  ((exists q : tid,
      In q (grq_queue (grq ex_edf_queued) 102) /\
      cpu_allowed ex_edf_queued 0 q = true)) /\
  (exists (p : tid) (l1 l2 : list tid),
     grq_queue (grq ex_edf_queued) 102 = l1 ++ p :: l2 /\
     cpu_allowed ex_edf_queued 0 p = true /\
     (forall q : tid,
      In q l1 ->
      cpu_allowed ex_edf_queued 0 q = true ->
      adjusted_deadline cfg_MAX_RT_PRIO ex_edf_queued 0 p <
      adjusted_deadline cfg_MAX_RT_PRIO ex_edf_queued 0 q) /\
     (forall q : tid,
      In q l2 ->
      cpu_allowed ex_edf_queued 0 q = true ->
      adjusted_deadline cfg_MAX_RT_PRIO ex_edf_queued 0 p <=
      adjusted_deadline cfg_MAX_RT_PRIO ex_edf_queued 0 q) /\
     earliest_deadline_task cfg_MAX_RT_PRIO 0 0%nat ex_edf_queued =
     (p, take_task 0 p ex_edf_queued)).
Proof.
  split; [intros b _ H; simpl in H; destruct (b =? 102) eqn:E; [apply Z.eqb_eq
    in E; subst b; reflexivity | now elim H]|].
  split; [by_compute|].
  split; [by_compute|].
  split; [intros b q Hb H; simpl in H; destruct (b =? 102) eqn:E; [apply
    Z.eqb_eq in E; lia | destruct H]|].
  split; [simpl; intros [H | [H | [H | []]]]; discriminate H|].
  split; [exists 20%nat; split; [left; reflexivity | reflexivity]|].
  apply (X6_earliest_deadline_task_edf cfg_MAX_RT_PRIO ex_edf_queued 0 0%nat
    102).
  - intros b _ H; simpl in H; destruct (b =? 102) eqn:E; [apply Z.eqb_eq in E;
    subst b; reflexivity | now elim H].
  - by_compute.
  - by_compute.
  - intros b q Hb H; simpl in H; destruct (b =? 102) eqn:E; [apply Z.eqb_eq in
    E; lia | destruct H].
  - simpl; intros [H | [H | [H | []]]]; discriminate H.
  - exists 20%nat; split; [left; reflexivity | reflexivity].
Defined.

Lemma X9_witness :
  (nr_cpu_ids ex_idle_cpu1 = cfg_NR_CPUS) /\
  ((exists c : Z,
      0 <= c < cfg_NR_CPUS /\
      Z.testbit (p_cpus_allowed (tasks ex_idle_cpu1 4%nat)) c = true /\
      Z.testbit (grq_cpu_idle_map (grq ex_idle_cpu1)) c = true)) /\
  (exists best : Z,
     0 <= best < cfg_NR_CPUS /\
     Z.testbit (p_cpus_allowed (tasks ex_idle_cpu1 4%nat)) best =
     true /\
     Z.testbit (grq_cpu_idle_map (grq ex_idle_cpu1)) best = true /\
     resched_best_idle cfg_NR_CPUS 4%nat ex_idle_cpu1 =
     resched_task (rq_curr (runqueues ex_idle_cpu1 best))
       ex_idle_cpu1 /\
     (0 <= task_cpu ex_idle_cpu1 4%nat < cfg_NR_CPUS ->
      cfg_NR_CPUS <= 2 ^ 31 ->
      Z.testbit (p_cpus_allowed (tasks ex_idle_cpu1 4%nat))
        (task_cpu ex_idle_cpu1 4%nat) =
      true ->
      Z.testbit (grq_cpu_idle_map (grq ex_idle_cpu1))
        (task_cpu ex_idle_cpu1 4%nat) =
      true ->
      rq_cpu_locality
        (runqueues ex_idle_cpu1 (task_cpu ex_idle_cpu1 4%nat))
        (task_cpu ex_idle_cpu1 4%nat) <=
      2 -> best = task_cpu ex_idle_cpu1 4%nat)).
Proof.
  split; [reflexivity|].
  split; [exists 1; by_compute|].
  apply (X9_resched_best_idle_choice cfg_NR_CPUS ex_idle_cpu1 4%nat).
  - reflexivity.
  - exists 1; by_compute.
Defined.

Lemma X10_witness :
  (Z.land (to_uint (p_state (tasks ex_wake_normal 4%nat))) 1 <> 0) /\
  (task_queued cfg_MAX_RT_PRIO ex_wake_normal 4%nat = false) /\
  (task_running ex_wake_normal 4%nat = false) /\
  (exists s' : sched,
     try_to_wake_up cfg_HZ cfg_NR_CPUS cfg_MAX_RT_PRIO
       cfg_TASK_RUNNING cfg_PF_EXITING cfg_WF_SYNC
       cfg_task_contributes_to_load 4%nat 1 0 ex_wake_normal =
     (1, s') /\
     p_state (tasks s' 4%nat) = cfg_TASK_RUNNING /\
     grq_queue (grq s') (p_prio (tasks s' 4%nat)) =
     grq_queue (grq ex_wake_normal) (p_prio (tasks s' 4%nat)) ++
     [4%nat] /\
     (forall b : Z,
      b <> p_prio (tasks s' 4%nat) ->
      grq_queue (grq s') b = grq_queue (grq ex_wake_normal) b) /\
     grq_prio_bitmap (grq s') =
     __set_bit (p_prio (tasks s' 4%nat))
       (grq_prio_bitmap (grq ex_wake_normal)) /\
     grq_nr_running (grq s') =
     to_ulong (grq_nr_running (grq ex_wake_normal) + 1) /\
     grq_qnr (grq s') = to_ulong (grq_qnr (grq ex_wake_normal) + 1)).
Proof.
  split; [by_compute|].
  split; [reflexivity|].
  split; [reflexivity|].
  apply (X10_try_to_wake_up_activates cfg_HZ cfg_NR_CPUS cfg_MAX_RT_PRIO
    cfg_TASK_RUNNING cfg_PF_EXITING cfg_WF_SYNC cfg_task_contributes_to_load
    4%nat 1 0 ex_wake_normal).
  - by_compute.
  - reflexivity.
  - reflexivity.
Defined.



Lemma X13_witness :
  (4%nat <> current (ex_fork 3000)) /\
  (let s' :=
     sched_fork cfg_MAX_RT_PRIO cfg_TASK_RUNNING 4%nat 0
       (ex_fork 3000)
     in
   p_prio (tasks s' 4%nat) =
   p_normal_prio (tasks (ex_fork 3000) (current (ex_fork 3000))) /\
   p_state (tasks s' 4%nat) = cfg_TASK_RUNNING /\
   p_oncpu (tasks s' 4%nat) = false /\
   p_cpu (tasks s' 4%nat) = smp_processor_id (ex_fork 3000) /\
   grq s' = grq (ex_fork 3000) /\
   p_sched_reset_on_fork (tasks s' 4%nat) = false /\
   (p_sched_reset_on_fork (tasks (ex_fork 3000) 4%nat) = true ->
    is_rt_policy (p_policy (tasks s' 4%nat)) = false /\
    0 <=
    PRIO_TO_NICE cfg_MAX_RT_PRIO (p_static_prio (tasks s' 4%nat))) /\
   (p_sched_reset_on_fork (tasks (ex_fork 3000) 4%nat) = false ->
    p_policy (tasks s' 4%nat) = p_policy (tasks (ex_fork 3000) 4%nat) /\
    p_static_prio (tasks s' 4%nat) =
    p_static_prio (tasks (ex_fork 3000) 4%nat))).
Proof.
  split; [by_compute|].
  apply (X13_sched_fork_child_priority cfg_MAX_RT_PRIO cfg_TASK_RUNNING
    (ex_fork 3000) 4%nat 0).
  - by_compute.
Defined.

Lemma X14_witness :
  (prio_ratios ex_wake_normal =
   prio_ratios (sched_init cfg_MAX_RT_PRIO ex_wake_normal)) /\
  (0 < rr_interval ex_wake_normal) /\
  (5263 * rr_interval ex_wake_normal * 8192 < 2 ^ 31) /\
  (0 <= 20) /\
  (20 < 39) /\
  (39 < PRIO_RANGE) /\
  (prio_deadline_diff ex_wake_normal 20 <
   prio_deadline_diff ex_wake_normal 39).
Proof.
  split; [reflexivity|].
  split; [by_compute|].
  split; [by_compute|].
  split; [by_compute|].
  split; [by_compute|].
  split; [by_compute|].
  apply (X14_prio_deadline_diff_increasing cfg_MAX_RT_PRIO ex_wake_normal 20
    39).
  - reflexivity.
  - by_compute.
  - by_compute.
  - by_compute.
  - by_compute.
  - by_compute.
Defined.

Lemma X15_witness :
  (curr_running_unqueued ex_rt_queued (smp_processor_id ex_rt_queued)) /\
  (not_queued ex_rt_queued
     (rq_idle_task
        (runqueues ex_rt_queued (smp_processor_id ex_rt_queued)))) /\
  (curr_running_unqueued
     (schedule cfg_HZ cfg_NR_CPUS cfg_MAX_RT_PRIO cfg_TASK_RUNNING
        cfg_PF_EXITING cfg_task_contributes_to_load
        cfg_signal_pending_state false ex_rt_queued)
     (smp_processor_id ex_rt_queued) /\
   not_queued
     (schedule cfg_HZ cfg_NR_CPUS cfg_MAX_RT_PRIO cfg_TASK_RUNNING
        cfg_PF_EXITING cfg_task_contributes_to_load
        cfg_signal_pending_state false ex_rt_queued)
     (rq_idle_task
        (runqueues ex_rt_queued (smp_processor_id ex_rt_queued))) /\
   rq_idle_task
     (runqueues
        (schedule cfg_HZ cfg_NR_CPUS cfg_MAX_RT_PRIO cfg_TASK_RUNNING
           cfg_PF_EXITING cfg_task_contributes_to_load
           cfg_signal_pending_state false ex_rt_queued)
        (smp_processor_id ex_rt_queued)) =
   rq_idle_task
     (runqueues ex_rt_queued (smp_processor_id ex_rt_queued)) /\
   smp_processor_id
     (schedule cfg_HZ cfg_NR_CPUS cfg_MAX_RT_PRIO cfg_TASK_RUNNING
        cfg_PF_EXITING cfg_task_contributes_to_load
        cfg_signal_pending_state false ex_rt_queued) =
   smp_processor_id ex_rt_queued /\
   (rq_curr
      (runqueues
         (schedule cfg_HZ cfg_NR_CPUS cfg_MAX_RT_PRIO
            cfg_TASK_RUNNING cfg_PF_EXITING
            cfg_task_contributes_to_load cfg_signal_pending_state
            false ex_rt_queued)
         (smp_processor_id ex_rt_queued)) <>
    rq_curr (runqueues ex_rt_queued (smp_processor_id ex_rt_queued)) ->
    p_oncpu
      (tasks
         (schedule cfg_HZ cfg_NR_CPUS cfg_MAX_RT_PRIO
            cfg_TASK_RUNNING cfg_PF_EXITING
            cfg_task_contributes_to_load cfg_signal_pending_state
            false ex_rt_queued)
         (rq_curr
            (runqueues ex_rt_queued (smp_processor_id ex_rt_queued)))) =
    false)).
Proof.
  split; [split; [reflexivity | apply ex_rt_queued_not_queued; by_compute]|].
  split; [apply ex_rt_queued_not_queued; by_compute|].
  apply (X15_schedule_keeps_curr_running cfg_HZ cfg_NR_CPUS cfg_MAX_RT_PRIO
    cfg_TASK_RUNNING cfg_PF_EXITING cfg_task_contributes_to_load
    cfg_signal_pending_state false ex_rt_queued).
  - split; [reflexivity | apply ex_rt_queued_not_queued; by_compute].
  - apply ex_rt_queued_not_queued; by_compute.
Defined.

Lemma X16_witness :
  (this_curr ex_sleeping <> this_idle ex_sleeping) /\
  (prev_sleeps cfg_signal_pending_state false ex_sleeping = true) /\
  (not_queued ex_sleeping (this_curr ex_sleeping)) /\
  (this_curr
     (schedule cfg_HZ cfg_NR_CPUS cfg_MAX_RT_PRIO cfg_TASK_RUNNING
        cfg_PF_EXITING cfg_task_contributes_to_load
        cfg_signal_pending_state false ex_sleeping) <>
   this_curr ex_sleeping /\
   p_oncpu
     (tasks
        (schedule cfg_HZ cfg_NR_CPUS cfg_MAX_RT_PRIO cfg_TASK_RUNNING
           cfg_PF_EXITING cfg_task_contributes_to_load
           cfg_signal_pending_state false ex_sleeping)
        (this_curr ex_sleeping)) =
   false /\
   not_queued
     (schedule cfg_HZ cfg_NR_CPUS cfg_MAX_RT_PRIO cfg_TASK_RUNNING
        cfg_PF_EXITING cfg_task_contributes_to_load
        cfg_signal_pending_state false ex_sleeping)
     (this_curr ex_sleeping) /\
   p_state
     (tasks
        (schedule cfg_HZ cfg_NR_CPUS cfg_MAX_RT_PRIO cfg_TASK_RUNNING
           cfg_PF_EXITING cfg_task_contributes_to_load
           cfg_signal_pending_state false ex_sleeping)
        (this_curr ex_sleeping)) =
   p_state (tasks ex_sleeping (this_curr ex_sleeping)) /\
   grq_nr_running
     (grq
        (schedule cfg_HZ cfg_NR_CPUS cfg_MAX_RT_PRIO cfg_TASK_RUNNING
           cfg_PF_EXITING cfg_task_contributes_to_load
           cfg_signal_pending_state false ex_sleeping)) =
   to_ulong (grq_nr_running (grq ex_sleeping) - 1) /\
   grq_nr_switches
     (grq
        (schedule cfg_HZ cfg_NR_CPUS cfg_MAX_RT_PRIO cfg_TASK_RUNNING
           cfg_PF_EXITING cfg_task_contributes_to_load
           cfg_signal_pending_state false ex_sleeping)) =
   to_u64 (grq_nr_switches (grq ex_sleeping) + 1) /\
   (grq_qnr (grq ex_sleeping) = 0 ->
    this_curr
      (schedule cfg_HZ cfg_NR_CPUS cfg_MAX_RT_PRIO cfg_TASK_RUNNING
         cfg_PF_EXITING cfg_task_contributes_to_load
         cfg_signal_pending_state false ex_sleeping) =
    this_idle ex_sleeping /\
    grq_cpu_idle_map
      (grq
         (schedule cfg_HZ cfg_NR_CPUS cfg_MAX_RT_PRIO
            cfg_TASK_RUNNING cfg_PF_EXITING
            cfg_task_contributes_to_load cfg_signal_pending_state
            false ex_sleeping)) =
    Z.setbit (grq_cpu_idle_map (grq ex_sleeping))
      (smp_processor_id ex_sleeping))).
Proof.
  split; [by_compute|].
  split; [reflexivity|].
  split; [apply ex_rt_queued_not_queued; by_compute|].
  apply (X16_schedule_deactivates_sleeping_task cfg_HZ cfg_NR_CPUS
    cfg_MAX_RT_PRIO cfg_TASK_RUNNING cfg_PF_EXITING
    cfg_task_contributes_to_load cfg_signal_pending_state false ex_sleeping).
  - by_compute.
  - reflexivity.
  - apply ex_rt_queued_not_queued; by_compute.
Defined.

Lemma X17_witness :
  (this_curr ex_rt_queued <> this_idle ex_rt_queued) /\
  (prev_sleeps cfg_signal_pending_state true ex_rt_queued = false) /\
  ((this_curr
      (schedule cfg_HZ cfg_NR_CPUS cfg_MAX_RT_PRIO cfg_TASK_RUNNING
         cfg_PF_EXITING cfg_task_contributes_to_load
         cfg_signal_pending_state true ex_rt_queued) =
    this_curr ex_rt_queued \/
    In (this_curr ex_rt_queued)
      (grq_queue
         (grq
            (schedule cfg_HZ cfg_NR_CPUS cfg_MAX_RT_PRIO
               cfg_TASK_RUNNING cfg_PF_EXITING
               cfg_task_contributes_to_load cfg_signal_pending_state
               true ex_rt_queued))
         (p_prio
            (tasks
               (schedule cfg_HZ cfg_NR_CPUS cfg_MAX_RT_PRIO
                  cfg_TASK_RUNNING cfg_PF_EXITING
                  cfg_task_contributes_to_load
                  cfg_signal_pending_state true ex_rt_queued)
               (this_curr ex_rt_queued))))) /\
   grq_nr_running
     (grq
        (schedule cfg_HZ cfg_NR_CPUS cfg_MAX_RT_PRIO cfg_TASK_RUNNING
           cfg_PF_EXITING cfg_task_contributes_to_load
           cfg_signal_pending_state true ex_rt_queued)) =
   grq_nr_running (grq ex_rt_queued)).
Proof.
  split; [by_compute|].
  split; [reflexivity|].
  apply (X17_schedule_keeps_runnable_task cfg_HZ cfg_NR_CPUS cfg_MAX_RT_PRIO
    cfg_TASK_RUNNING cfg_PF_EXITING cfg_task_contributes_to_load
    cfg_signal_pending_state true ex_rt_queued).
  - by_compute.
  - reflexivity.
Defined.

Lemma X18_witness :
  (this_curr
     (schedule cfg_HZ cfg_NR_CPUS cfg_MAX_RT_PRIO cfg_TASK_RUNNING
        cfg_PF_EXITING cfg_task_contributes_to_load
        cfg_signal_pending_state false ex_rt_queued) <>
   this_curr ex_rt_queued) /\
  (rq_caches_curr
     (schedule cfg_HZ cfg_NR_CPUS cfg_MAX_RT_PRIO cfg_TASK_RUNNING
        cfg_PF_EXITING cfg_task_contributes_to_load
        cfg_signal_pending_state false ex_rt_queued)
     (smp_processor_id ex_rt_queued)).
Proof.
  split; [by_compute|].
  apply (X18_schedule_caches_next_task cfg_HZ cfg_NR_CPUS cfg_MAX_RT_PRIO
    cfg_TASK_RUNNING cfg_PF_EXITING cfg_task_contributes_to_load
    cfg_signal_pending_state false ex_rt_queued).
  - by_compute.
Defined.

Lemma X19_witness :
  (bitmap_matches_queues cfg_MAX_RT_PRIO ex_rt_queued) /\
  (queued_in_own_band ex_rt_queued 12%nat) /\
  (task_queued cfg_MAX_RT_PRIO ex_rt_queued 12%nat = true) /\
  (0 <= 40 < cfg_MAX_RT_PRIO) /\
  (p_prio
     (tasks
        (rt_mutex_setprio cfg_NR_CPUS cfg_MAX_RT_PRIO cfg_PF_EXITING
           cfg_task_contributes_to_load 12%nat 40 ex_rt_queued)
        12%nat) =
   40 /\
   p_normal_prio
     (tasks
        (rt_mutex_setprio cfg_NR_CPUS cfg_MAX_RT_PRIO cfg_PF_EXITING
           cfg_task_contributes_to_load 12%nat 40 ex_rt_queued)
        12%nat) =
   p_normal_prio (tasks ex_rt_queued 12%nat) /\
   p_static_prio
     (tasks
        (rt_mutex_setprio cfg_NR_CPUS cfg_MAX_RT_PRIO cfg_PF_EXITING
           cfg_task_contributes_to_load 12%nat 40 ex_rt_queued)
        12%nat) =
   p_static_prio (tasks ex_rt_queued 12%nat) /\
   grq_queue
     (grq
        (rt_mutex_setprio cfg_NR_CPUS cfg_MAX_RT_PRIO cfg_PF_EXITING
           cfg_task_contributes_to_load 12%nat 40 ex_rt_queued))
     40 =
   filter (fun x : nat => negb (x =? 12)%nat)
     (grq_queue (grq ex_rt_queued) 40) ++
   [12%nat] /\
   (forall b : Z,
    b <> 40 ->
    grq_queue
      (grq
         (rt_mutex_setprio cfg_NR_CPUS cfg_MAX_RT_PRIO cfg_PF_EXITING
            cfg_task_contributes_to_load 12%nat 40 ex_rt_queued))
      b =
    filter (fun x : nat => negb (x =? 12)%nat)
      (grq_queue (grq ex_rt_queued) b)) /\
   bitmap_matches_queues cfg_MAX_RT_PRIO
     (rt_mutex_setprio cfg_NR_CPUS cfg_MAX_RT_PRIO cfg_PF_EXITING
        cfg_task_contributes_to_load 12%nat 40 ex_rt_queued) /\
   queued_in_own_band
     (rt_mutex_setprio cfg_NR_CPUS cfg_MAX_RT_PRIO cfg_PF_EXITING
        cfg_task_contributes_to_load 12%nat 40 ex_rt_queued)
     12%nat).
Proof.
  split; [exact ex_rt_queued_bitmap|].
  split; [apply ex_rt_queued_own_band; right; by_compute|].
  split; [reflexivity|].
  split; [by_compute|].
  apply (X19_rt_mutex_setprio_requeues cfg_NR_CPUS cfg_MAX_RT_PRIO
    cfg_PF_EXITING cfg_task_contributes_to_load ex_rt_queued 12%nat 40).
  - exact ex_rt_queued_bitmap.
  - apply ex_rt_queued_own_band; right; by_compute.
  - reflexivity.
  - by_compute.
Defined.

Lemma X20_witness :
  (0 <= 0) /\
  (- 2 ^ 31 +
   Z.of_nat
     (length
        (ex_waitq cfg_HZ cfg_NR_CPUS cfg_MAX_RT_PRIO cfg_TASK_RUNNING
           cfg_PF_EXITING cfg_WF_SYNC cfg_task_contributes_to_load)) <=
   0) /\
  (__wake_up_common cfg_WQ_FLAG_EXCLUSIVE
     (ex_waitq cfg_HZ cfg_NR_CPUS cfg_MAX_RT_PRIO cfg_TASK_RUNNING
        cfg_PF_EXITING cfg_WF_SYNC cfg_task_contributes_to_load)
     cfg_TASK_NORMAL 0 0 ex_wake_normal =
   wake_all
     (ex_waitq cfg_HZ cfg_NR_CPUS cfg_MAX_RT_PRIO cfg_TASK_RUNNING
        cfg_PF_EXITING cfg_WF_SYNC cfg_task_contributes_to_load)
     cfg_TASK_NORMAL 0 ex_wake_normal).
Proof.
  split; [by_compute|].
  split; [by_compute|].
  apply (X20_wake_up_common_wakes_all cfg_WQ_FLAG_EXCLUSIVE (ex_waitq cfg_HZ
    cfg_NR_CPUS cfg_MAX_RT_PRIO cfg_TASK_RUNNING cfg_PF_EXITING cfg_WF_SYNC
    cfg_task_contributes_to_load) cfg_TASK_NORMAL 0 0 ex_wake_normal).
  - by_compute.
  - by_compute.
Defined.

Lemma X21_witness :
  (1 <= 1 < 2 ^ 31) /\
  (exists q1 q2 : list wait_queue_t,
     ex_waitq cfg_HZ cfg_NR_CPUS cfg_MAX_RT_PRIO cfg_TASK_RUNNING
       cfg_PF_EXITING cfg_WF_SYNC cfg_task_contributes_to_load =
     q1 ++ q2 /\
     __wake_up_common cfg_WQ_FLAG_EXCLUSIVE
       (ex_waitq cfg_HZ cfg_NR_CPUS cfg_MAX_RT_PRIO cfg_TASK_RUNNING
          cfg_PF_EXITING cfg_WF_SYNC cfg_task_contributes_to_load)
       cfg_TASK_NORMAL 1 0 ex_wake_normal =
     wake_all q1 cfg_TASK_NORMAL 0 ex_wake_normal /\
     exclusive_woken cfg_WQ_FLAG_EXCLUSIVE q1 cfg_TASK_NORMAL 0
       ex_wake_normal <=
     1 /\
     (q2 <> [] ->
      exclusive_woken cfg_WQ_FLAG_EXCLUSIVE q1 cfg_TASK_NORMAL 0
        ex_wake_normal =
      1)).
Proof.
  split; [by_compute|].
  apply (X21_wake_up_common_exclusive_budget cfg_WQ_FLAG_EXCLUSIVE (ex_waitq
    cfg_HZ cfg_NR_CPUS cfg_MAX_RT_PRIO cfg_TASK_RUNNING cfg_PF_EXITING
    cfg_WF_SYNC cfg_task_contributes_to_load) cfg_TASK_NORMAL 1 0
    ex_wake_normal).
  - by_compute.
Defined.

Lemma X22_witness :
  (0 <=
   done
     (ex_completion cfg_HZ cfg_NR_CPUS cfg_MAX_RT_PRIO
        cfg_TASK_RUNNING cfg_PF_EXITING cfg_WF_SYNC
        cfg_task_contributes_to_load) <
   UINT_MAX) /\
  (try_wait_for_completion
     (fst
        (complete cfg_WQ_FLAG_EXCLUSIVE cfg_TASK_NORMAL
           (ex_completion cfg_HZ cfg_NR_CPUS cfg_MAX_RT_PRIO
              cfg_TASK_RUNNING cfg_PF_EXITING cfg_WF_SYNC
              cfg_task_contributes_to_load)
           ex_wake_normal)) =
   (true,
    {|
      done :=
        done
          (ex_completion cfg_HZ cfg_NR_CPUS cfg_MAX_RT_PRIO
             cfg_TASK_RUNNING cfg_PF_EXITING cfg_WF_SYNC
             cfg_task_contributes_to_load);
      wait :=
        wait
          (ex_completion cfg_HZ cfg_NR_CPUS cfg_MAX_RT_PRIO
             cfg_TASK_RUNNING cfg_PF_EXITING cfg_WF_SYNC
             cfg_task_contributes_to_load)
    |}) /\
   completion_done
     (fst
        (complete cfg_WQ_FLAG_EXCLUSIVE cfg_TASK_NORMAL
           (ex_completion cfg_HZ cfg_NR_CPUS cfg_MAX_RT_PRIO
              cfg_TASK_RUNNING cfg_PF_EXITING cfg_WF_SYNC
              cfg_task_contributes_to_load)
           ex_wake_normal)) =
   true /\
   exists q1 q2 : list wait_queue_t,
     wait
       (ex_completion cfg_HZ cfg_NR_CPUS cfg_MAX_RT_PRIO
          cfg_TASK_RUNNING cfg_PF_EXITING cfg_WF_SYNC
          cfg_task_contributes_to_load) =
     q1 ++ q2 /\
     snd
       (complete cfg_WQ_FLAG_EXCLUSIVE cfg_TASK_NORMAL
          (ex_completion cfg_HZ cfg_NR_CPUS cfg_MAX_RT_PRIO
             cfg_TASK_RUNNING cfg_PF_EXITING cfg_WF_SYNC
             cfg_task_contributes_to_load)
          ex_wake_normal) =
     wake_all q1 cfg_TASK_NORMAL 0 ex_wake_normal /\
     exclusive_woken cfg_WQ_FLAG_EXCLUSIVE q1 cfg_TASK_NORMAL 0
       ex_wake_normal <=
     1).
Proof.
  split; [by_compute|].
  apply (X22_complete_try_wait_round_trip cfg_WQ_FLAG_EXCLUSIVE
    cfg_TASK_NORMAL (ex_completion cfg_HZ cfg_NR_CPUS cfg_MAX_RT_PRIO
    cfg_TASK_RUNNING cfg_PF_EXITING cfg_WF_SYNC cfg_task_contributes_to_load)
    ex_wake_normal).
  - by_compute.
Defined.

Lemma X24_witness :
  (rq_cpu (runqueues ex_rt_queued (smp_processor_id ex_rt_queued)) =
   smp_processor_id ex_rt_queued) /\
  (0 <= smp_processor_id ex_rt_queued < 2 ^ 32) /\
  (this_curr
     (schedule cfg_HZ cfg_NR_CPUS cfg_MAX_RT_PRIO cfg_TASK_RUNNING
        cfg_PF_EXITING cfg_task_contributes_to_load
        cfg_signal_pending_state false ex_rt_queued) =
   this_idle ex_rt_queued \/
   cpu_allowed
     (schedule cfg_HZ cfg_NR_CPUS cfg_MAX_RT_PRIO cfg_TASK_RUNNING
        cfg_PF_EXITING cfg_task_contributes_to_load
        cfg_signal_pending_state false ex_rt_queued)
     (smp_processor_id ex_rt_queued)
     (this_curr
        (schedule cfg_HZ cfg_NR_CPUS cfg_MAX_RT_PRIO cfg_TASK_RUNNING
           cfg_PF_EXITING cfg_task_contributes_to_load
           cfg_signal_pending_state false ex_rt_queued)) =
   true).
Proof.
  split; [reflexivity|].
  split; [by_compute|].
  apply (X24_schedule_respects_affinity cfg_HZ cfg_NR_CPUS cfg_MAX_RT_PRIO
    cfg_TASK_RUNNING cfg_PF_EXITING cfg_task_contributes_to_load
    cfg_signal_pending_state false ex_rt_queued).
  - reflexivity.
  - by_compute.
Defined.

Lemma X26_witness :
  (- 2 ^ 31 + 2 ^ 22 <= rq_time_slice (runqueues ex_wake_normal 0) <
   2 ^ 31) /\
  (rq_time_slice
     (runqueues (update_cpu_clock cfg_HZ 0 2%nat true ex_wake_normal)
        0) <=
   rq_time_slice (runqueues ex_wake_normal 0) /\
   rq_time_slice (runqueues ex_wake_normal 0) - 2 ^ 22 <
   rq_time_slice
     (runqueues (update_cpu_clock cfg_HZ 0 2%nat true ex_wake_normal)
        0) /\
   (rq_policy (runqueues ex_wake_normal 0) = SCHED_FIFO \/
    2%nat = rq_idle_task (runqueues ex_wake_normal 0) ->
    rq_time_slice
      (runqueues
         (update_cpu_clock cfg_HZ 0 2%nat true ex_wake_normal) 0) =
    rq_time_slice (runqueues ex_wake_normal 0)) /\
   rq_last_ran
     (runqueues (update_cpu_clock cfg_HZ 0 2%nat true ex_wake_normal)
        0) =
   rq_clock (runqueues ex_wake_normal 0) /\
   rq_timekeep_clock
     (runqueues (update_cpu_clock cfg_HZ 0 2%nat true ex_wake_normal)
        0) =
   rq_clock (runqueues ex_wake_normal 0)).
Proof.
  split; [by_compute|].
  apply (X26_update_cpu_clock_slice_shrinks cfg_HZ ex_wake_normal 0 2%nat
    true).
  - by_compute.
Defined.

Lemma X23_witness :
  (prio_ratios ex_wake_normal =
   prio_ratios (sched_init cfg_MAX_RT_PRIO ex_wake_normal)) /\
  (0 < rr_interval ex_wake_normal) /\
  (5263 * rr_interval ex_wake_normal * 8192 < 2 ^ 31) /\
  (has_rt_policy ex_wake_normal 4%nat = false) /\
  (-20 <= 5 <= 19) /\
  (-20 <= TASK_NICE cfg_MAX_RT_PRIO ex_wake_normal 4%nat <= 19) /\
  (TASK_NICE cfg_MAX_RT_PRIO ex_wake_normal 4%nat <> 5) /\
  (0 <=
   p_deadline (tasks ex_wake_normal 4%nat) +
   (prio_deadline_diff ex_wake_normal (5 + 20) -
    prio_deadline_diff ex_wake_normal
      (TASK_NICE cfg_MAX_RT_PRIO ex_wake_normal 4%nat + 20)) <
   2 ^ 64) /\
  (p_deadline
     (tasks
        (set_user_nice cfg_HZ cfg_NR_CPUS cfg_MAX_RT_PRIO
           cfg_PF_EXITING cfg_task_contributes_to_load 4%nat 5
           ex_wake_normal)
        4%nat) =
   p_deadline (tasks ex_wake_normal 4%nat) +
   (prio_deadline_diff ex_wake_normal (5 + 20) -
    prio_deadline_diff ex_wake_normal
      (TASK_NICE cfg_MAX_RT_PRIO ex_wake_normal 4%nat + 20)) /\
   (TASK_NICE cfg_MAX_RT_PRIO ex_wake_normal 4%nat < 5 <->
    p_deadline (tasks ex_wake_normal 4%nat) <
    p_deadline
      (tasks
         (set_user_nice cfg_HZ cfg_NR_CPUS cfg_MAX_RT_PRIO
            cfg_PF_EXITING cfg_task_contributes_to_load 4%nat 5
            ex_wake_normal)
         4%nat))).
Proof.
  split; [reflexivity|].
  split; [by_compute|].
  split; [by_compute|].
  split; [reflexivity|].
  split; [by_compute|].
  split; [by_compute|].
  split; [by_compute|].
  split; [by_compute|].
  apply (X23_set_user_nice_shifts_deadline cfg_HZ cfg_NR_CPUS cfg_MAX_RT_PRIO
    cfg_PF_EXITING cfg_task_contributes_to_load ex_wake_normal 4%nat 5).
  - reflexivity.
  - by_compute.
  - by_compute.
  - reflexivity.
  - by_compute.
  - by_compute.
  - by_compute.
  - by_compute.
Defined.
